(** * Shopify invoice generator: model and verification

    A shallow embedding of [generador_facturas.py] (class
    [ShopifyInvoiceGenerator]) and of the few library operations it calls.

    Python values are a small dynamically typed universe ([pyval]), Python
    exceptions are values of [pyexn] carried by [PyResult], and every method
    that touches the outside world runs in a state-and-exception monad over
    the process state ([State]): the wall clock, standard output, the files
    on disk and the HTTP traffic.  Whatever lies outside the process (the
    remote services, the clock readings, disk faults, the interpreter's
    [repr]) is supplied by an environment record ([Env]) over which all
    results are universally quantified. *)

From Stdlib Require Import ZArith List String Ascii Bool Lia DecimalString.
From Stdlib Require Import SpecFloat.
From Stdlib Require Import DecimalN.
From stdpp Require Import base option list strings gmap.

Local Open Scope Z_scope.

(* ===================================================================== *)
(** * Python values, exceptions and results *)
(* ===================================================================== *)

(** The exception classes the program can meet.  The last three are
    subclasses of [requests.exceptions.RequestException]. *)
Inductive exn_class :=
| KeyError | TypeError | ValueError | AttributeError | OverflowError
| OSError | LocaleError
| HTTPError | ConnectionError | InvalidJSONError.

(** An exception: its class and [str(e)]. *)
Record pyexn := Exn { exn_cls : exn_class; exn_str : string }.

Definition is_RequestException (e : pyexn) : bool :=
  match exn_cls e with
  | HTTPError | ConnectionError | InvalidJSONError => true
  | _ => false
  end.

Inductive PyResult (A : Type) :=
| Return (a : A)
| Raise (e : pyexn).
Arguments Return {A} a.
Arguments Raise {A} e.

Definition rbind {A B} (c : PyResult A) (k : A -> PyResult B) : PyResult B :=
  match c with
  | Return a => k a
  | Raise e => Raise e
  end.

Notation "'let?' x ':=' c 'in' k" := (rbind c (fun x => k))
  (at level 10, x name, c at level 100, k at level 200).

(** What [json.loads] produces, plus the values the program builds from it.
    A dict is an association list in insertion order; the first binding of
    a key is the live one. *)
#[warnings="-register-all"]
Inductive pyval :=
| VNone
| VBool (b : bool)
| VInt (z : Z)
| VFloat (f : spec_float)
| VStr (s : string)
| VList (l : list pyval)
| VDict (d : list (string * pyval)).

Definition type_name (v : pyval) : string :=
  match v with
  | VNone => "NoneType"
  | VBool _ => "bool"
  | VInt _ => "int"
  | VFloat _ => "float"
  | VStr _ => "str"
  | VList _ => "list"
  | VDict _ => "dict"
  end.

Fixpoint dict_lookup (k : string) (d : list (string * pyval)) : option pyval :=
  match d with
  | [] => None
  | (k', v) :: d' => if String.eqb k k' then Some v else dict_lookup k d'
  end.

(** [d[k] = v] on a dict: overwrite in place, or append a new key. *)
Fixpoint dict_set (k : string) (v : pyval) (d : list (string * pyval))
  : list (string * pyval) :=
  match d with
  | [] => [(k, v)]
  | (k', v') :: d' =>
      if String.eqb k k' then (k', v) :: d' else (k', v') :: dict_set k v d'
  end.

Definition quoted (k : string) : string := "'" +:+ k +:+ "'".

(** [v[k]] for a string literal [k]. *)
Definition py_getitem (v : pyval) (k : string) : PyResult pyval :=
  match v with
  | VDict d =>
      match dict_lookup k d with
      | Some x => Return x
      | None => Raise (Exn KeyError (quoted k))
      end
  | VStr _ => Raise (Exn TypeError "string indices must be integers")
  | VList _ =>
      Raise (Exn TypeError "list indices must be integers or slices, not str")
  | _ =>
      Raise (Exn TypeError (quoted (type_name v) +:+ " object is not subscriptable"))
  end.

(** [v.get(k, default)]: only dicts have the method. *)
Definition py_get (v : pyval) (k : string) (default : pyval) : PyResult pyval :=
  match v with
  | VDict d =>
      match dict_lookup k d with
      | Some x => Return x
      | None => Return default
      end
  | _ =>
      Raise (Exn AttributeError
               (quoted (type_name v) +:+ " object has no attribute 'get'"))
  end.

Definition is_zero_float (f : spec_float) : bool :=
  match f with
  | S754_zero _ => true
  | _ => false
  end.

(** Truth value testing. *)
Definition py_truthy (v : pyval) : bool :=
  match v with
  | VNone => false
  | VBool b => b
  | VInt z => negb (z =? 0)
  | VFloat f => negb (is_zero_float f)
  | VStr s => negb (String.eqb s EmptyString)
  | VList l => match l with [] => false | _ => true end
  | VDict d => match d with [] => false | _ => true end
  end.

(** Decimal digits of a natural number and [str] of an [int]. *)
Definition digits_of_N (n : N) : string := NilEmpty.string_of_uint (N.to_uint n).

Definition string_of_Z (z : Z) : string :=
  if z <? 0 then "-" +:+ digits_of_N (Z.to_N (- z)) else digits_of_N (Z.to_N z).

(** [str(v)], as used by f-strings.  For floats and containers the result
    is the interpreter's [repr], passed in as [repr]. *)
Definition py_str (repr : pyval -> string) (v : pyval) : string :=
  match v with
  | VNone => "None"
  | VBool true => "True"
  | VBool false => "False"
  | VInt z => string_of_Z z
  | VStr s => s
  | _ => repr v
  end.

(** Iteration ([for x in v]): a list yields its elements, a dict its keys,
    a string its characters (here: its bytes). *)
Definition py_iter (v : pyval) : PyResult (list pyval) :=
  match v with
  | VList l => Return l
  | VDict d => Return (map (fun kv => VStr (fst kv)) d)
  | VStr s => Return (map (fun c => VStr (String c EmptyString)) (list_ascii_of_string s))
  | _ => Raise (Exn TypeError (quoted (type_name v) +:+ " object is not iterable"))
  end.

(* ===================================================================== *)
(** * Binary64 floating point *)
(* ===================================================================== *)

(** A Python [float] is an IEEE 754 binary64 value: [spec_float] at
    precision 53 and maximal exponent 1024. *)
Module Float64.

Definition prec : Z := 53.
Definition emax : Z := 1024.

Definition zero : spec_float := S754_zero false.

(** [float(n)] for an [int]: the nearest binary64, ties to even; beyond
    the finite range the conversion raises. *)
Definition of_Z (z : Z) : PyResult spec_float :=
  match binary_normalize prec emax z 0 false with
  | S754_infinity _ => Raise (Exn OverflowError "int too large to convert to float")
  | f => Return f
  end.

Definition mul (x y : spec_float) : spec_float := SFmul prec emax x y.

(** [x > 0]. *)
Definition gt_zero (x : spec_float) : bool := SFltb zero x.

(** The binary64 nearest to [(-1)^neg * d * 10^k], for [d >= 0]. *)
Definition of_decimal (neg : bool) (d k : Z) : spec_float :=
  if d <=? 0 then S754_zero neg
  else if 0 <=? k then
    match d * 10 ^ k with
    | Zpos m => binary_round prec emax neg m 0
    | _ => S754_zero neg
    end
  else
    let den := 10 ^ (- k) in
    let s := Z.max 0 (prec + 2 + Z.log2 den - Z.log2 d) in
    let num := d * 2 ^ s in
    let q := num / den in
    let r := num mod den in
    let loc := if r =? 0 then loc_Exact else loc_Inexact (Z.compare (2 * r) den) in
    binary_round_aux prec emax neg q (- s) loc.

(** ** [float(s)] for a string *)

Definition code (c : ascii) : Z := Z.of_nat (nat_of_ascii c).

Definition is_digit (c : ascii) : bool := (48 <=? code c) && (code c <=? 57).

Definition digit_val (c : ascii) : Z := code c - 48.

Definition is_space (c : ascii) : bool :=
  ((9 <=? code c) && (code c <=? 13)) || (code c =? 32).

Definition to_lower (c : ascii) : ascii :=
  if (65 <=? code c) && (code c <=? 90)
  then ascii_of_nat (nat_of_ascii c + 32) else c.

Fixpoint drop_spaces (l : list ascii) : list ascii :=
  match l with
  | c :: r => if is_space c then drop_spaces r else l
  | [] => []
  end.

Definition strip (l : list ascii) : list ascii :=
  rev (drop_spaces (rev (drop_spaces l))).

(** Digit-group underscores: one underscore may sit between two digits. *)
Fixpoint strip_underscores (prev : ascii) (l : list ascii) : option (list ascii) :=
  match l with
  | [] => if Ascii.eqb prev "_" then None else Some []
  | c :: r =>
      if Ascii.eqb c "_" then
        if is_digit prev then strip_underscores c r else None
      else if Ascii.eqb prev "_" && negb (is_digit c) then None
      else option_map (cons c) (strip_underscores c r)
  end.

Fixpoint span_digits (l : list ascii) : list ascii * list ascii :=
  match l with
  | c :: r =>
      if is_digit c then let '(ds, rest) := span_digits r in (c :: ds, rest)
      else ([], l)
  | [] => ([], [])
  end.

Definition digits_value (ds : list ascii) : Z :=
  fold_left (fun a c => 10 * a + digit_val c) ds 0.

Definition split_sign (l : list ascii) : bool * list ascii :=
  match l with
  | c :: r =>
      if Ascii.eqb c "-" then (true, r)
      else if Ascii.eqb c "+" then (false, r)
      else (false, l)
  | [] => (false, [])
  end.

(** The exponent part: [e] or [E], an optional sign and at least one
    digit.  A malformed exponent is left unread. *)
Definition parse_exponent (l : list ascii) : Z * list ascii :=
  match l with
  | c :: r =>
      if Ascii.eqb (to_lower c) "e" then
        let '(eneg, r1) := split_sign r in
        let '(eds, r2) := span_digits r1 in
        match eds with
        | [] => (0, l)
        | _ => ((if eneg then - digits_value eds else digits_value eds), r2)
        end
      else (0, l)
  | [] => (0, [])
  end.

(** A decimal literal that must extend to the end of the input. *)
Definition parse_decimal (neg : bool) (l : list ascii) : option spec_float :=
  let '(ids, r1) := span_digits l in
  let '(fds, r2) :=
    match r1 with
    | c :: r => if Ascii.eqb c "." then span_digits r else ([], r1)
    | [] => ([], [])
    end in
  match ids ++ fds with
  | [] => None
  | ds =>
      let '(e, r3) := parse_exponent r2 in
      match r3 with
      | [] => Some (of_decimal neg (digits_value ds) (e - Z.of_nat (length fds)))
      | _ => None
      end
  end.

Definition parse_inf_or_nan (neg : bool) (l : list ascii) : option spec_float :=
  let low := string_of_list_ascii (map to_lower l) in
  if String.eqb low "inf" || String.eqb low "infinity" then Some (S754_infinity neg)
  else if String.eqb low "nan" then Some S754_nan
  else None.

Definition all_ascii (l : list ascii) : bool := forallb (fun c => code c <? 128) l.

(** *** Text outside ASCII

    A [str] is kept as the bytes of its UTF-8 form.  Before it reads a text
    that is not all ASCII, [float] maps its characters to ASCII one by one:
    a character below 127 stays, a Unicode space becomes a blank, a Unicode
    decimal digit its ASCII digit, and at the first other character a
    question mark is put and the rest dropped. *)

(** The code points of a UTF-8 byte sequence; a byte that starts no
    sequence, or a sequence cut short, is read as -1. *)
Fixpoint code_points (l : list ascii) : list Z :=
  match l with
  | [] => []
  | b0 :: r0 =>
      let c0 := code b0 in
      if c0 <? 128 then c0 :: code_points r0
      else if (192 <=? c0) && (c0 <? 224) then
        match r0 with
        | b1 :: r1 => (c0 - 192) * 64 + (code b1 - 128) :: code_points r1
        | _ => [-1]
        end
      else if (224 <=? c0) && (c0 <? 240) then
        match r0 with
        | b1 :: b2 :: r2 =>
            (c0 - 224) * 4096 + (code b1 - 128) * 64 + (code b2 - 128)
              :: code_points r2
        | _ => [-1]
        end
      else if (240 <=? c0) && (c0 <? 248) then
        match r0 with
        | b1 :: b2 :: b3 :: r3 =>
            (c0 - 240) * 262144 + (code b1 - 128) * 4096 + (code b2 - 128) * 64
              + (code b3 - 128)
              :: code_points r3
        | _ => [-1]
        end
      else -1 :: code_points r0
  end.

(** The white space from 127 on ([str.isspace]). *)
Definition unicode_space (c : Z) : bool :=
  existsb (Z.eqb c) [133; 160; 5760; 8232; 8233; 8239; 8287; 12288]
  || ((8192 <=? c) && (c <=? 8202)).

(** The code points of the digit zero of every script with decimal digits,
    each followed by its digits one to nine (Unicode 13.0, the version of
    Python 3.9 and 3.10). *)
Definition decimal_zeros : list Z :=
  [48; 1632; 1776; 1984; 2406; 2534; 2662; 2790; 2918; 3046; 3174; 3302; 3430;
   3558; 3664; 3792; 3872; 4160; 4240; 6112; 6160; 6470; 6608; 6784; 6800;
   6992; 7088; 7232; 7248; 42528; 43216; 43264; 43472; 43504; 43600; 44016;
   65296; 66720; 68912; 69734; 69872; 69942; 70096; 70384; 70736; 70864;
   71248; 71360; 71472; 71904; 72016; 72784; 73040; 73120; 92768; 93008;
   120782; 120792; 120802; 120812; 120822; 123200; 123632; 125264; 130032].

Definition unicode_decimal (c : Z) : option Z :=
  option_map (fun z => c - z)
    (List.find (fun z => (z <=? c) && (c <=? z + 9)) decimal_zeros).

Fixpoint transform_to_ascii (cs : list Z) : list ascii :=
  match cs with
  | [] => []
  | c :: r =>
      if (0 <=? c) && (c <? 127) then ascii_of_nat (Z.to_nat c) :: transform_to_ascii r
      else if unicode_space c then " "%char :: transform_to_ascii r
      else
        match unicode_decimal c with
        | Some d => ascii_of_nat (Z.to_nat (48 + d)) :: transform_to_ascii r
        | None => ["?"%char]
        end
  end.

(** [float(s)]: characters outside ASCII are mapped as above, surrounding
    white space is skipped, and the rest is a decimal literal, an infinity
    or a NaN. *)
Definition of_string (s : string) : option spec_float :=
  let l := list_ascii_of_string s in
  let l := if all_ascii l then l else transform_to_ascii (code_points l) in
  match strip_underscores Ascii.zero (strip l) with
  | None => None
  | Some l1 =>
      let '(neg, l2) := split_sign l1 in
      match parse_decimal neg l2 with
      | Some f => Some f
      | None => parse_inf_or_nan neg l2
      end
  end.

(** ** Fixed-point formatting: the format specs [.Nf] and [,.Nf] *)

(** Round [m * 2^e * 10^p] to the nearest integer, ties to even. *)
Definition round_scaled (m : positive) (e : Z) (p : nat) : Z :=
  let n := Zpos m * 10 ^ Z.of_nat p in
  if 0 <=? e then n * 2 ^ e
  else
    let d := 2 ^ (- e) in
    let q := n / d in
    let r := n mod d in
    match Z.compare (2 * r) d with
    | Lt => q
    | Gt => q + 1
    | Eq => if Z.even q then q else q + 1
    end.

(** Insert a comma before every group of three digits, from the right. *)
Fixpoint group_rev (l : list ascii) (k : nat) : list ascii :=
  match l with
  | [] => []
  | c :: r =>
      if Nat.eqb k 3 then ","%char :: c :: group_rev r 1
      else c :: group_rev r (S k)
  end.

Definition group3 (ds : list ascii) : list ascii := rev (group_rev (rev ds) 0).

Definition pad_zeros (n : nat) (ds : list ascii) : list ascii :=
  repeat "0"%char (n - length ds) ++ ds.

(** Digits of the rounded, scaled magnitude [n], with [p] decimals. *)
Definition fixed_digits (comma : bool) (p : nat) (n : Z) : string :=
  let ds := pad_zeros (S p) (list_ascii_of_string (digits_of_N (Z.to_N n))) in
  let k := (length ds - p)%nat in
  let ip := firstn k ds in
  let fp := skipn k ds in
  string_of_list_ascii
    ((if comma then group3 ip else ip) ++
     (match p with O => [] | _ => "."%char :: fp end)).

Definition format_f (comma : bool) (p : nat) (x : spec_float) : string :=
  match x with
  | S754_nan => "nan"
  | S754_infinity s => if s then "-inf" else "inf"
  | S754_zero s => (if s then "-" else EmptyString) +:+ fixed_digits comma p 0
  | S754_finite s m e =>
      (if s then "-" else EmptyString) +:+ fixed_digits comma p (round_scaled m e p)
  end.

End Float64.

(** [float(v)]. *)
Definition py_float (repr : pyval -> string) (v : pyval) : PyResult spec_float :=
  match v with
  | VFloat f => Return f
  | VInt z => Float64.of_Z z
  | VBool b => Float64.of_Z (if b then 1 else 0)
  | VStr s =>
      match Float64.of_string s with
      | Some f => Return f
      | None =>
          Raise (Exn ValueError ("could not convert string to float: " +:+ repr v))
      end
  | _ =>
      Raise (Exn TypeError
               ("float() argument must be a string or a real number, not "
                  +:+ quoted (type_name v)))
  end.

(** [x * v] for a float [x]. *)
Definition py_float_mul (x : spec_float) (v : pyval) : PyResult spec_float :=
  match v with
  | VFloat y => Return (Float64.mul x y)
  | VInt z => let? y := Float64.of_Z z in Return (Float64.mul x y)
  | VBool b => let? y := Float64.of_Z (if b then 1 else 0) in Return (Float64.mul x y)
  | VStr _ | VList _ =>
      Raise (Exn TypeError "can't multiply sequence by non-int of type 'float'")
  | _ =>
      Raise (Exn TypeError
               ("unsupported operand type(s) for *: 'float' and "
                  +:+ quoted (type_name v)))
  end.

(* ===================================================================== *)
(** * Dates and times *)
(* ===================================================================== *)

(** The part of the [datetime] module the program uses: proleptic Gregorian
    ordinals, [datetime + timedelta(days=n)], [strftime('%d/%m/%Y')] and
    [datetime.fromisoformat]. *)
Module Datetime.

Record datetime := mkDatetime {
  year : Z; month : Z; day : Z;
  hour : Z; minute : Z; second : Z; microsecond : Z;
  utcoffset : option Z   (* microseconds east of UTC; [None] when naive *)
}.

Definition MINYEAR : Z := 1.
Definition MAXYEAR : Z := 9999.
Definition MAXORDINAL : Z := 3652059.

Definition DAYS_IN_MONTH : list Z :=
  [-1; 31; 28; 31; 30; 31; 30; 31; 31; 30; 31; 30; 31].

Definition DAYS_BEFORE_MONTH : list Z :=
  [-1; 0; 31; 59; 90; 120; 151; 181; 212; 243; 273; 304; 334].

Definition is_leap (y : Z) : bool :=
  (y mod 4 =? 0) && (negb (y mod 100 =? 0) || (y mod 400 =? 0)).

Definition days_before_year (y : Z) : Z :=
  let y := y - 1 in y * 365 + y / 4 - y / 100 + y / 400.

Definition days_in_month (y m : Z) : Z :=
  if (m =? 2) && is_leap y then 29 else nth (Z.to_nat m) DAYS_IN_MONTH 0.

Definition days_before_month (y m : Z) : Z :=
  nth (Z.to_nat m) DAYS_BEFORE_MONTH 0 + (if (2 <? m) && is_leap y then 1 else 0).

Definition ymd2ord (y m d : Z) : Z :=
  days_before_year y + days_before_month y m + d.

Definition DI400Y : Z := days_before_year 401.
Definition DI100Y : Z := days_before_year 101.
Definition DI4Y : Z := days_before_year 5.

Definition ord2ymd (n : Z) : Z * Z * Z :=
  let n := n - 1 in
  let n400 := n / DI400Y in
  let n := n mod DI400Y in
  let y := n400 * 400 + 1 in
  let n100 := n / DI100Y in
  let n := n mod DI100Y in
  let n4 := n / DI4Y in
  let n := n mod DI4Y in
  let n1 := n / 365 in
  let n := n mod 365 in
  let y := y + n100 * 100 + n4 * 4 + n1 in
  if (n1 =? 4) || (n100 =? 4) then (y - 1, 12, 31)
  else
    let leapyear := (n1 =? 3) && (negb (n4 =? 24) || (n100 =? 3)) in
    let m := Z.shiftr (n + 50) 5 in
    let preceding :=
      nth (Z.to_nat m) DAYS_BEFORE_MONTH 0 + (if (2 <? m) && leapyear then 1 else 0) in
    if n <? preceding then
      let m := m - 1 in
      let preceding :=
        preceding
        - (nth (Z.to_nat m) DAYS_IN_MONTH 0 + (if (m =? 2) && leapyear then 1 else 0)) in
      (y, m, n - preceding + 1)
    else (y, m, n - preceding + 1).

Definition toordinal (dt : datetime) : Z := ymd2ord (year dt) (month dt) (day dt).

(** [dt + timedelta(days=n)]: the time of day is kept, the date moves by
    [n] days, and leaving the years 1..9999 raises. *)
Definition add_days (dt : datetime) (n : Z) : PyResult datetime :=
  let o := toordinal dt + n in
  if (0 <? o) && (o <=? MAXORDINAL) then
    let '(y, m, d) := ord2ymd o in
    Return (mkDatetime y m d (hour dt) (minute dt) (second dt)
                       (microsecond dt) (utcoffset dt))
  else Raise (Exn OverflowError "date value out of range").

(** ** Formatting *)

(** The decimal digit [k mod 10]. *)
Definition digit_char (k : Z) : ascii := ascii_of_nat (48 + Z.to_nat (k mod 10)).

(** [%02d], for [0 <= n <= 99]. *)
Definition two_digits (n : Z) : string :=
  String (digit_char (n / 10)) (String (digit_char n) EmptyString).

(** [%04d], for [0 <= n <= 9999]. *)
Definition four_digits (n : Z) : string :=
  String (digit_char (n / 1000))
    (String (digit_char (n / 100))
       (String (digit_char (n / 10)) (String (digit_char n) EmptyString))).

(** [%Y]: the library documents four zero-padded digits; the C library of
    some platforms omits the padding below the year 1000.  [pad] says
    which of the two the platform does. *)
Definition format_year (pad : bool) (y : Z) : string :=
  if pad then four_digits y else string_of_Z y.

(** [dt.strftime('%d/%m/%Y')]. *)
Definition strftime_dmy (pad : bool) (dt : datetime) : string :=
  two_digits (day dt) +:+ "/" +:+ two_digits (month dt) +:+ "/"
    +:+ format_year pad (year dt).

(** ** Parsing: [datetime.fromisoformat]

    The grammar of Python 3.7 to 3.10, which is the one the program's
    replacement of ['Z'] is written for:
    [YYYY-MM-DD[*HH[:MM[:SS[.fff[fff]]]][+HH:MM[:SS[.ffffff]]]]],
    where [*] is any single character. *)

Fixpoint parse_digits (n : nat) (l : list ascii) : option (Z * list ascii) :=
  match n with
  | O => Some (0, l)
  | S n' =>
      match l with
      | c :: r =>
          if Float64.is_digit c then
            match parse_digits n' r with
            | Some (v, rest) => Some (Float64.digit_val c * 10 ^ Z.of_nat n' + v, rest)
            | None => None
            end
          else None
      | [] => None
      end
  end.

Definition parse_isoformat_date (l : list ascii) : option (Z * Z * Z * list ascii) :=
  match parse_digits 4 l with
  | Some (y, c1 :: r1) =>
      if Ascii.eqb c1 "-" then
        match parse_digits 2 r1 with
        | Some (m, c2 :: r2) =>
            if Ascii.eqb c2 "-" then
              match parse_digits 2 r2 with
              | Some (d, r3) => Some (y, m, d, r3)
              | None => None
              end
            else None
        | _ => None
        end
      else None
  | _ => None
  end.

(** The separator is one character, that is one to four bytes of UTF-8. *)
Definition skip_separator (l : list ascii) : list ascii :=
  match l with
  | [] => []
  | c :: r =>
      let b := Float64.code c in
      if b <? 128 then r
      else if Z.land b 240 =? 224 then skipn 2 r
      else if Z.land b 240 =? 240 then skipn 3 r
      else skipn 1 r
  end.

Definition parse_fraction (l : list ascii) : option Z :=
  match length l with
  | 3%nat => match parse_digits 3 l with Some (v, _) => Some (v * 1000) | None => None end
  | 6%nat => match parse_digits 6 l with Some (v, _) => Some v | None => None end
  | _ => None
  end.

(** [HH[:MM[:SS[.fff[fff]]]]], to the end of the input. *)
Definition parse_hh_mm_ss_ff (l : list ascii) : option (Z * Z * Z * Z) :=
  match parse_digits 2 l with
  | Some (h, []) => Some (h, 0, 0, 0)
  | Some (h, c1 :: r1) =>
      if Ascii.eqb c1 ":" then
        match parse_digits 2 r1 with
        | Some (m, []) => Some (h, m, 0, 0)
        | Some (m, c2 :: r2) =>
            if Ascii.eqb c2 ":" then
              match parse_digits 2 r2 with
              | Some (s, []) => Some (h, m, s, 0)
              | Some (s, c3 :: r3) =>
                  if Ascii.eqb c3 "." then
                    match parse_fraction r3 with
                    | Some us => Some (h, m, s, us)
                    | None => None
                    end
                  else None
              | None => None
              end
            else None
        | None => None
        end
      else None
  | None => None
  end.

Definition is_sign (c : ascii) : bool := Ascii.eqb c "+" || Ascii.eqb c "-".

(** Split the time string at its first sign. *)
Fixpoint split_at_sign (l : list ascii) : list ascii * option (ascii * list ascii) :=
  match l with
  | [] => ([], None)
  | c :: r =>
      if is_sign c then ([], Some (c, r))
      else let '(t, z) := split_at_sign r in (c :: t, z)
  end.

Definition DAY_US : Z := 86400 * 1000000.

(** The UTC offset: [HH:MM], [HH:MM:SS] or [HH:MM:SS.ffffff] after the
    sign, strictly within a day. *)
Definition parse_tz (sign : ascii) (l : list ascii) : option Z :=
  let n := length l in
  if Nat.eqb n 5 || Nat.eqb n 8 || Nat.eqb n 15 then
    match parse_hh_mm_ss_ff l with
    | Some (h, m, s, us) =>
        let off := (h * 3600 + m * 60 + s) * 1000000 + us in
        let off := if Ascii.eqb sign "-" then - off else off in
        if (- DAY_US <? off) && (off <? DAY_US) then Some off else None
    | None => None
    end
  else None.

Definition parse_isoformat_time (l : list ascii)
  : option (Z * Z * Z * Z * option Z) :=
  let '(t, z) := split_at_sign l in
  match parse_hh_mm_ss_ff t with
  | Some (h, m, s, us) =>
      match z with
      | None => Some (h, m, s, us, None)
      | Some (sign, tz) =>
          match parse_tz sign tz with
          | Some off => Some (h, m, s, us, Some off)
          | None => None
          end
      end
  | None => None
  end.

(** The constructor's range checks. *)
Definition check_fields (y m d hh mm ss : Z) : bool :=
  (MINYEAR <=? y) && (y <=? MAXYEAR) && (1 <=? m) && (m <=? 12)
  && (1 <=? d) && (d <=? days_in_month y m)
  && (0 <=? hh) && (hh <=? 23) && (0 <=? mm) && (mm <=? 59)
  && (0 <=? ss) && (ss <=? 59).

Definition fromisoformat (s : string) : option datetime :=
  match parse_isoformat_date (list_ascii_of_string s) with
  | Some (y, m, d, rest) =>
      match rest with
      | [] =>
          if check_fields y m d 0 0 0
          then Some (mkDatetime y m d 0 0 0 0 None) else None
      | _ =>
          match parse_isoformat_time (skip_separator rest) with
          | Some (hh, mm, ss, us, tz) =>
              if check_fields y m d hh mm ss
              then Some (mkDatetime y m d hh mm ss us tz) else None
          | None => None
          end
      end
  | None => None
  end.

End Datetime.

(** [s.replace('Z', '+00:00')]. *)
Fixpoint replace_Z (s : string) : string :=
  match s with
  | EmptyString => EmptyString
  | String c r =>
      if Ascii.eqb c "Z" then "+00:00" +:+ replace_Z r else String c (replace_Z r)
  end.

(* ===================================================================== *)
(** * Word documents *)
(* ===================================================================== *)

(** The document as the program builds it through python-docx: blocks of
    paragraphs and tables, in body order.  Lengths are in English Metric
    Units, font sizes in points; a run keeps the Python string it was given. *)
Module Docx.

Inductive alignment := LEFT | CENTER | RIGHT.

Record run := mkRun {
  run_text : string;
  run_bold : bool;
  run_size : option Z
}.

Record paragraph := mkPara {
  para_alignment : option alignment;
  para_runs : list run
}.

Definition cell : Type := list paragraph.

Record table := mkTable {
  tbl_autofit : bool;
  tbl_style : option string;
  tbl_col_widths : list (option Z);   (* [None]: left at the library's default *)
  tbl_rows : list (list cell)
}.

Inductive block :=
| Para (p : paragraph)
| Table (t : table).

Record document := mkDocument {
  top_margin : Z; bottom_margin : Z; left_margin : Z; right_margin : Z;
  body : list block
}.

Definition EMUS_PER_INCH : Z := 914400.

(** [Inches(num/den)]. *)
Definition Inches (num den : Z) : Z := EMUS_PER_INCH * num / den.

Definition plain_run (text : string) : run := mkRun text false None.

Definition empty_paragraph : paragraph := mkPara None [].

(** [add_paragraph(text)]: the run is added only for a non-empty text. *)
Definition add_paragraph (text : string) : paragraph :=
  mkPara None (if String.eqb text EmptyString then [] else [plain_run text]).

Definition aligned (a : alignment) (p : paragraph) : paragraph :=
  mkPara (Some a) (para_runs p).

(** A fresh cell holds one empty paragraph; [cell.text = s] replaces the
    content by one paragraph with one run. *)
Definition new_cell : cell := [empty_paragraph].

Definition text_cell (text : string) : cell := [mkPara None [plain_run text]].

Definition paragraph_text (p : paragraph) : string :=
  String.concat EmptyString (map run_text (para_runs p)).

End Docx.

(** A text handed to python-docx.  The library walks it character by
    character; the model takes the documented argument type, [str], and
    raises [TypeError] for every other value, as the library does for
    [None] and for numbers; a list or a dict, which the library would walk
    item by item, is not a text the shop sends. *)
Definition text_arg (v : pyval) : PyResult string :=
  match v with
  | VStr s => Return s
  | _ => Raise (Exn TypeError (quoted (type_name v) +:+ " object is not iterable"))
  end.

(** [cell.add_paragraph(v)]: a falsy [v] adds an empty paragraph. *)
Definition add_paragraph_val (v : pyval) : PyResult Docx.paragraph :=
  if py_truthy v then
    let? s := text_arg v in Return (Docx.mkPara None [Docx.plain_run s])
  else Return Docx.empty_paragraph.

(** [v += s] for a string [s]; only [str += str] is modelled. *)
Definition py_iadd_str (v : pyval) (s : string) : PyResult pyval :=
  match v with
  | VStr t => Return (VStr (t +:+ s))
  | _ =>
      Raise (Exn TypeError
               ("unsupported operand type(s) for +=: " +:+ quoted (type_name v)
                  +:+ " and 'str'"))
  end.

(* ===================================================================== *)
(** * The environment and the process state *)
(* ===================================================================== *)

(** An HTTP response: status line and the outcome of [response.json()]. *)
Record response := mkResponse {
  status_code : Z;
  reason : string;
  json : PyResult pyval
}.

(** One reading of the clock: [datetime.now()] and
    [int(datetime.now().timestamp())] for it. *)
Record reading := mkReading {
  now : Datetime.datetime;
  timestamp : Z
}.

(** Everything the program reads from outside its own source. *)
Record Env := mkEnv {
  repr : pyval -> string;
  pads_year : bool;
  clock : nat -> reading;
  locale_available : string -> bool;
  http_get : string -> list (string * string) -> PyResult response;
  http_post : string -> list (string * pyval) -> PyResult response;
  http_put : string -> list (string * string) -> Docx.document -> PyResult response;
  save_fault : string -> option pyexn
}.

Inductive event :=
| HttpGet (url : string)
| HttpPost (url : string)
| HttpPut (url : string)
| FileSaved (path : string)
| FileRead (path : string)
| FileRemoved (path : string).

(** The three dicts [__init__] stores on the object. *)
Record ShopifyConfig := mkShopifyConfig {
  shop_domain : string;
  access_token : string;
  api_version : string
}.

Record OfficeConfig := mkOfficeConfig {
  client_id : pyval;
  client_secret : pyval;
  tenant_id : pyval;
  office_access_token : pyval
}.

Record CompanyInfo := mkCompanyInfo {
  name : string;
  address : string;
  phone : string;
  email : string;
  tax_id : string
}.

Record Generator := mkGenerator {
  shopify_config : ShopifyConfig;
  office_config : OfficeConfig;
  company_info : CompanyInfo
}.

(** The process: clock readings taken so far, the locale, standard output,
    the files on disk and the effects in the order they happened. *)
Record World := mkWorld {
  ticks : nat;
  locale : option string;
  stdout : list string;
  files : gmap string Docx.document;
  events : list event
}.

Record State := mkState {
  self : Generator;
  world : World
}.

(** ** The monad of methods *)

Definition M (A : Type) : Type := State -> PyResult A * State.

Definition ret {A} (a : A) : M A := fun st => (Return a, st).

Definition raise {A} (e : pyexn) : M A := fun st => (Raise e, st).

Definition bind {A B} (c : M A) (k : A -> M B) : M B :=
  fun st =>
    match c st with
    | (Return a, st') => k a st'
    | (Raise e, st') => (Raise e, st')
    end.

Definition lift {A} (r : PyResult A) : M A := fun st => (r, st).

(** [try: c  except <all>: h]. *)
Definition try_except {A} (c : M A) (h : pyexn -> M A) : M A :=
  fun st =>
    match c st with
    | (Return a, st') => (Return a, st')
    | (Raise e, st') => h e st'
    end.

(** The same for code without effects. *)
Definition rtry {A} (c : PyResult A) (h : pyexn -> PyResult A) : PyResult A :=
  match c with
  | Return a => Return a
  | Raise e => h e
  end.

Notation "'let*' x ':=' c 'in' k" := (bind c (fun x => k))
  (at level 10, x name, c at level 100, k at level 200).
Notation "c ';;' k" := (bind c (fun _ => k))
  (at level 100, k at level 200, right associativity).

Definition get_self : M Generator := fun st => (Return (self st), st).

Definition get_world : M World := fun st => (Return (world st), st).

Definition set_world (w : World) : M unit :=
  fun st => (Return tt, mkState (self st) w).

Definition modify_world (f : World -> World) : M unit :=
  fun st => (Return tt, mkState (self st) (f (world st))).

(** [print(line)]; standard output is taken to accept every line. *)
Definition print (line : string) : M unit :=
  modify_world (fun w =>
    mkWorld (ticks w) (locale w) (stdout w ++ [line]) (files w) (events w)).

Definition emit (ev : event) : M unit :=
  modify_world (fun w =>
    mkWorld (ticks w) (locale w) (stdout w) (files w) (events w ++ [ev])).

(** [self.office_config['access_token'] = v]. *)
Definition set_office_access_token (v : pyval) : M unit :=
  fun st =>
    let g := self st in
    let oc := office_config g in
    (Return tt,
     mkState
       (mkGenerator (shopify_config g)
          (mkOfficeConfig (client_id oc) (client_secret oc) (tenant_id oc) v)
          (company_info g))
       (world st)).

Definition nl : string := String "010"%char EmptyString.

(* ===================================================================== *)
(** * class ShopifyInvoiceGenerator *)
(* ===================================================================== *)

Section ShopifyInvoiceGenerator.

Variable E : Env.

(** ** Effects *)

Definition datetime_now : M reading :=
  fun st =>
    let w := world st in
    (Return (clock E (ticks w)),
     mkState (self st)
       (mkWorld (S (ticks w)) (locale w) (stdout w) (files w) (events w))).

Definition requests_get (url : string) (headers : list (string * string))
  : M response :=
  emit (HttpGet url) ;; lift (http_get E url headers).

Definition requests_post (url : string) (data : list (string * pyval))
  : M response :=
  emit (HttpPost url) ;; lift (http_post E url data).

Definition requests_put (url : string) (headers : list (string * string))
           (data : Docx.document) : M response :=
  emit (HttpPut url) ;; lift (http_put E url headers data).

(** [response.raise_for_status()]. *)
Definition raise_for_status (url : string) (r : response) : PyResult unit :=
  let c := status_code r in
  if (400 <=? c) && (c <? 500) then
    Raise (Exn HTTPError
             (string_of_Z c +:+ " Client Error: " +:+ reason r +:+ " for url: " +:+ url))
  else if (500 <=? c) && (c <? 600) then
    Raise (Exn HTTPError
             (string_of_Z c +:+ " Server Error: " +:+ reason r +:+ " for url: " +:+ url))
  else Return tt.

(** [doc.save(path)]. *)
Definition save (doc : Docx.document) (path : string) : M unit :=
  match save_fault E path with
  | Some e => raise e
  | None =>
      modify_world (fun w =>
        mkWorld (ticks w) (locale w) (stdout w) (<[path := doc]> (files w)) (events w)) ;;
      emit (FileSaved path)
  end.

Definition no_such_file (path : string) : pyexn :=
  Exn OSError ("[Errno 2] No such file or directory: " +:+ quoted path).

(** [open(path, 'rb').read()]. *)
Definition read_file (path : string) : M Docx.document :=
  let* w := get_world in
  match files w !! path with
  | Some d => emit (FileRead path) ;; ret d
  | None => raise (no_such_file path)
  end.

(** [os.remove(path)]. *)
Definition os_remove (path : string) : M unit :=
  let* w := get_world in
  match files w !! path with
  | Some _ =>
      modify_world (fun w =>
        mkWorld (ticks w) (locale w) (stdout w) (delete path (files w)) (events w)) ;;
      emit (FileRemoved path)
  | None => raise (no_such_file path)
  end.

(** [locale.setlocale(locale.LC_ALL, name)]. *)
Definition setlocale (name : string) (w : World) : PyResult unit * World :=
  if locale_available E name then
    (Return tt, mkWorld (ticks w) (Some name) (stdout w) (files w) (events w))
  else (Raise (Exn LocaleError "unsupported locale setting"), w).

(** ** [__init__] *)

Definition config_get (config : gmap string string) (k : string) : pyval :=
  match config !! k with
  | Some s => VStr s
  | None => VNone
  end.

Definition config_get_default (config : gmap string string) (k d : string) : string :=
  match config !! k with
  | Some s => s
  | None => d
  end.

Definition init (config : gmap string string) (w : World)
  : PyResult Generator * World :=
  match config !! "shop_domain" with
  | None => (Raise (Exn KeyError (quoted "shop_domain")), w)
  | Some domain =>
      match config !! "shopify_access_token" with
      | None => (Raise (Exn KeyError (quoted "shopify_access_token")), w)
      | Some token =>
          let g :=
            mkGenerator
              (mkShopifyConfig domain token "2023-10")
              (mkOfficeConfig
                 (config_get config "office_client_id")
                 (config_get config "office_client_secret")
                 (config_get config "office_tenant_id")
                 VNone)
              (mkCompanyInfo
                 (config_get_default config "company_name" "Tu Empresa")
                 (config_get_default config "company_address" "Dirección de tu empresa")
                 (config_get_default config "company_phone" "Teléfono")
                 (config_get_default config "company_email" "email@empresa.com")
                 (config_get_default config "company_tax_id" "NIT/RUT")) in
          match setlocale "es_CO.UTF-8" w with
          | (Return _, w1) => (Return g, w1)
          | (Raise _, w1) =>
              match setlocale "es_ES.UTF-8" w1 with
              | (_, w2) => (Return g, w2)
              end
          end
      end
  end.

(** ** [get_office_access_token] *)

Definition reraise_request_exception {A} (label : string) (c : M A) : M A :=
  try_except c
    (fun e =>
       if is_RequestException e
       then print (label +:+ exn_str e) ;; raise e
       else raise e).

Definition get_office_access_token : M pyval :=
  reraise_request_exception "Error obteniendo token de Office: "
    (let* g := get_self in
     let oc := office_config g in
     let token_url :=
       "https://login.microsoftonline.com/" +:+ py_str (repr E) (tenant_id oc)
         +:+ "/oauth2/v2.0/token" in
     let data :=
       [("client_id", client_id oc);
        ("client_secret", client_secret oc);
        ("scope", VStr "https://graph.microsoft.com/.default");
        ("grant_type", VStr "client_credentials")] in
     let* resp := requests_post token_url data in
     let* _ := lift (raise_for_status token_url resp) in
     let* token_data := lift (json resp) in
     let* tok := lift (py_getitem token_data "access_token") in
     set_office_access_token tok ;;
     lift (py_getitem token_data "access_token")).

(** ** [get_shopify_order] *)

Definition get_shopify_order (order_id : string) : M pyval :=
  reraise_request_exception "Error obteniendo orden de Shopify: "
    (let* g := get_self in
     let sc := shopify_config g in
     let url :=
       "https://" +:+ shop_domain sc +:+ "/admin/api/" +:+ api_version sc
         +:+ "/orders/" +:+ order_id +:+ ".json" in
     let headers := [("X-Shopify-Access-Token", access_token sc)] in
     let* resp := requests_get url headers in
     let* _ := lift (raise_for_status url resp) in
     let* body := lift (json resp) in
     lift (py_getitem body "order")).

(** ** [format_currency] *)

(** [format(amount, spec)] for the specs [,.0f] and [.2f].  A float is
    always formatted; an [int] or a [bool] is converted to a float first,
    which fails beyond the finite range; a string does not know the format
    code, and the other types take no format spec at all. *)
Definition format_float (comma : bool) (p : nat) (amount : pyval)
  : PyResult string :=
  match amount with
  | VFloat x => Return (Float64.format_f comma p x)
  | VInt z => let? x := Float64.of_Z z in Return (Float64.format_f comma p x)
  | VBool b =>
      let? x := Float64.of_Z (if b then 1 else 0) in
      Return (Float64.format_f comma p x)
  | VStr _ => Raise (Exn ValueError "Unknown format code 'f' for object of type 'str'")
  | _ =>
      Raise (Exn TypeError
               ("unsupported format string passed to " +:+ type_name amount
                  +:+ ".__format__"))
  end.

(** The method is written for a float but runs on whatever it is given;
    the program itself only calls it on results of [float]. *)
Definition format_currency (amount : pyval) : PyResult string :=
  rtry
    (let? s := format_float true 0 amount in Return ("$" +:+ s +:+ " COP"))
    (fun _ => let? s := format_float false 2 amount in Return ("$" +:+ s)).

(** ** [format_date] *)

(** [date_string.replace('Z', '+00:00')]: only [str] has the method here. *)
Definition py_replace_Z (v : pyval) : PyResult string :=
  match v with
  | VStr s => Return (replace_Z s)
  | _ =>
      Raise (Exn AttributeError
               (quoted (type_name v) +:+ " object has no attribute 'replace'"))
  end.

Definition py_fromisoformat (s : string) : PyResult Datetime.datetime :=
  match Datetime.fromisoformat s with
  | Some d => Return d
  | None => Raise (Exn ValueError ("Invalid isoformat string: " +:+ repr E (VStr s)))
  end.

Definition format_date (date_string : pyval) : PyResult pyval :=
  rtry
    (let? s := py_replace_Z date_string in
     let? date_obj := py_fromisoformat s in
     Return (VStr (Datetime.strftime_dmy (pads_year E) date_obj)))
    (fun _ => Return date_string).

(** ** [create_word_document] *)

Definition pstr (v : pyval) : string := py_str (repr E) v.

(** *** Header: company on the left, invoice data on the right *)

Definition company_cell (ci : CompanyInfo) : Docx.cell :=
  [ Docx.mkPara None [Docx.mkRun (name ci) true (Some 18)];
    Docx.add_paragraph (address ci);
    Docx.add_paragraph ("Tel: " +:+ phone ci);
    Docx.add_paragraph ("Email: " +:+ email ci);
    Docx.add_paragraph (tax_id ci) ].

Definition invoice_cell (invoice_info_text : string) : Docx.cell :=
  [ Docx.mkPara (Some Docx.RIGHT) [Docx.mkRun "FACTURA" true (Some 20)];
    Docx.mkPara (Some Docx.RIGHT) [Docx.plain_run invoice_info_text] ].

(** The three lines under the word FACTURA. *)
Definition invoice_info_text (order_number fecha due_date : string) : string :=
  ("No. Orden: " +:+ order_number +:+ nl)
    +:+ ("Fecha: " +:+ fecha +:+ nl)
    +:+ ("Vencimiento: " +:+ due_date).

Definition header_layout (ci : CompanyInfo) (info : string) : Docx.table :=
  Docx.mkTable false None
    [Some (Docx.Inches 7 2); Some (Docx.Inches 5 2)]
    [[company_cell ci; invoice_cell info]].

Definition header_table (order_data : pyval) : M Docx.table :=
  let* g := get_self in
  let* order_number := lift (py_getitem order_data "order_number") in
  let* created_at := lift (py_getitem order_data "created_at") in
  let* fecha := lift (format_date created_at) in
  let* t := datetime_now in
  let* due := lift (Datetime.add_days (now t) 30) in
  let due_date := Datetime.strftime_dmy (pads_year E) due in
  ret (header_layout (company_info g)
         (invoice_info_text (pstr order_number) (pstr fecha) due_date)).

(** *** Customer block *)

Definition bold_title (text : string) : Docx.paragraph :=
  Docx.mkPara None [Docx.mkRun text true None].

Definition bill_to_cell (order_data : pyval) : PyResult Docx.cell :=
  let title := bold_title "FACTURAR A:" in
  let? customer := py_get order_data "customer" (VDict []) in
  if py_truthy customer then
    let? first_name := py_get customer "first_name" (VStr EmptyString) in
    let? last_name := py_get customer "last_name" (VStr EmptyString) in
    let p1 := Docx.add_paragraph (pstr first_name +:+ " " +:+ pstr last_name) in
    let? mail := py_get customer "email" (VStr EmptyString) in
    let? p2 := add_paragraph_val mail in
    let? ph := py_get customer "phone" VNone in
    if py_truthy ph then
      let? ph' := py_getitem customer "phone" in
      let? p3 := add_paragraph_val ph' in
      Return [title; p1; p2; p3]
    else Return [title; p1; p2]
  else Return [title].

Definition ship_to_cell (order_data : pyval) : PyResult Docx.cell :=
  let title := bold_title "ENVIAR A:" in
  let? shipping_address := py_get order_data "shipping_address" VNone in
  if py_truthy shipping_address then
    let? first_name := py_get shipping_address "first_name" (VStr EmptyString) in
    let? last_name := py_get shipping_address "last_name" (VStr EmptyString) in
    let p1 := Docx.add_paragraph (pstr first_name +:+ " " +:+ pstr last_name) in
    let? address1 := py_get shipping_address "address1" (VStr EmptyString) in
    let? p2 := add_paragraph_val address1 in
    let? a2 := py_get shipping_address "address2" VNone in
    let? p3 :=
      if py_truthy a2 then
        let? a2' := py_getitem shipping_address "address2" in
        let? p := add_paragraph_val a2' in Return [p]
      else Return [] in
    let? city := py_get shipping_address "city" (VStr EmptyString) in
    let? province := py_get shipping_address "province" (VStr EmptyString) in
    let p4 := Docx.add_paragraph (pstr city +:+ ", " +:+ pstr province) in
    let? zip := py_get shipping_address "zip" (VStr EmptyString) in
    let? country := py_get shipping_address "country" (VStr EmptyString) in
    let p5 := Docx.add_paragraph (pstr zip +:+ " - " +:+ pstr country) in
    Return ([title; p1; p2] ++ p3 ++ [p4; p5])
  else
    Return [title; Docx.add_paragraph "Información de envío no disponible"].

Definition customer_table (order_data : pyval) : PyResult Docx.table :=
  let? bill_to := bill_to_cell order_data in
  let? ship_to := ship_to_cell order_data in
  Return (Docx.mkTable false None
            [Some (Docx.Inches 3 1); Some (Docx.Inches 3 1)]
            [[bill_to; ship_to]]).

(** *** Line items *)

Definition headers : list string :=
  ["Producto"; "SKU"; "Cantidad"; "Precio Unit."; "Total"].

Definition header_cell (header : string) : Docx.cell := [bold_title header].

(** One pass of the loop body: the five cells of the added row. *)
Definition item_row (item : pyval) : PyResult (list Docx.cell) :=
  let? product_name := py_getitem item "title" in
  let? vt := py_get item "variant_title" VNone in
  let? product_name :=
    if py_truthy vt then
      let? vt' := py_getitem item "variant_title" in
      py_iadd_str product_name (nl +:+ pstr vt')
    else Return product_name in
  let? c0 := text_arg product_name in
  let? sku := py_get item "sku" (VStr "N/A") in
  let? c1 := text_arg sku in
  let? quantity := py_getitem item "quantity" in
  let c2 := pstr quantity in
  let? price := py_getitem item "price" in
  let? unit_price := py_float (repr E) price in
  let? c3 := format_currency (VFloat unit_price) in
  let? price' := py_getitem item "price" in
  let? unit_price' := py_float (repr E) price' in
  let? quantity' := py_getitem item "quantity" in
  let? line_total := py_float_mul unit_price' quantity' in
  let? c4 := format_currency (VFloat line_total) in
  Return (map Docx.text_cell [c0; c1; c2; c3; c4]).

Fixpoint item_rows (items : list pyval) : PyResult (list (list Docx.cell)) :=
  match items with
  | [] => Return []
  | item :: rest =>
      let? row := item_row item in
      let? rows := item_rows rest in
      Return (row :: rows)
  end.

Definition items_table (order_data : pyval) : PyResult Docx.table :=
  let? line_items := py_getitem order_data "line_items" in
  let? items := py_iter line_items in
  let? rows := item_rows items in
  Return (Docx.mkTable true (Some "Table Grid")
            [None; None; None; None; None]
            (map header_cell headers :: rows)).

(** *** Totals *)

Definition shipping_amount (order_data : pyval) : PyResult spec_float :=
  let? price_set := py_get order_data "total_shipping_price_set" (VDict []) in
  let? shop_money := py_get price_set "shop_money" (VDict []) in
  let? amount := py_get shop_money "amount" (VInt 0) in
  py_float (repr E) amount.

Definition tax_amount (order_data : pyval) : PyResult spec_float :=
  let? total_tax := py_get order_data "total_tax" (VInt 0) in
  py_float (repr E) total_tax.

Definition right_line (text : string) : Docx.paragraph :=
  Docx.aligned Docx.RIGHT (Docx.add_paragraph text).

Definition totals_cell (order_data : pyval) : PyResult Docx.cell :=
  let? subtotal_price := py_getitem order_data "subtotal_price" in
  let? subtotal := py_float (repr E) subtotal_price in
  let? taxes := tax_amount order_data in
  let? shipping := shipping_amount order_data in
  let? total_price := py_getitem order_data "total_price" in
  let? total := py_float (repr E) total_price in
  let? subtotal_text := format_currency (VFloat subtotal) in
  let? shipping_para :=
    if Float64.gt_zero shipping then
      let? s := format_currency (VFloat shipping) in
      Return [right_line ("Envío: " +:+ s)]
    else Return [] in
  let? taxes_para :=
    if Float64.gt_zero taxes then
      let? s := format_currency (VFloat taxes) in
      Return [right_line ("Impuestos: " +:+ s)]
    else Return [] in
  let? total_text := format_currency (VFloat total) in
  Return ([ Docx.mkPara (Some Docx.RIGHT) [];
            right_line ("Subtotal: " +:+ subtotal_text) ]
            ++ shipping_para ++ taxes_para
            ++ [ Docx.mkPara (Some Docx.RIGHT)
                   [Docx.mkRun ("TOTAL: " +:+ total_text) true (Some 14)] ]).

Definition totals_table (order_data : pyval) : PyResult Docx.table :=
  let? cell := totals_cell order_data in
  Return (Docx.mkTable false None
            [Some (Docx.Inches 4 1); Some (Docx.Inches 2 1)]
            [[Docx.new_cell; cell]]).

(** *** Footer *)

Definition footer (ci : CompanyInfo) : list Docx.block :=
  [ Docx.Para Docx.empty_paragraph;
    Docx.Para (Docx.mkPara (Some Docx.CENTER)
                 [Docx.plain_run ("Gracias por su compra | " +:+ name ci)]);
    Docx.Para (Docx.aligned Docx.CENTER
                 (Docx.add_paragraph "Esta es una factura generada automáticamente")) ].

(** *** The method *)

(** The body of the document, in the order the blocks are added. *)
Definition invoice_document (ci : CompanyInfo)
           (header customer items totals : Docx.table) : Docx.document :=
  Docx.mkDocument
    (Docx.Inches 1 2) (Docx.Inches 1 2) (Docx.Inches 3 4) (Docx.Inches 3 4)
    ([ Docx.Table header; Docx.Para Docx.empty_paragraph;
       Docx.Table customer; Docx.Para Docx.empty_paragraph;
       Docx.Table items; Docx.Para Docx.empty_paragraph;
       Docx.Table totals ] ++ footer ci).

Definition create_word_document (order_data : pyval) (filename : string) : M string :=
  try_except
    (let* g := get_self in
     let* header := header_table order_data in
     let* customer := lift (customer_table order_data) in
     let* items := lift (items_table order_data) in
     let* totals := lift (totals_table order_data) in
     let doc := invoice_document (company_info g) header customer items totals in
     let filepath := filename +:+ ".docx" in
     save doc filepath ;;
     ret filepath)
    (fun e => print ("Error creando documento de Word: " +:+ exn_str e) ;; raise e).

(** ** [upload_to_onedrive] *)

Definition upload_to_onedrive (file_path filename : string) : M pyval :=
  reraise_request_exception "Error subiendo a OneDrive: "
    (let* g := get_self in
     (if negb (py_truthy (office_access_token (office_config g)))
      then let* _ := get_office_access_token in ret tt
      else ret tt) ;;
     let* file_content := read_file file_path in
     let upload_url :=
       "https://graph.microsoft.com/v1.0/me/drive/root:/" +:+ filename
         +:+ ".docx:/content" in
     let* g := get_self in
     let headers :=
       [("Authorization", "Bearer " +:+ pstr (office_access_token (office_config g)));
        ("Content-Type",
         "application/vnd.openxmlformats-officedocument.wordprocessingml.document")] in
     let* resp := requests_put upload_url headers file_content in
     let* _ := lift (raise_for_status upload_url resp) in
     let* file_info := lift (json resp) in
     let* document_id := lift (py_getitem file_info "id") in
     let* web_url := lift (py_getitem file_info "webUrl") in
     let* download_url := lift (py_getitem file_info "@microsoft.graph.downloadUrl") in
     ret (VDict [("document_id", document_id);
                 ("web_url", web_url);
                 ("download_url", download_url)])).

(** ** [generate_invoice] *)

(** [self.office_config.values()], in insertion order. *)
Definition office_config_values (oc : OfficeConfig) : list pyval :=
  [client_id oc; client_secret oc; tenant_id oc; office_access_token oc].

(** [all(values)]. *)
Definition py_all (values : list pyval) : bool := forallb py_truthy values.

Definition generate_invoice (order_id : string) (save_local upload_to_cloud : bool)
  : M pyval :=
  try_except
    (print "Obteniendo datos de la orden..." ;;
     let* order_data := get_shopify_order order_id in
     print "Creando documento de Word..." ;;
     let* order_number := lift (py_getitem order_data "order_number") in
     let* t := datetime_now in
     let filename :=
       "Factura_" +:+ pstr order_number +:+ "_" +:+ string_of_Z (timestamp t) in
     let* local_file_path := create_word_document order_data filename in
     let* order_number' := lift (py_getitem order_data "order_number") in
     let result :=
       [("success", VBool true);
        ("order_number", order_number');
        ("local_file_path", if save_local then VStr local_file_path else VNone)] in
     let* g := get_self in
     let* result :=
       if upload_to_cloud && py_all (office_config_values (office_config g)) then
         print "Subiendo a OneDrive..." ;;
         let* cloud_info := upload_to_onedrive local_file_path filename in
         let result := dict_set "cloud_info" cloud_info result in
         if negb save_local then
           os_remove local_file_path ;;
           ret (dict_set "local_file_path" VNone result)
         else ret result
       else ret result in
     print "¡Factura generada exitosamente!" ;;
     ret (VDict result))
    (fun e =>
       print ("Error generando factura: " +:+ exn_str e) ;;
       ret (VDict [("success", VBool false); ("error", VStr (exn_str e))])).

End ShopifyInvoiceGenerator.

(* ===================================================================== *)
(** * Sample data *)
(* ===================================================================== *)

(** The order of the end-to-end scenario: two line items, no shipping
    address, no tax, no shipping charge. *)
Definition sample_order : pyval :=
  VDict
    [("id", VInt 1001);
     ("order_number", VStr "#1001");
     ("created_at", VStr "2024-03-05T10:00:00Z");
     ("customer",
      VDict [("first_name", VStr "Ana"); ("last_name", VStr "Rojas");
             ("email", VStr "ana@example.com"); ("phone", VNone)]);
     ("line_items",
      VList
        [VDict [("title", VStr "Camiseta"); ("variant_title", VStr "M");
                ("sku", VStr "CAM-M"); ("quantity", VInt 2);
                ("price", VStr "5000.00")];
         VDict [("title", VStr "Gorra"); ("quantity", VInt 1);
                ("price", VStr "10000.00")]]);
     ("subtotal_price", VStr "20000.00");
     ("total_tax", VStr "0.00");
     ("total_price", VStr "20000.00")].

(** A clock stuck at noon of 1 June 2024. *)
Definition sample_reading : reading :=
  mkReading (Datetime.mkDatetime 2024 6 1 12 0 0 0 None) 1717261200.

Definition ok_response (body : pyval) : PyResult response :=
  Return (mkResponse 200 "OK" (Return body)).

(** A shop that serves [sample_order] for every order id, a cloud that
    accepts every request and a disk that never fails. *)
Definition sample_env : Env :=
  mkEnv
    (fun _ => "<repr>")
    true
    (fun _ => sample_reading)
    (fun _ => false)
    (fun _ _ => ok_response (VDict [("order", sample_order)]))
    (fun _ _ => ok_response (VDict [("access_token", VStr "tok")]))
    (fun _ _ _ =>
       ok_response (VDict [("id", VStr "doc-1");
                           ("webUrl", VStr "https://example.com/view");
                           ("@microsoft.graph.downloadUrl",
                            VStr "https://example.com/download")]))
    (fun _ => None).

(** The same shop answering 404. *)
Definition not_found_env : Env :=
  mkEnv (repr sample_env) true (clock sample_env) (locale_available sample_env)
    (fun _ _ => Return (mkResponse 404 "Not Found" (Return VNone)))
    (http_post sample_env) (http_put sample_env) (save_fault sample_env).

Definition empty_world : World := mkWorld 0 None [] ∅ [].

(** The configuration of [app.py], and the same with cloud credentials. *)
Definition app_config : gmap string string :=
  list_to_map
    [("shop_domain", "cshop.co");
     ("shopify_access_token", "shpat_tu_token");
     ("company_name", "CSHOP SAS");
     ("company_address", "CRA 34 3-65");
     ("company_phone", "+57 3158103812");
     ("company_email", "info@cshop.co");
     ("company_tax_id", "NIT: 901410087-8")].

Definition cloud_config : gmap string string :=
  <["office_client_id" := "cid"]>
    (<["office_client_secret" := "secret"]>
       (<["office_tenant_id" := "tenant"]> app_config)).

Definition sample_generator : Generator :=
  mkGenerator
    (mkShopifyConfig "cshop.co" "shpat_tu_token" "2023-10")
    (mkOfficeConfig VNone VNone VNone VNone)
    (mkCompanyInfo "CSHOP SAS" "CRA 34 3-65" "+57 3158103812" "info@cshop.co"
       "NIT: 901410087-8").

Definition sample_state : State := mkState sample_generator empty_world.

(* ===================================================================== *)
(** * Reading a rendered document *)
(* ===================================================================== *)

Definition body_table (d : Docx.document) (i : nat) : option Docx.table :=
  match Docx.body d !! i with
  | Some (Docx.Table t) => Some t
  | _ => None
  end.

Definition table_cell (t : Docx.table) (r c : nat) : option Docx.cell :=
  match Docx.tbl_rows t !! r with
  | Some row => row !! c
  | None => None
  end.

(** The text under the word FACTURA: second paragraph of the right cell of
    the first table. *)
Definition header_info_text (d : Docx.document) : option string :=
  match body_table d 0 with
  | Some t =>
      match table_cell t 0 1 with
      | Some c => option_map Docx.paragraph_text (c !! 1%nat)
      | None => None
      end
  | None => None
  end.

Definition is_newline (c : ascii) : bool := Ascii.eqb c "010".

(** The text after the last line break. *)
Fixpoint last_line_from (acc s : string) : string :=
  match s with
  | EmptyString => acc
  | String c r =>
      if is_newline c then last_line_from EmptyString r
      else last_line_from (acc +:+ String c EmptyString) r
  end.

Definition last_line (s : string) : string := last_line_from EmptyString s.

Fixpoint strip_prefix (pre s : string) : option string :=
  match pre with
  | EmptyString => Some s
  | String a pre' =>
      match s with
      | String b s' => if Ascii.eqb a b then strip_prefix pre' s' else None
      | EmptyString => None
      end
  end.

(** The due date as printed: what follows the label on the last line of the
    header's right column. *)
Definition printed_due_date (d : Docx.document) : option string :=
  match header_info_text d with
  | Some t => strip_prefix "Vencimiento: " (last_line t)
  | None => None
  end.

(** The paragraphs of the totals block: right cell of the fourth table. *)
Definition totals_block (d : Docx.document) : option Docx.cell :=
  match body_table d 6 with
  | Some t => table_cell t 0 1
  | None => None
  end.

(** The rows of the line-item table under its header row. *)
Definition item_rows_of (d : Docx.document) : option (list (list Docx.cell)) :=
  match body_table d 4 with
  | Some t => Some (tail (Docx.tbl_rows t))
  | None => None
  end.

(** Replace the text under the word FACTURA, leaving all else in place. *)
Definition set_header_info (text : string) (d : Docx.document) : Docx.document :=
  match Docx.body d with
  | Docx.Table t :: rest =>
      match Docx.tbl_rows t with
      | [lcell; rcell] :: rows =>
          Docx.mkDocument (Docx.top_margin d) (Docx.bottom_margin d)
            (Docx.left_margin d) (Docx.right_margin d)
            (Docx.Table
               (Docx.mkTable (Docx.tbl_autofit t) (Docx.tbl_style t)
                  (Docx.tbl_col_widths t)
                  ([lcell; <[1%nat := Docx.mkPara (Some Docx.RIGHT) [Docx.plain_run text]]> rcell]
                     :: rows))
               :: rest)
      | _ => d
      end
  | _ => d
  end.

(** A line of the totals block that starts with [label]. *)
Definition has_line (label : string) (lines : list string) : bool :=
  existsb (String.prefix label) lines.

(** Digits in groups of three between commas, read from the right. *)
Fixpoint grouped_rev (l : list ascii) (k : nat) : bool :=
  match l with
  | [] => negb (Nat.eqb k 0)
  | c :: r =>
      if Ascii.eqb c "," then Nat.eqb k 3 && grouped_rev r 0
      else Nat.ltb k 3 && grouped_rev r (S k)
  end.

Definition well_grouped (l : list ascii) : bool := grouped_rev (rev l) 0.

Definition ungroup (l : list ascii) : list ascii :=
  List.filter (fun c => negb (Ascii.eqb c ",")) l.

(** The canonical UTC timestamp [YYYY-MM-DDTHH:MM:SSZ]. *)
Definition isoformat_utc (y m d hh mm ss : Z) : string :=
  Datetime.four_digits y +:+ "-" +:+ Datetime.two_digits m +:+ "-"
    +:+ Datetime.two_digits d +:+ "T" +:+ Datetime.two_digits hh +:+ ":"
    +:+ Datetime.two_digits mm +:+ ":" +:+ Datetime.two_digits ss +:+ "Z".

(** The currency form of an amount. *)
Definition pesos (x : spec_float) : string :=
  "$" +:+ Float64.format_f true 0 x +:+ " COP".

(** The amounts for which [format] with a fixed-point spec fails: every
    value that is no number, and an [int] too large for a float. *)
Definition unformattable (amount : pyval) : bool :=
  match amount with
  | VFloat _ | VBool _ => false
  | VInt z =>
      match Float64.of_Z z with
      | Return _ => false
      | Raise _ => true
      end
  | _ => true
  end.

(** [x > 0] read off the value: a finite number with a positive sign that
    is not zero, or plus infinity. *)
Definition above_zero (x : spec_float) : bool :=
  match x with
  | S754_finite false _ _ | S754_infinity false => true
  | _ => false
  end.

(** The state after one reading of the clock. *)
Definition ticked (st : State) : State :=
  let w := world st in
  mkState (self st)
    (mkWorld (S (ticks w)) (locale w) (stdout w) (files w) (events w)).

(** A string without line break. *)
Definition no_newline (s : string) : Prop :=
  forallb (fun c => negb (is_newline c)) (list_ascii_of_string s) = true.

(** The header text up to and including the label of the due date. *)
Definition info_prefix (number fecha : string) : string :=
  ("No. Orden: " +:+ number +:+ nl) +:+ ("Fecha: " +:+ fecha) +:+ nl +:+ "Vencimiento: ".

(** The nested money object of the shipping charge is missing at some level. *)
Definition shipping_money_missing (order : pyval) : Prop :=
  exists d : list (string * pyval),
    order = VDict d
    /\ (dict_lookup "total_shipping_price_set" d = None
        \/ exists ps : list (string * pyval),
             dict_lookup "total_shipping_price_set" d = Some (VDict ps)
             /\ (dict_lookup "shop_money" ps = None
                 \/ exists sm : list (string * pyval),
                      dict_lookup "shop_money" ps = Some (VDict sm)
                      /\ dict_lookup "amount" sm = None)).

(** Two readings of the clock on one calendar day. *)
Definition same_day (a b : Datetime.datetime) : Prop :=
  Datetime.year a = Datetime.year b
  /\ Datetime.month a = Datetime.month b
  /\ Datetime.day a = Datetime.day b.

(* ===================================================================== *)
(** * The stages of a run *)
(* ===================================================================== *)

(** The state after [print(line)]. *)
Definition say (line : string) (st : State) : State := snd (print line st).

(** The tagged result of a failed run. *)
Definition failure (e : pyexn) : pyval :=
  VDict [("success", VBool false); ("error", VStr (exn_str e))].

(** The result dict before any upload. *)
Definition base_result (number : pyval) (save_local : bool) (path : string)
  : list (string * pyval) :=
  [("success", VBool true);
   ("order_number", number);
   ("local_file_path", if save_local then VStr path else VNone)].

(** The URL an order is fetched from. *)
Definition order_url (g : Generator) (order_id : string) : string :=
  "https://" +:+ shop_domain (shopify_config g) +:+ "/admin/api/"
    +:+ api_version (shopify_config g) +:+ "/orders/" +:+ order_id +:+ ".json".

(** The three stages of [generate_invoice], each at the state it runs in. *)
Definition fetch_stage (E : Env) (order_id : string) (st : State)
  : PyResult pyval * State :=
  get_shopify_order E order_id (say "Obteniendo datos de la orden..." st).

Definition invoice_filename (E : Env) (number : pyval) (st1 : State) : string :=
  "Factura_" +:+ pstr E number +:+ "_"
    +:+ string_of_Z (timestamp (clock E (ticks (world st1)))).

Definition render_stage (E : Env) (order number : pyval) (st1 : State)
  : PyResult string * State :=
  create_word_document E order (invoice_filename E number st1)
    (ticked (say "Creando documento de Word..." st1)).

Definition upload_stage (E : Env) (path : string) (number : pyval) (st1 st3 : State)
  : PyResult pyval * State :=
  upload_to_onedrive E path (invoice_filename E number st1)
    (say "Subiendo a OneDrive..." st3).

Definition failed (e : pyexn) (st : State) : PyResult pyval * State :=
  (Return (failure e), say ("Error generando factura: " +:+ exn_str e) st).

Definition succeeded (result : list (string * pyval)) (st : State)
  : PyResult pyval * State :=
  (Return (VDict result), say "¡Factura generada exitosamente!" st).

(** No request to the cloud and no deletion among the events. *)
Definition local_only (ev : event) : Prop :=
  match ev with
  | HttpGet _ | FileSaved _ => True
  | _ => False
  end.

(** The due date the header would show if it were the creation date plus
    30 days. *)
Definition creation_date_plus_30 (E : Env) (order : pyval) : option string :=
  match py_getitem order "created_at" with
  | Return (VStr s) =>
      match Datetime.fromisoformat (replace_Z s) with
      | Some created =>
          match Datetime.add_days created 30 with
          | Return due => Some (Datetime.strftime_dmy (pads_year E) due)
          | Raise _ => None
          end
      | None => None
      end
  | _ => None
  end.

(** The first claim on the due date, as the specification words it. *)
Definition due_date_from_creation_date : Prop :=
  forall (E : Env) (order : pyval) (fn : string) (st st' : State) (path : string)
         (doc : Docx.document) (expected : string),
    create_word_document E order fn st = (Return path, st') ->
    files (world st') !! path = Some doc ->
    creation_date_plus_30 E order = Some expected ->
    printed_due_date doc = Some expected.

(** The sample order rendered on 1 June 2024. *)
Definition sample_filename : string := "Factura_#1001_1717261200".

Definition sample_path : string := "Factura_#1001_1717261200.docx".

Definition sample_rendering : PyResult string * State :=
  create_word_document sample_env sample_order sample_filename sample_state.

Definition sample_document : option Docx.document :=
  files (world (snd sample_rendering)) !! sample_path.

(** A generator built from the configuration with all three credentials. *)
Definition cloud_generator : Generator :=
  mkGenerator
    (mkShopifyConfig "cshop.co" "shpat_tu_token" "2023-10")
    (mkOfficeConfig (VStr "cid") (VStr "secret") (VStr "tenant") VNone)
    (mkCompanyInfo "CSHOP SAS" "CRA 34 3-65" "+57 3158103812" "info@cshop.co"
       "NIT: 901410087-8").

(** A clock that advances one day per reading, from 1 June 2024. *)
Definition drifting_env : Env :=
  mkEnv (repr sample_env) true
    (fun n => mkReading (Datetime.mkDatetime 2024 6 (1 + Z.of_nat n) 12 0 0 0 None)
                        (1717261200 + 86400 * Z.of_nat n))
    (locale_available sample_env) (http_get sample_env) (http_post sample_env)
    (http_put sample_env) (save_fault sample_env).

(** The sample process three readings later. *)
Definition later_state : State :=
  mkState sample_generator (mkWorld 3 None [] ∅ []).

Definition cloud_state : State := mkState cloud_generator empty_world.

(** The fields of the sample order. *)
Definition sample_fields : list (string * pyval) :=
  match sample_order with
  | VDict d => d
  | _ => []
  end.

(** The sample order with a shipping charge of 8000 and a tax of 3800. *)
Definition taxed_order : pyval :=
  VDict
    (dict_set "total_shipping_price_set"
       (VDict [("shop_money",
                VDict [("amount", VStr "8000.00"); ("currency_code", VStr "COP")])])
       (dict_set "total_tax" (VStr "3800.00")
          (dict_set "total_price" (VStr "31800.00") sample_fields))).

(** The two line items of the sample order as the shop sends articles
    without SKU: once with a null, once with an empty string. *)
Definition items_without_sku : pyval :=
  VList
    [VDict [("title", VStr "Camiseta"); ("sku", VStr EmptyString);
            ("quantity", VInt 2); ("price", VStr "5000.00")];
     VDict [("title", VStr "Gorra"); ("sku", VNone);
            ("quantity", VInt 1); ("price", VStr "10000.00")]].

Definition null_sku_order : pyval :=
  VDict (dict_set "line_items" items_without_sku sample_fields).

(** The same with the null replaced by a second empty string. *)
Definition empty_sku_order : pyval :=
  VDict
    (dict_set "line_items"
       (VList
          [VDict [("title", VStr "Camiseta"); ("sku", VStr EmptyString);
                  ("quantity", VInt 2); ("price", VStr "5000.00")];
           VDict [("title", VStr "Gorra"); ("sku", VStr EmptyString);
                  ("quantity", VInt 1); ("price", VStr "10000.00")]])
       sample_fields).

Definition not_found : pyexn :=
  Exn HTTPError
    "404 Client Error: Not Found for url: https://cshop.co/admin/api/2023-10/orders/1001.json".

(* ===================================================================== *)
(** * The webhook of [app.py] *)
(* ===================================================================== *)

(** [print(line)] at the level of the process. *)
Definition world_print (line : string) (w : World) : World :=
  mkWorld (ticks w) (locale w) (stdout w ++ [line]) (files w) (events w).

(** The [except] branch of the handler: the JSON body and the status. *)
Definition webhook_error (e : pyexn) (w : World) : (pyval * Z) * World :=
  ((VDict [("error", VStr (exn_str e))], 500),
   world_print ("Error al procesar la orden: " +:+ exn_str e) w).

(** [handle_webhook]: [request_json] is the outcome of [request.json]; the
    module's [config] is [app_config]; the answer is the body handed to
    [jsonify] and the status code. *)
Definition handle_webhook (E : Env) (request_json : PyResult pyval) (w : World)
  : (pyval * Z) * World :=
  match request_json with
  | Raise e => webhook_error e w
  | Return data =>
      match py_getitem data "id" with
      | Raise e => webhook_error e w
      | Return order_id =>
          let w1 :=
            world_print ("¡Nueva orden recibida! ID: " +:+ pstr E order_id) w in
          match init E app_config w1 with
          | (Raise e, w2) => webhook_error e w2
          | (Return generator, w2) =>
              match generate_invoice E (pstr E order_id) true false
                      (mkState generator w2) with
              | (Raise e, st) => webhook_error e (world st)
              | (Return invoice_path, st) =>
                  ((VDict [("status", VStr "Factura generada");
                           ("path", invoice_path)], 200),
                   world_print ("Factura generada en: " +:+ pstr E invoice_path)
                     (world st))
              end
          end
      end
  end.

(* ===================================================================== *)
(** * Further readings of a run *)
(* ===================================================================== *)

(** The token endpoint of the generator's tenant. *)
Definition token_url (E : Env) (g : Generator) : string :=
  "https://login.microsoftonline.com/" +:+ pstr E (tenant_id (office_config g))
    +:+ "/oauth2/v2.0/token".

(** The address a document named [filename] is uploaded to. *)
Definition upload_url (filename : string) : string :=
  "https://graph.microsoft.com/v1.0/me/drive/root:/" +:+ filename +:+ ".docx:/content".

(** The header sent with every request for an order. *)
Definition shopify_headers (g : Generator) : list (string * string) :=
  [("X-Shopify-Access-Token", access_token (shopify_config g))].

(** What the body of [get_shopify_order] comes to: the outcome of the
    request, of the status check, of the decoding and of the look-up of
    [order], the first failure ending it. *)
Definition order_request (E : Env) (g : Generator) (order_id : string)
  : PyResult pyval :=
  let? resp := http_get E (order_url g order_id) (shopify_headers g) in
  let? _ := raise_for_status (order_url g order_id) resp in
  let? body := json resp in
  py_getitem body "order".

(** The message of [raise_for_status] for a status between 400 and 599. *)
Definition http_error (url : string) (r : response) : pyexn :=
  Exn HTTPError
    (string_of_Z (status_code r)
       +:+ (if status_code r <? 500 then " Client Error: " else " Server Error: ")
       +:+ reason r +:+ " for url: " +:+ url).

(** What [add_paragraph] shows of a value: a string as it is, and nothing
    of [None] or of any other falsy value. *)
Definition shown_text (v : pyval) : string :=
  match v with
  | VStr s => s
  | _ => EmptyString
  end.

(** [d.get(k, default)] on the bindings of a dict. *)
Definition dict_get (k : string) (default : pyval) (d : list (string * pyval)) : pyval :=
  match dict_lookup k d with
  | Some v => v
  | None => default
  end.

(** The cell of the customer band at column [c]. *)
Definition customer_cell (d : Docx.document) (c : nat) : option Docx.cell :=
  match body_table d 2 with
  | Some t => table_cell t 0 c
  | None => None
  end.

(** The keys of an order and of a line item that rendering reads with [[]]. *)
Definition order_keys : list string :=
  ["order_number"; "created_at"; "line_items"; "subtotal_price"; "total_price"].

Definition item_keys : list string := ["title"; "quantity"; "price"].

Definition has_keys (keys : list string) (v : pyval) : Prop :=
  exists d : list (string * pyval),
    v = VDict d /\ Forall (fun k => is_Some (dict_lookup k d)) keys.

(** The first cell of an item's row: the title, and under it the variant
    when the item has one. *)
Definition product_text (E : Env) (title : string) (d : list (string * pyval)) : string :=
  if py_truthy (dict_get "variant_title" VNone d)
  then title +:+ nl +:+ pstr E (dict_get "variant_title" VNone d)
  else title.

(** [row] is the table row of the line item [item]. *)
Definition row_of_item (E : Env) (item : pyval) (row : list Docx.cell) : Prop :=
  exists (d : list (string * pyval)) (title sku : string) (quantity price : pyval)
         (unit_price line_total : spec_float),
    item = VDict d
    /\ dict_lookup "title" d = Some (VStr title)
    /\ dict_get "sku" (VStr "N/A") d = VStr sku
    /\ dict_lookup "quantity" d = Some quantity
    /\ dict_lookup "price" d = Some price
    /\ py_float (repr E) price = Return unit_price
    /\ py_float_mul unit_price quantity = Return line_total
    /\ row = map Docx.text_cell
               [product_text E title d; sku; pstr E quantity;
                pesos unit_price; pesos line_total].

(** The order id of a delivery: [request.json['id']]. *)
Definition delivered_id (request_json : PyResult pyval) : PyResult pyval :=
  let? data := request_json in py_getitem data "id".

(** The name of the file a run writes: the order number and the seconds
    of the clock when the run reads it. *)
Definition invoice_path (E : Env) (number : pyval) (seconds : Z) : string :=
  "Factura_" +:+ pstr E number +:+ "_" +:+ string_of_Z seconds +:+ ".docx".

(** The creation date as the header shows it. *)
Definition shown_date (E : Env) (created : pyval) : string :=
  match created with
  | VStr s =>
      match Datetime.fromisoformat (replace_Z s) with
      | Some dt => Datetime.strftime_dmy (pads_year E) dt
      | None => s
      end
  | v => pstr E v
  end.

(** The company's cell: left cell of the first table. *)
Definition company_block (d : Docx.document) : option Docx.cell :=
  match body_table d 0 with
  | Some t => table_cell t 0 0
  | None => None
  end.

(** The headers of the request that uploads a document. *)
Definition upload_headers (E : Env) (g : Generator) : list (string * string) :=
  [("Authorization", "Bearer " +:+ pstr E (office_access_token (office_config g)));
   ("Content-Type",
    "application/vnd.openxmlformats-officedocument.wordprocessingml.document")].

(** An order with a null where rendering needs a number, a money object or
    a text: one of the three amounts, the shipping price set, or the SKU
    of a line item. *)
Definition has_null_field (d : list (string * pyval)) : Prop :=
  dict_lookup "subtotal_price" d = Some VNone
  \/ dict_lookup "total_tax" d = Some VNone
  \/ dict_lookup "total_price" d = Some VNone
  \/ dict_lookup "total_shipping_price_set" d = Some VNone
  \/ exists (items : list pyval) (item : list (string * pyval)),
       dict_lookup "line_items" d = Some (VList items)
       /\ In (VDict item) items
       /\ dict_lookup "sku" item = Some VNone.

(** A machine that has the Spanish locale only. *)
Definition spanish_env : Env :=
  mkEnv (repr sample_env) true (clock sample_env)
    (fun l => String.eqb l "es_ES.UTF-8")
    (http_get sample_env) (http_post sample_env) (http_put sample_env)
    (save_fault sample_env).

(** The sample shop answering 200 with an empty JSON object. *)
Definition empty_body_env : Env :=
  mkEnv (repr sample_env) true (clock sample_env) (locale_available sample_env)
    (fun _ _ => ok_response (VDict []))
    (http_post sample_env) (http_put sample_env) (save_fault sample_env).

(** The sample shop with a cloud that is down. *)
Definition cloud_down_env : Env :=
  mkEnv (repr sample_env) true (clock sample_env) (locale_available sample_env)
    (http_get sample_env) (http_post sample_env)
    (fun _ _ _ => Return (mkResponse 503 "Service Unavailable" (Return VNone)))
    (save_fault sample_env).

(** A generator that holds a token, on an empty disk and on the disk left
    by the sample rendering. *)
Definition token_generator : Generator :=
  mkGenerator
    (shopify_config cloud_generator)
    (mkOfficeConfig (VStr "cid") (VStr "secret") (VStr "tenant") (VStr "tok"))
    (company_info cloud_generator).

Definition token_state : State := mkState token_generator empty_world.

Definition rendered_world : World := world (snd sample_rendering).

(** The sample order with a null tax. *)
Definition null_tax_fields : list (string * pyval) :=
  match sample_order with
  | VDict d => dict_set "total_tax" VNone d
  | _ => []
  end.

(** The sample order with a place to ship to. *)
Definition shipped_order : pyval :=
  match sample_order with
  | VDict d =>
      VDict (dict_set "shipping_address"
               (VDict [("first_name", VStr "Ana"); ("last_name", VStr "Rojas");
                       ("address1", VStr "Calle 5 # 10-20");
                       ("address2", VStr EmptyString);
                       ("city", VStr "Cali"); ("province", VStr "Valle del Cauca");
                       ("zip", VStr "760001"); ("country", VStr "Colombia")]) d)
  | v => v
  end.

(* ===================================================================== *)
(** * Formatting *)
(* ===================================================================== *)

Section Grouping.

Lemma grouped_rev_group_rev (l : list ascii) :
  forallb (fun c => negb (Ascii.eqb c ",")) l = true ->
  forall k : nat,
    (k <= 3)%nat -> (l <> [] \/ (0 < k)%nat) ->
    grouped_rev (Float64.group_rev l k) k = true.
Proof.
  induction l as [|c r IH]; intros Hd k Hk Hne.
  - destruct Hne as [Hne|Hne]; [congruence|].
    destruct k; [lia|reflexivity].
  - simpl in Hd. apply andb_true_iff in Hd as [Hc Hr].
    apply negb_true_iff in Hc.
    simpl. destruct (Nat.eqb k 3) eqn:Hk3.
    + apply Nat.eqb_eq in Hk3. subst k. simpl. rewrite Hc. simpl.
      apply IH; [assumption|lia|right; lia].
    + apply Nat.eqb_neq in Hk3. simpl. rewrite Hc.
      assert (Hlt : Nat.ltb k 3 = true) by (apply Nat.ltb_lt; lia).
      rewrite Hlt. simpl. apply IH; [assumption|lia|right; lia].
Qed.

Lemma ungroup_group_rev (l : list ascii) :
  forallb (fun c => negb (Ascii.eqb c ",")) l = true ->
  forall k : nat, ungroup (Float64.group_rev l k) = l.
Proof.
  unfold ungroup.
  induction l as [|c r IH]; intros Hd k; [reflexivity|].
  simpl in Hd. apply andb_true_iff in Hd as [Hc Hr].
  simpl. destruct (Nat.eqb k 3); simpl; rewrite Hc; simpl;
    f_equal; apply IH; assumption.
Qed.

Lemma ungroup_rev (l : list ascii) : ungroup (rev l) = rev (ungroup l).
Proof.
  unfold ungroup. induction l as [|c r IH]; [reflexivity|].
  simpl. rewrite List.filter_app, IH. simpl.
  destruct (negb (Ascii.eqb c ",")); simpl; [reflexivity|].
  now rewrite app_nil_r.
Qed.

(** Grouping only adds commas, one before each full group of three. *)
Lemma group3_spec (ds : list ascii) :
  forallb (fun c => negb (Ascii.eqb c ",")) ds = true -> ds <> [] ->
  well_grouped (Float64.group3 ds) = true /\ ungroup (Float64.group3 ds) = ds.
Proof.
  intros Hd Hne.
  assert (Hr : forallb (fun c => negb (Ascii.eqb c ",")) (rev ds) = true).
  { rewrite forallb_forall in *. intros x Hx. apply Hd. now apply in_rev. }
  split.
  - unfold well_grouped, Float64.group3. rewrite rev_involutive.
    apply grouped_rev_group_rev; [assumption|lia|].
    left. intro H. apply (f_equal (@rev ascii)) in H.
    rewrite rev_involutive in H. now apply Hne.
  - unfold Float64.group3. rewrite ungroup_rev, ungroup_group_rev by assumption.
    apply rev_involutive.
Qed.

End Grouping.

Section Currency.

Lemma string_of_uint_no_comma (u : Decimal.uint) :
  forallb (fun c => negb (Ascii.eqb c ","))
          (list_ascii_of_string (NilEmpty.string_of_uint u)) = true.
Proof. induction u; simpl; auto. Qed.

Lemma pad_zeros_no_comma (n : nat) (ds : list ascii) :
  forallb (fun c => negb (Ascii.eqb c ",")) ds = true ->
  forallb (fun c => negb (Ascii.eqb c ",")) (Float64.pad_zeros n ds) = true.
Proof.
  intros H. unfold Float64.pad_zeros. rewrite forallb_app, H, andb_true_r.
  induction (n - length ds)%nat; simpl; auto.
Qed.

Lemma pad_zeros_nonempty (ds : list ascii) : Float64.pad_zeros 1 ds <> [].
Proof.
  unfold Float64.pad_zeros. destruct ds; simpl; discriminate.
Qed.

Lemma fixed_digits_grouped (n : Z) :
  Float64.fixed_digits true 0 n =
    string_of_list_ascii
      (Float64.group3
         (Float64.pad_zeros 1 (list_ascii_of_string (digits_of_N (Z.to_N n))))).
Proof.
  unfold Float64.fixed_digits.
  rewrite Nat.sub_0_r, firstn_all, app_nil_r. reflexivity.
Qed.

(** C5, on the code.  For a float the method always returns the peso
    form: a dollar sign, the amount rounded to the nearest integer with its
    digits in comma-separated groups of three, and the suffix " COP".  The
    fallback, however, never produces anything: an amount for which the
    grouped form cannot be produced (a string, [None], a list, a dict, an
    [int] beyond the range of a float) makes the two-decimal format fail
    in the same way, so the exception leaves the method from inside its
    [except] clause. *)
Theorem format_currency_fallback_fails :
  (forall amount : spec_float,
      format_currency (VFloat amount)
      = Return ("$" +:+ Float64.format_f true 0 amount +:+ " COP"))
  /\ (forall (s : bool) (m : positive) (e : Z),
        exists ds : list ascii,
          Float64.format_f true 0 (S754_finite s m e)
            = (if s then "-" else EmptyString) +:+ string_of_list_ascii ds
          /\ well_grouped ds = true
          /\ ungroup ds
             = Float64.pad_zeros 1
                 (list_ascii_of_string
                    (digits_of_N (Z.to_N (Float64.round_scaled m e 0)))))
  /\ (forall amount : pyval,
        if unformattable amount then
          exists e : pyexn,
            format_float false 2 amount = Raise e
            /\ format_currency amount = Raise e
        else
          exists x : spec_float,
            format_currency amount
            = Return ("$" +:+ Float64.format_f true 0 x +:+ " COP")).
Proof.
  split; [|split].
  - intros amount. reflexivity.
  - intros s m e.
    set (ds := Float64.pad_zeros 1
                 (list_ascii_of_string
                    (digits_of_N (Z.to_N (Float64.round_scaled m e 0))))).
    assert (Hd : forallb (fun c => negb (Ascii.eqb c ",")) ds = true).
    { apply pad_zeros_no_comma, string_of_uint_no_comma. }
    destruct (group3_spec ds Hd (pad_zeros_nonempty _)) as [Hw Hu].
    exists (Float64.group3 ds). split; [|split; assumption].
    cbn [Float64.format_f]. now rewrite fixed_digits_grouped.
  - intros amount. unfold unformattable, format_currency, rtry.
    destruct amount as [|b|z|x|s|l|d]; cbn [format_float rbind].
    + eexists. split; reflexivity.
    + destruct (Float64.of_Z (if b then 1 else 0)) as [x|e] eqn:Hb.
      * cbn [rbind]. eexists. reflexivity.
      * destruct b; vm_compute in Hb; discriminate Hb.
    + destruct (Float64.of_Z z) as [x|e]; cbn [rbind].
      * eexists. reflexivity.
      * eexists. split; reflexivity.
    + eexists. reflexivity.
    + eexists. split; reflexivity.
    + eexists. split; reflexivity.
    + eexists. split; reflexivity.
Qed.

Example format_currency_1234567 :
  format_currency (VInt 1234567) = Return "$1,234,567 COP".
Proof. vm_compute. reflexivity. Qed.

Example format_currency_12345 :
  option_map (fun x => format_currency (VFloat x)) (Float64.of_string "12345.00")
    = Some (Return "$12,345 COP").
Proof. vm_compute. reflexivity. Qed.

End Currency.

(* ===================================================================== *)
(** * Dates *)
(* ===================================================================== *)

Section Dates.

Import Datetime.

Lemma digit_char_spec (k : Z) :
  Float64.is_digit (digit_char k) = true
  /\ Float64.digit_val (digit_char k) = k mod 10.
Proof.
  unfold digit_char.
  assert (H : 0 <= k mod 10 < 10) by (apply Z.mod_pos_bound; lia).
  assert (C : k mod 10 = 0 \/ k mod 10 = 1 \/ k mod 10 = 2 \/ k mod 10 = 3
              \/ k mod 10 = 4 \/ k mod 10 = 5 \/ k mod 10 = 6 \/ k mod 10 = 7
              \/ k mod 10 = 8 \/ k mod 10 = 9) by lia.
  repeat (destruct C as [C|C]; [rewrite C; split; reflexivity|]).
  rewrite C; split; reflexivity.
Qed.

(** A digit is none of the punctuation the parsers look for. *)
Lemma digit_is_plain (c : ascii) :
  Float64.is_digit c = true ->
  Ascii.eqb c "Z" = false /\ is_sign c = false /\ is_newline c = false.
Proof.
  destruct c as [[] [] [] [] [] [] [] []]; vm_compute; intros H;
    try discriminate H; repeat split.
Qed.

Lemma parse_two_digits (n : Z) (rest : list ascii) :
  0 <= n <= 99 ->
  parse_digits 2 (list_ascii_of_string (two_digits n) ++ rest) = Some (n, rest).
Proof.
  intros Hn. unfold two_digits. cbn [list_ascii_of_string app parse_digits].
  destruct (digit_char_spec (n / 10)) as [-> ->].
  destruct (digit_char_spec n) as [-> ->].
  f_equal. f_equal. change (10 ^ Z.of_nat 1) with 10. change (10 ^ Z.of_nat 0) with 1.
  Z.div_mod_to_equations. lia.
Qed.

Lemma list_ascii_of_string_app (a b : string) :
  list_ascii_of_string (a +:+ b) = list_ascii_of_string a ++ list_ascii_of_string b.
Proof.
  induction a as [|c a IH]; [reflexivity|].
  change (c :: list_ascii_of_string (a +:+ b)
          = c :: (list_ascii_of_string a ++ list_ascii_of_string b)).
  now rewrite IH.
Qed.

Lemma parse_four_digits (y : Z) (rest : list ascii) :
  0 <= y <= 9999 ->
  parse_digits 4 (list_ascii_of_string (four_digits y) ++ rest) = Some (y, rest).
Proof.
  intros Hy. unfold four_digits. cbn [list_ascii_of_string app parse_digits].
  destruct (digit_char_spec (y / 1000)) as [-> ->].
  destruct (digit_char_spec (y / 100)) as [-> ->].
  destruct (digit_char_spec (y / 10)) as [-> ->].
  destruct (digit_char_spec y) as [-> ->].
  f_equal. f_equal.
  change (10 ^ Z.of_nat 3) with 1000. change (10 ^ Z.of_nat 2) with 100.
  change (10 ^ Z.of_nat 1) with 10. change (10 ^ Z.of_nat 0) with 1.
  Z.div_mod_to_equations. lia.
Qed.

Lemma replace_Z_app (a b : string) :
  replace_Z (a +:+ b) = replace_Z a +:+ replace_Z b.
Proof.
  induction a as [|c a IH]; [reflexivity|].
  change (String c a +:+ b) with (String c (a +:+ b)).
  cbn [replace_Z]. rewrite IH. now destruct (Ascii.eqb c "Z").
Qed.

Lemma replace_Z_digit (c : ascii) (r : string) :
  Float64.is_digit c = true -> replace_Z (String c r) = String c (replace_Z r).
Proof.
  intros H. cbn [replace_Z].
  destruct (digit_is_plain c H) as [-> _]. reflexivity.
Qed.

Lemma is_digit_digit_char (k : Z) : Float64.is_digit (digit_char k) = true.
Proof. apply digit_char_spec. Qed.

Lemma replace_Z_two_digits (n : Z) : replace_Z (two_digits n) = two_digits n.
Proof.
  unfold two_digits.
  now rewrite !replace_Z_digit by apply is_digit_digit_char.
Qed.

Lemma replace_Z_four_digits (y : Z) : replace_Z (four_digits y) = four_digits y.
Proof.
  unfold four_digits.
  now rewrite !replace_Z_digit by apply is_digit_digit_char.
Qed.

Lemma split_at_sign_two_digits (n : Z) (rest : list ascii) :
  split_at_sign (list_ascii_of_string (two_digits n) ++ rest)
  = (let '(t, z) := split_at_sign rest in
     (list_ascii_of_string (two_digits n) ++ t, z)).
Proof.
  unfold two_digits. cbn [list_ascii_of_string app split_at_sign].
  destruct (digit_is_plain _ (proj1 (digit_char_spec (n / 10)))) as (_ & -> & _).
  destruct (digit_is_plain _ (proj1 (digit_char_spec n))) as (_ & -> & _).
  destruct (split_at_sign rest). reflexivity.
Qed.

(** Above the year 999 the padding of [%Y] makes no difference. *)
Lemma format_year_four_digits (pad : bool) (y : Z) :
  1000 <= y <= 9999 -> format_year pad y = four_digits y.
Proof.
  intros Hy. destruct pad; [reflexivity|]. unfold format_year.
  assert (A : forallb (fun n => String.eqb (string_of_Z (Z.of_nat n))
                                           (four_digits (Z.of_nat n)))
                      (seq (Z.to_nat 1000) (Z.to_nat 9000)) = true)
    by (vm_compute; reflexivity).
  rewrite forallb_forall in A.
  specialize (A (Z.to_nat y)).
  rewrite Z2Nat.id in A by lia.
  apply String.eqb_eq, A, in_seq. lia.
Qed.

End Dates.

Section DateParsing.

Import Datetime.

Local Arguments digit_char : simpl never.
Local Arguments Float64.is_digit : simpl never.
Local Arguments Float64.digit_val : simpl never.
Local Arguments is_sign : simpl never.
Local Arguments check_fields : simpl never.
Local Arguments parse_digits : simpl never.
Local Arguments Z.mul : simpl never.
Local Arguments Z.add : simpl never.

Lemma check_fields_bounds (y m d hh mm ss : Z) :
  check_fields y m d hh mm ss = true ->
  1 <= y <= 9999 /\ 1 <= m <= 12 /\ 1 <= d <= 31
  /\ 0 <= hh <= 23 /\ 0 <= mm <= 59 /\ 0 <= ss <= 59.
Proof.
  unfold check_fields, MINYEAR, MAXYEAR. intros H.
  repeat (apply andb_true_iff in H as [H ?]).
  repeat match goal with
         | H : (_ <=? _) = true |- _ => apply Z.leb_le in H
         end.
  assert (Hd : days_in_month y m <= 31).
  { unfold days_in_month. destruct ((m =? 2) && is_leap y); [lia|].
    assert (C : m = 1 \/ m = 2 \/ m = 3 \/ m = 4 \/ m = 5 \/ m = 6 \/ m = 7
                \/ m = 8 \/ m = 9 \/ m = 10 \/ m = 11 \/ m = 12) by lia.
    repeat (destruct C as [C|C]; [subst m; vm_compute; discriminate|]).
    subst m; vm_compute; discriminate. }
  lia.
Qed.

Lemma chars_cons (c : ascii) (s : string) :
  list_ascii_of_string (String c EmptyString +:+ s) = c :: list_ascii_of_string s.
Proof. reflexivity. Qed.

Lemma parse_date_canonical (y m d : Z) (rest : string) :
  0 <= y <= 9999 -> 0 <= m <= 99 -> 0 <= d <= 99 ->
  parse_isoformat_date
    (list_ascii_of_string
       (four_digits y +:+ "-" +:+ two_digits m +:+ "-" +:+ two_digits d +:+ rest))
  = Some (y, m, d, list_ascii_of_string rest).
Proof.
  intros Hy Hm Hd. unfold parse_isoformat_date.
  rewrite list_ascii_of_string_app, parse_four_digits by assumption.
  rewrite chars_cons. cbv beta iota. change (Ascii.eqb "-" "-") with true. cbv iota.
  rewrite list_ascii_of_string_app, parse_two_digits by assumption.
  rewrite chars_cons. cbv beta iota. change (Ascii.eqb "-" "-") with true. cbv iota.
  rewrite list_ascii_of_string_app, parse_two_digits by assumption.
  reflexivity.
Qed.

Lemma parse_time_canonical (hh mm ss : Z) :
  0 <= hh <= 99 -> 0 <= mm <= 99 -> 0 <= ss <= 99 ->
  parse_isoformat_time
    (list_ascii_of_string
       (two_digits hh +:+ ":" +:+ two_digits mm +:+ ":" +:+ two_digits ss +:+ "+00:00"))
  = Some (hh, mm, ss, 0, Some 0).
Proof.
  intros Hh Hm Hs. unfold parse_isoformat_time.
  rewrite list_ascii_of_string_app, split_at_sign_two_digits.
  rewrite chars_cons. cbn [split_at_sign]. change (is_sign ":") with false. cbv iota.
  rewrite list_ascii_of_string_app, split_at_sign_two_digits.
  rewrite chars_cons. cbn [split_at_sign]. change (is_sign ":") with false. cbv iota.
  rewrite list_ascii_of_string_app, split_at_sign_two_digits.
  change (split_at_sign (list_ascii_of_string "+00:00"))
    with (@nil ascii, Some ("+"%char, list_ascii_of_string "00:00")).
  cbv iota beta. rewrite app_nil_r.
  unfold parse_hh_mm_ss_ff.
  rewrite parse_two_digits by assumption.
  cbv beta iota. change (Ascii.eqb ":" ":") with true. cbv iota.
  rewrite parse_two_digits by assumption.
  cbv beta iota. change (Ascii.eqb ":" ":") with true. cbv iota.
  replace (list_ascii_of_string (two_digits ss))
    with (list_ascii_of_string (two_digits ss) ++ []) by apply app_nil_r.
  rewrite parse_two_digits by assumption.
  reflexivity.
Qed.

Lemma replace_Z_isoformat_utc (y m d hh mm ss : Z) :
  replace_Z (isoformat_utc y m d hh mm ss)
  = four_digits y +:+ "-" +:+ two_digits m +:+ "-" +:+ two_digits d +:+ "T"
      +:+ two_digits hh +:+ ":" +:+ two_digits mm +:+ ":" +:+ two_digits ss
      +:+ "+00:00".
Proof.
  unfold isoformat_utc.
  rewrite !replace_Z_app, replace_Z_four_digits, !replace_Z_two_digits.
  reflexivity.
Qed.

Lemma fromisoformat_canonical (y m d hh mm ss : Z) :
  check_fields y m d hh mm ss = true ->
  fromisoformat (replace_Z (isoformat_utc y m d hh mm ss))
  = Some (mkDatetime y m d hh mm ss 0 (Some 0)).
Proof.
  intros Hc. pose proof (check_fields_bounds _ _ _ _ _ _ Hc) as B.
  rewrite replace_Z_isoformat_utc. unfold fromisoformat.
  rewrite parse_date_canonical by lia.
  rewrite chars_cons. cbv beta iota.
  unfold skip_separator. change (Float64.code "T" <? 128) with true. cbv iota.
  rewrite parse_time_canonical by lia.
  now rewrite Hc.
Qed.

(** C6. [format_date] never raises; a string that [fromisoformat] reads
    after the replacement of ['Z'] by ['+00:00'] is rendered as
    [DD/MM/YYYY] from its own date fields, every other string comes back
    unchanged.  In particular every canonical UTC timestamp
    [YYYY-MM-DDTHH:MM:SSZ] of a valid date from the year 1000 on is
    rendered as day, month and year between slashes, as is the example
    of the specification. *)
Theorem format_date_spec (E : Env) :
  (forall v : pyval, exists r : pyval, format_date E v = Return r)
  /\ (forall (s : string) (dt : datetime),
        fromisoformat (replace_Z s) = Some dt ->
        format_date E (VStr s) = Return (VStr (strftime_dmy (pads_year E) dt)))
  /\ (forall s : string,
        fromisoformat (replace_Z s) = None ->
        format_date E (VStr s) = Return (VStr s))
  /\ (forall y m d hh mm ss : Z,
        1000 <= y ->
        check_fields y m d hh mm ss = true ->
        format_date E (VStr (isoformat_utc y m d hh mm ss))
        = Return (VStr (two_digits d +:+ "/" +:+ two_digits m +:+ "/"
                          +:+ four_digits y))).
Proof.
  assert (P : forall (s : string) (dt : datetime),
             fromisoformat (replace_Z s) = Some dt ->
             format_date E (VStr s)
             = Return (VStr (strftime_dmy (pads_year E) dt))).
  { intros s dt H. unfold format_date, py_replace_Z, py_fromisoformat.
    cbn [rbind]. rewrite H. reflexivity. }
  repeat split.
  - intros v. unfold format_date.
    destruct (py_replace_Z v) as [s|e]; cbn [rbind rtry]; [|eauto].
    destruct (py_fromisoformat E s) as [dt|e]; cbn [rbind rtry]; eauto.
  - exact P.
  - intros s H. unfold format_date, py_replace_Z, py_fromisoformat.
    cbn [rbind]. rewrite H. reflexivity.
  - intros y m d hh mm ss Hy Hc.
    rewrite (P _ _ (fromisoformat_canonical _ _ _ _ _ _ Hc)).
    pose proof (check_fields_bounds _ _ _ _ _ _ Hc) as B.
    unfold strftime_dmy. cbn [day month year].
    rewrite format_year_four_digits by lia. reflexivity.
Qed.

Lemma format_date_spec_witness :
  (fromisoformat (replace_Z "2024-03-05") = Some (mkDatetime 2024 3 5 0 0 0 0 None)
   /\ format_date sample_env (VStr "2024-03-05") = Return (VStr "05/03/2024"))
  /\ (fromisoformat (replace_Z "ayer") = None
      /\ format_date sample_env (VStr "ayer") = Return (VStr "ayer"))
  /\ (1000 <= 2024
      /\ check_fields 2024 3 5 10 0 0 = true
      /\ format_date sample_env (VStr "2024-03-05T10:00:00Z")
         = Return (VStr "05/03/2024")).
Proof.
  destruct (format_date_spec sample_env) as (_ & P & U & C).
  split; [split; [reflexivity|]|split; [split; [reflexivity|]|split; [lia|split; [reflexivity|]]]].
  - exact (P "2024-03-05" (mkDatetime 2024 3 5 0 0 0 0 None) eq_refl).
  - exact (U "ayer" eq_refl).
  - exact (C 2024 3 5 10 0 0 ltac:(lia) eq_refl).
Defined.

End DateParsing.

(* ===================================================================== *)
(** * Rendering *)
(* ===================================================================== *)

(** Unfold the monad's plumbing, and nothing else. *)
Ltac run :=
  cbv beta iota zeta delta
    [bind ret raise lift get_self get_world set_world modify_world
     try_except print emit datetime_now reraise_request_exception] in *.

Ltac invert H := inversion H; subst; clear H.

(** Case analysis on the next call whose outcome decides the result. *)
Ltac branch :=
  match goal with
  | |- context [match ?c with Return _ => _ | Raise _ => _ end] =>
      destruct c eqn:?
  | |- context [match ?c with Some _ => _ | None => _ end] =>
      destruct c eqn:?
  end.

Section Rendering.

Variable E : Env.

Lemma header_table_frame (order : pyval) (st st1 : State) (r : PyResult Docx.table) :
  header_table E order st = (r, st1) ->
  self st1 = self st
  /\ files (world st1) = files (world st)
  /\ events (world st1) = events (world st).
Proof.
  unfold header_table. run.
  repeat branch; intros H; invert H; repeat split.
Qed.

Lemma header_table_Return (order : pyval) (st st1 : State) (hdr : Docx.table) :
  header_table E order st = (Return hdr, st1) ->
  exists (number created fecha : pyval) (due : Datetime.datetime),
    py_getitem order "order_number" = Return number
    /\ py_getitem order "created_at" = Return created
    /\ format_date E created = Return fecha
    /\ Datetime.add_days (now (clock E (ticks (world st)))) 30 = Return due
    /\ hdr = header_layout (company_info (self st))
               (invoice_info_text (pstr E number) (pstr E fecha)
                  (Datetime.strftime_dmy (pads_year E) due))
    /\ st1 = ticked st.
Proof.
  unfold header_table. run.
  repeat branch; intros H; invert H.
  eexists _, _, _, _. repeat split; eauto.
Qed.

(** What a successful rendering did. *)
Lemma create_word_document_Return
      (order : pyval) (fn : string) (st st' : State) (path : string) :
  create_word_document E order fn st = (Return path, st') ->
  exists hdr cust items tot : Docx.table,
    header_table E order st = (Return hdr, ticked st)
    /\ customer_table E order = Return cust
    /\ items_table E order = Return items
    /\ totals_table E order = Return tot
    /\ path = fn +:+ ".docx"
    /\ self st' = self st
    /\ ticks (world st') = S (ticks (world st))
    /\ files (world st')
       = <[path := invoice_document (company_info (self st)) hdr cust items tot]>
           (files (world st))
    /\ events (world st') = events (world st) ++ [FileSaved path].
Proof.
  unfold create_word_document, save. run.
  destruct (header_table E order st) as [[hdr|e] st1] eqn:Hh; [|discriminate].
  destruct (header_table_Return _ _ _ _ Hh) as (? & ? & ? & ? & _ & _ & _ & _ & _ & ->).
  destruct (customer_table E order) as [cust|]; [|discriminate].
  destruct (items_table E order) as [items|]; [|discriminate].
  destruct (totals_table E order) as [tot|]; [|discriminate].
  destruct (save_fault E (fn +:+ ".docx")); run; [discriminate|].
  intros H. invert H. exists hdr, cust, items, tot. repeat split; auto.
Qed.

(** A failed rendering leaves the disk as it was. *)
Lemma create_word_document_Raise
      (order : pyval) (fn : string) (st st' : State) (e : pyexn) :
  create_word_document E order fn st = (Raise e, st') ->
  self st' = self st
  /\ files (world st') = files (world st)
  /\ events (world st') = events (world st).
Proof.
  unfold create_word_document, save. run.
  destruct (header_table E order st) as [[hdr|e0] st1] eqn:Hh;
    destruct (header_table_frame _ _ _ _ Hh) as (Hs & Hf & He).
  2:{ intros H. invert H. repeat split; assumption. }
  repeat branch; run; intros H; invert H; repeat split; assumption.
Qed.

(** ** Strings of the header *)

Lemma append_cons (c : ascii) (a b : string) :
  String c a +:+ b = String c (a +:+ b).
Proof. reflexivity. Qed.

Lemma append_assoc (a b c : string) : (a +:+ b) +:+ c = a +:+ b +:+ c.
Proof.
  induction a as [|x a IH]; [reflexivity|].
  now rewrite !append_cons, IH.
Qed.

Lemma no_newline_app (a b : string) :
  no_newline a -> no_newline b -> no_newline (a +:+ b).
Proof.
  unfold no_newline. intros Ha Hb.
  now rewrite list_ascii_of_string_app, forallb_app, Ha, Hb.
Qed.

Lemma last_line_from_break (a b acc : string) :
  last_line_from acc (a +:+ nl +:+ b) = last_line_from EmptyString b.
Proof.
  revert acc. induction a as [|c a IH]; intros acc; [reflexivity|].
  rewrite append_cons. cbn [last_line_from].
  destruct (is_newline c); apply IH.
Qed.

Lemma last_line_from_plain (b acc : string) :
  no_newline b -> last_line_from acc b = acc +:+ b.
Proof.
  unfold no_newline. revert acc.
  induction b as [|c b IH]; intros acc H.
  - cbn [last_line_from]. clear H.
    induction acc as [|x acc IHa]; [reflexivity|].
    now rewrite append_cons, <- IHa.
  - cbn [list_ascii_of_string forallb] in H.
    apply andb_true_iff in H as [Hc Hb]. apply negb_true_iff in Hc.
    cbn [last_line_from]. rewrite Hc, IH by assumption.
    now rewrite append_assoc.
Qed.

Lemma strip_prefix_app (p s : string) : strip_prefix p (p +:+ s) = Some s.
Proof.
  induction p as [|c p IH]; [reflexivity|].
  rewrite append_cons. cbn [strip_prefix]. now rewrite Ascii.eqb_refl.
Qed.

Lemma no_newline_digits (u : Decimal.uint) :
  no_newline (NilEmpty.string_of_uint u).
Proof. unfold no_newline. induction u; simpl; auto. Qed.

Lemma no_newline_digit (k : Z) (s : string) :
  no_newline s -> no_newline (String (Datetime.digit_char k) s).
Proof.
  unfold no_newline. intros H. cbn [list_ascii_of_string forallb].
  destruct (digit_is_plain _ (is_digit_digit_char k)) as (_ & _ & ->).
  exact H.
Qed.

Lemma no_newline_strftime (pad : bool) (dt : Datetime.datetime) :
  no_newline (Datetime.strftime_dmy pad dt).
Proof.
  unfold Datetime.strftime_dmy, Datetime.two_digits.
  repeat first [apply no_newline_app | apply no_newline_digit | reflexivity].
  unfold Datetime.format_year, Datetime.four_digits. destruct pad.
  - repeat first [apply no_newline_digit | reflexivity].
  - unfold string_of_Z, digits_of_N.
    destruct (Datetime.year dt <? 0);
      repeat first [apply no_newline_app | apply no_newline_digits | reflexivity].
Qed.

Lemma invoice_info_text_prefix (number fecha due : string) :
  invoice_info_text number fecha due = info_prefix number fecha +:+ due.
Proof.
  unfold invoice_info_text, info_prefix. now rewrite !append_assoc.
Qed.

Lemma last_line_invoice_info_text (number fecha due : string) :
  no_newline due ->
  last_line (invoice_info_text number fecha due) = "Vencimiento: " +:+ due.
Proof.
  intros H. unfold invoice_info_text, last_line.
  replace (("No. Orden: " +:+ number +:+ nl) +:+ ("Fecha: " +:+ fecha +:+ nl)
             +:+ "Vencimiento: " +:+ due)
    with ((("No. Orden: " +:+ number +:+ nl) +:+ "Fecha: " +:+ fecha)
            +:+ nl +:+ "Vencimiento: " +:+ due)
    by now rewrite !append_assoc.
  rewrite last_line_from_break, last_line_from_plain; [reflexivity|].
  apply no_newline_app; [reflexivity|assumption].
Qed.

Lemma header_info_text_invoice_document
      (ci : CompanyInfo) (info : string) (cust items tot : Docx.table) :
  header_info_text (invoice_document ci (header_layout ci info) cust items tot)
  = Some info.
Proof. reflexivity. Qed.

(** C1 (as amended). The due date printed in the header's right column is
    the date of rendering, that is the reading of [datetime.now()] taken
    while the header is built, plus 30 calendar days. *)
Theorem due_date_is_render_date_plus_30
        (order : pyval) (fn : string) (st st' : State) (path : string) :
  create_word_document E order fn st = (Return path, st') ->
  exists (doc : Docx.document) (due : Datetime.datetime),
    files (world st') !! path = Some doc
    /\ Datetime.add_days (now (clock E (ticks (world st)))) 30 = Return due
    /\ printed_due_date doc = Some (Datetime.strftime_dmy (pads_year E) due).
Proof.
  intros H.
  destruct (create_word_document_Return _ _ _ _ _ H)
    as (hdr & cust & items & tot & Hh & _ & _ & _ & _ & _ & _ & Hf & _).
  destruct (header_table_Return _ _ _ _ Hh)
    as (number & created & fecha & due & _ & _ & _ & Hdue & -> & _).
  eexists _, due. split; [|split; [exact Hdue|]].
  - rewrite Hf. apply lookup_insert_eq.
  - unfold printed_due_date. rewrite header_info_text_invoice_document.
    rewrite last_line_invoice_info_text by apply no_newline_strftime.
    apply strip_prefix_app.
Qed.

(** ** Totals *)

Lemma shipping_amount_missing (order : pyval) :
  shipping_money_missing order -> shipping_amount E order = Return Float64.zero.
Proof.
  intros (d & -> & [H|(ps & H & [H'|(sm & H' & H'')])]);
    unfold shipping_amount; cbn [py_get rbind]; rewrite H; cbn [py_get rbind dict_lookup];
    try rewrite H'; cbn [py_get rbind dict_lookup]; try rewrite H''; reflexivity.
Qed.

Lemma format_currency_pesos (x : spec_float) :
  format_currency (VFloat x) = Return (pesos x).
Proof. reflexivity. Qed.

Lemma paragraph_text_right_line (text : string) :
  Docx.paragraph_text (right_line text) = text.
Proof.
  unfold right_line, Docx.aligned, Docx.add_paragraph, Docx.paragraph_text.
  cbn [Docx.para_runs].
  destruct (String.eqb text EmptyString) eqn:Ht; [|reflexivity].
  apply String.eqb_eq in Ht. now subst.
Qed.

Lemma totals_cell_Return (order : pyval) (block : Docx.cell) :
  totals_cell E order = Return block ->
  exists (v_sub v_tot : pyval) (subtotal taxes shipping total : spec_float),
    py_getitem order "subtotal_price" = Return v_sub
    /\ py_float (repr E) v_sub = Return subtotal
    /\ tax_amount E order = Return taxes
    /\ shipping_amount E order = Return shipping
    /\ py_getitem order "total_price" = Return v_tot
    /\ py_float (repr E) v_tot = Return total
    /\ block
       = [ Docx.mkPara (Some Docx.RIGHT) [];
           right_line ("Subtotal: " +:+ pesos subtotal) ]
           ++ (if Float64.gt_zero shipping
               then [right_line ("Envío: " +:+ pesos shipping)] else [])
           ++ (if Float64.gt_zero taxes
               then [right_line ("Impuestos: " +:+ pesos taxes)] else [])
           ++ [ Docx.mkPara (Some Docx.RIGHT)
                  [Docx.mkRun ("TOTAL: " +:+ pesos total) true (Some 14)] ].
Proof.
  intros H. unfold totals_cell in H.
  destruct (py_getitem order "subtotal_price") as [v_sub|] eqn:H1;
    [|discriminate H].
  cbn [rbind] in H.
  destruct (py_float (repr E) v_sub) as [subtotal|] eqn:H2; [|discriminate H].
  cbn [rbind] in H.
  destruct (tax_amount E order) as [taxes|] eqn:H3; [|discriminate H].
  cbn [rbind] in H.
  destruct (shipping_amount E order) as [shipping|] eqn:H4; [|discriminate H].
  cbn [rbind] in H.
  destruct (py_getitem order "total_price") as [v_tot|] eqn:H5; [|discriminate H].
  cbn [rbind] in H.
  destruct (py_float (repr E) v_tot) as [total|] eqn:H6; [|discriminate H].
  cbn [rbind] in H.
  rewrite !format_currency_pesos in H. cbn [rbind] in H.
  exists v_sub, v_tot, subtotal, taxes, shipping, total.
  do 6 (split; [first [assumption|reflexivity]|]).
  destruct (Float64.gt_zero shipping), (Float64.gt_zero taxes);
    rewrite ?format_currency_pesos in H; cbn [rbind] in H; now invert H.
Qed.

Lemma totals_block_invoice_document
      (ci : CompanyInfo) (hdr cust items : Docx.table) (block : Docx.cell) :
  totals_block
    (invoice_document ci hdr cust items
       (Docx.mkTable false None
          [Some (Docx.Inches 4 1); Some (Docx.Inches 2 1)]
          [[Docx.new_cell; block]]))
  = Some block.
Proof. reflexivity. Qed.

Lemma gt_zero_above_zero (x : spec_float) : Float64.gt_zero x = above_zero x.
Proof. destruct x as [s|s| |s m e]; try destruct s; reflexivity. Qed.

Lemma tax_amount_Return (order : pyval) (taxes : spec_float) :
  tax_amount E order = Return taxes ->
  exists v_tax : pyval,
    py_get order "total_tax" (VInt 0) = Return v_tax
    /\ py_float (repr E) v_tax = Return taxes.
Proof.
  unfold tax_amount.
  destruct (py_get order "total_tax" (VInt 0)) as [v_tax|] eqn:H1;
    [|discriminate].
  cbn [rbind]. intros H. exists v_tax. split; first [reflexivity|assumption].
Qed.

Lemma shipping_amount_Return (order : pyval) (shipping : spec_float) :
  shipping_amount E order = Return shipping ->
  exists price_set shop_money v_ship : pyval,
    py_get order "total_shipping_price_set" (VDict []) = Return price_set
    /\ py_get price_set "shop_money" (VDict []) = Return shop_money
    /\ py_get shop_money "amount" (VInt 0) = Return v_ship
    /\ py_float (repr E) v_ship = Return shipping.
Proof.
  unfold shipping_amount.
  destruct (py_get order "total_shipping_price_set" (VDict []))
    as [price_set|] eqn:H1; [|discriminate].
  cbn [rbind].
  destruct (py_get price_set "shop_money" (VDict [])) as [shop_money|] eqn:H2;
    [|discriminate].
  cbn [rbind].
  destruct (py_get shop_money "amount" (VInt 0)) as [v_ship|] eqn:H3;
    [|discriminate].
  cbn [rbind]. intros H. exists price_set, shop_money, v_ship.
  repeat split; first [reflexivity|assumption].
Qed.

(** With the money object missing at some level the amount read is the
    default, the integer 0. *)
Lemma shipping_default (order price_set shop_money v_ship : pyval) :
  shipping_money_missing order ->
  py_get order "total_shipping_price_set" (VDict []) = Return price_set ->
  py_get price_set "shop_money" (VDict []) = Return shop_money ->
  py_get shop_money "amount" (VInt 0) = Return v_ship ->
  v_ship = VInt 0.
Proof.
  intros (d & -> & [H|(ps & H & [H'|(sm & H' & H'')])]) H1 H2 H3;
    cbn [py_get] in H1; rewrite H in H1; invert H1;
    cbn [py_get dict_lookup] in H2; rewrite ?H' in H2; invert H2;
    cbn [py_get dict_lookup] in H3; rewrite ?H'' in H3; now invert H3.
Qed.

(** C7. The totals block of every rendered order holds, under its empty
    first paragraph, a Subtotal line from [subtotal_price], an "Envío" line
    exactly when the shipping amount read from
    [total_shipping_price_set.shop_money.amount] is above zero, an
    "Impuestos" line exactly when the amount read from [total_tax] is above
    zero, and last a bold 14 point TOTAL line that shows the order's own
    [total_price]; a shipping money object missing at any level gives the
    default amount 0, hence no "Envío" line. *)
Theorem totals_block_lines
        (order : pyval) (fn : string) (st st' : State) (path : string) :
  create_word_document E order fn st = (Return path, st') ->
  exists (doc : Docx.document) (block : Docx.cell)
         (v_sub v_tax price_set shop_money v_ship v_tot : pyval)
         (subtotal taxes shipping total : spec_float),
    files (world st') !! path = Some doc
    /\ totals_block doc = Some block
    /\ py_getitem order "subtotal_price" = Return v_sub
    /\ py_float (repr E) v_sub = Return subtotal
    /\ py_get order "total_tax" (VInt 0) = Return v_tax
    /\ py_float (repr E) v_tax = Return taxes
    /\ py_get order "total_shipping_price_set" (VDict []) = Return price_set
    /\ py_get price_set "shop_money" (VDict []) = Return shop_money
    /\ py_get shop_money "amount" (VInt 0) = Return v_ship
    /\ py_float (repr E) v_ship = Return shipping
    /\ py_getitem order "total_price" = Return v_tot
    /\ py_float (repr E) v_tot = Return total
    /\ map Docx.paragraph_text block
       = [EmptyString; "Subtotal: " +:+ pesos subtotal]
           ++ (if above_zero shipping then ["Envío: " +:+ pesos shipping] else [])
           ++ (if above_zero taxes then ["Impuestos: " +:+ pesos taxes] else [])
           ++ ["TOTAL: " +:+ pesos total]
    /\ last block
       = Some (Docx.mkPara (Some Docx.RIGHT)
                 [Docx.mkRun ("TOTAL: " +:+ pesos total) true (Some 14)])
    /\ has_line "Subtotal: " (map Docx.paragraph_text block) = true
    /\ has_line "TOTAL: " (map Docx.paragraph_text block) = true
    /\ has_line "Envío: " (map Docx.paragraph_text block) = above_zero shipping
    /\ has_line "Impuestos: " (map Docx.paragraph_text block) = above_zero taxes
    /\ (shipping_money_missing order ->
        v_ship = VInt 0
        /\ shipping = Float64.zero
        /\ has_line "Envío: " (map Docx.paragraph_text block) = false).
Proof.
  intros H.
  destruct (create_word_document_Return _ _ _ _ _ H)
    as (hdr & cust & items & tot & _ & _ & _ & Ht & _ & _ & _ & Hf & _).
  unfold totals_table in Ht.
  destruct (totals_cell E order) as [block|] eqn:Hc; [|discriminate].
  cbn [rbind] in Ht. invert Ht.
  destruct (totals_cell_Return _ _ Hc)
    as (v_sub & v_tot & subtotal & taxes & shipping & total
        & H1 & H2 & H3 & H4 & H5 & H6 & Hblock).
  destruct (tax_amount_Return _ _ H3) as (v_tax & T1 & T2).
  destruct (shipping_amount_Return _ _ H4)
    as (price_set & shop_money & v_ship & S1 & S2 & S3 & S4).
  rewrite !gt_zero_above_zero in Hblock. subst block.
  set (lines := [EmptyString; "Subtotal: " +:+ pesos subtotal]
           ++ (if above_zero shipping then ["Envío: " +:+ pesos shipping] else [])
           ++ (if above_zero taxes then ["Impuestos: " +:+ pesos taxes] else [])
           ++ ["TOTAL: " +:+ pesos total]).
  eexists _, _, v_sub, v_tax, price_set, shop_money, v_ship, v_tot,
    subtotal, taxes, shipping, total.
  split; [rewrite Hf; apply lookup_insert_eq|].
  split; [apply totals_block_invoice_document|].
  do 10 (split; [assumption|]).
  assert (Hl : map Docx.paragraph_text
                 ([ Docx.mkPara (Some Docx.RIGHT) [];
                    right_line ("Subtotal: " +:+ pesos subtotal) ]
                    ++ (if above_zero shipping
                        then [right_line ("Envío: " +:+ pesos shipping)] else [])
                    ++ (if above_zero taxes
                        then [right_line ("Impuestos: " +:+ pesos taxes)] else [])
                    ++ [ Docx.mkPara (Some Docx.RIGHT)
                           [Docx.mkRun ("TOTAL: " +:+ pesos total) true (Some 14)] ])
               = lines).
  { subst lines. destruct (above_zero shipping), (above_zero taxes);
      cbn [map app]; rewrite ?paragraph_text_right_line; reflexivity. }
  rewrite Hl. split; [reflexivity|].
  split; [destruct (above_zero shipping), (above_zero taxes); reflexivity|].
  assert (He : has_line "Envío: " lines = above_zero shipping).
  { subst lines. destruct (above_zero shipping), (above_zero taxes);
      reflexivity. }
  assert (Hd : has_line "Subtotal: " lines = true
               /\ has_line "TOTAL: " lines = true
               /\ has_line "Impuestos: " lines = above_zero taxes).
  { subst lines.
    destruct (above_zero shipping), (above_zero taxes);
      repeat split; reflexivity. }
  destruct Hd as (Hs & Ht & Hi).
  split; [exact Hs|]. split; [exact Ht|]. split; [exact He|]. split; [exact Hi|].
  intros Hm. pose proof (shipping_default _ _ _ _ Hm S1 S2 S3) as Hv.
  subst v_ship. vm_compute in S4. invert S4.
  split; [reflexivity|]. split; [reflexivity|]. rewrite He. reflexivity.
Qed.

(** ** Line items *)

Lemma item_row_Return (item : pyval) (row : list Docx.cell) :
  item_row E item = Return row ->
  exists (d : list (string * pyval)) (sku_text : string),
    item = VDict d
    /\ row !! 1%nat = Some (Docx.text_cell sku_text)
    /\ match dict_lookup "sku" d with
       | None => sku_text = "N/A"
       | Some v => v = VStr sku_text
       end.
Proof.
  intros H. unfold item_row in H.
  destruct item as [| | | | |l|d]; try discriminate H.
  destruct (py_getitem (VDict d) "title") as [title|]; [|discriminate H].
  cbn [rbind] in H.
  destruct (py_get (VDict d) "variant_title" VNone) as [vt|]; [|discriminate H].
  cbn [rbind] in H.
  match type of H with
  | rbind ?c _ = _ => destruct c as [product_name|]; [|discriminate H]
  end.
  cbn [rbind] in H.
  destruct (text_arg product_name) as [c0|]; [|discriminate H].
  cbn [rbind] in H.
  destruct (py_get (VDict d) "sku" (VStr "N/A")) as [sku|] eqn:Hsku;
    [|discriminate H].
  cbn [rbind] in H.
  destruct (text_arg sku) as [c1|] eqn:Hc1; [|discriminate H].
  cbn [rbind] in H.
  repeat match type of H with
         | rbind ?c _ = _ => destruct c; [|discriminate H]; cbn [rbind] in H
         end.
  invert H. exists d, c1. split; [reflexivity|]. split; [reflexivity|].
  cbn [py_get] in Hsku.
  destruct sku; try discriminate Hc1. cbn [text_arg] in Hc1. invert Hc1.
  destruct (dict_lookup "sku" d); invert Hsku; reflexivity.
Qed.

Lemma item_rows_Return (items : list pyval) :
  forall rows : list (list Docx.cell),
    item_rows E items = Return rows ->
    Forall2
      (fun item row =>
         exists (d : list (string * pyval)) (sku_text : string),
           item = VDict d
           /\ row !! 1%nat = Some (Docx.text_cell sku_text)
           /\ match dict_lookup "sku" d with
              | None => sku_text = "N/A"
              | Some v => v = VStr sku_text
              end)
      items rows.
Proof.
  induction items as [|item items IH]; intros rows H.
  - invert H. constructor.
  - cbn [item_rows] in H.
    destruct (item_row E item) as [row|] eqn:Hr; [|discriminate H].
    cbn [rbind] in H.
    destruct (item_rows E items) as [rows'|]; [|discriminate H].
    cbn [rbind] in H. invert H.
    constructor; [now apply item_row_Return|now apply IH].
Qed.

(** C8, on the code.  The SKU cell of a line item is decided by the key
    [sku] alone.  When the key is missing the cell shows the literal "N/A";
    when it holds a string the cell shows that string, an empty one
    included; when it holds a null the order is not rendered at all:
    [create_word_document] raises and writes no file.  So an article
    without SKU gets its "N/A" only if the shop leaves the key out. *)
Theorem sku_cell_by_key
        (order line_items : pyval) (items : list pyval) (i : nat)
        (d : list (string * pyval)) (fn : string) (st : State) :
  py_getitem order "line_items" = Return line_items ->
  py_iter line_items = Return items ->
  items !! i = Some (VDict d) ->
  match dict_lookup "sku" d with
  | Some VNone =>
      exists (e : pyexn) (st' : State),
        create_word_document E order fn st = (Raise e, st')
        /\ files (world st') = files (world st)
  | sku =>
      forall (path : string) (st' : State),
        create_word_document E order fn st = (Return path, st') ->
        exists (doc : Docx.document) (rows : list (list Docx.cell))
               (row : list Docx.cell),
          files (world st') !! path = Some doc
          /\ item_rows_of doc = Some rows
          /\ length rows = length items
          /\ rows !! i = Some row
          /\ match sku with
             | None => row !! 1%nat = Some (Docx.text_cell "N/A")
             | Some (VStr s) => row !! 1%nat = Some (Docx.text_cell s)
             | Some _ => True
             end
  end.
Proof.
  intros Hl Hit Hi.
  assert (K : forall (path : string) (st' : State),
             create_word_document E order fn st = (Return path, st') ->
             exists (doc : Docx.document) (rows : list (list Docx.cell))
                    (row : list Docx.cell) (sku_text : string),
               files (world st') !! path = Some doc
               /\ item_rows_of doc = Some rows
               /\ length rows = length items
               /\ rows !! i = Some row
               /\ row !! 1%nat = Some (Docx.text_cell sku_text)
               /\ match dict_lookup "sku" d with
                  | None => sku_text = "N/A"
                  | Some v => v = VStr sku_text
                  end).
  { intros path st' H.
    destruct (create_word_document_Return _ _ _ _ _ H)
      as (hdr & cust & tbl & tot & _ & _ & Ht & _ & _ & _ & _ & Hf & _).
    unfold items_table in Ht. rewrite Hl in Ht. cbn [rbind] in Ht.
    rewrite Hit in Ht. cbn [rbind] in Ht.
    destruct (item_rows E items) as [rows|] eqn:Hr; [|discriminate Ht].
    cbn [rbind] in Ht. invert Ht.
    pose proof (item_rows_Return _ _ Hr) as HF.
    destruct (Forall2_lookup_l _ _ _ _ _ HF Hi)
      as (row & Hrow & d' & sku_text & Hd & Hc & Hs).
    invert Hd.
    eexists _, rows, row, sku_text.
    split; [rewrite Hf; apply lookup_insert_eq|].
    split; [reflexivity|].
    split; [symmetry; exact (Forall2_length _ _ _ HF)|].
    split; [exact Hrow|]. split; [exact Hc|exact Hs]. }
  destruct (dict_lookup "sku" d) as [v|] eqn:Hsku.
  - destruct v as [| | | |s| |].
    + destruct (create_word_document E order fn st) as [[path|e] st'] eqn:H.
      * destruct (K _ _ eq_refl) as (? & ? & ? & ? & _ & _ & _ & _ & _ & Hv).
        discriminate Hv.
      * exists e, st'. split; [reflexivity|].
        now destruct (create_word_document_Raise _ _ _ _ _ H) as (_ & Hf & _).
    + intros path st' H.
      destruct (K _ _ H) as (doc & rows & row & t & Hf & Hr & Hn & Hrow & _).
      exists doc, rows, row. repeat split; assumption.
    + intros path st' H.
      destruct (K _ _ H) as (doc & rows & row & t & Hf & Hr & Hn & Hrow & _).
      exists doc, rows, row. repeat split; assumption.
    + intros path st' H.
      destruct (K _ _ H) as (doc & rows & row & t & Hf & Hr & Hn & Hrow & _).
      exists doc, rows, row. repeat split; assumption.
    + intros path st' H.
      destruct (K _ _ H)
        as (doc & rows & row & t & Hf & Hr & Hn & Hrow & Hc & Hv).
      invert Hv. exists doc, rows, row. repeat split; assumption.
    + intros path st' H.
      destruct (K _ _ H) as (doc & rows & row & t & Hf & Hr & Hn & Hrow & _).
      exists doc, rows, row. repeat split; assumption.
    + intros path st' H.
      destruct (K _ _ H) as (doc & rows & row & t & Hf & Hr & Hn & Hrow & _).
      exists doc, rows, row. repeat split; assumption.
  - intros path st' H.
    destruct (K _ _ H)
      as (doc & rows & row & t & Hf & Hr & Hn & Hrow & Hc & Hv).
    subst t. exists doc, rows, row. repeat split; assumption.
Qed.

(** ** Repeatability *)

Lemma add_days_same_day (pad : bool) (a b da db : Datetime.datetime) (n : Z) :
  same_day a b ->
  Datetime.add_days a n = Return da ->
  Datetime.add_days b n = Return db ->
  Datetime.strftime_dmy pad da = Datetime.strftime_dmy pad db.
Proof.
  intros (Hy & Hm & Hd). unfold Datetime.add_days, Datetime.toordinal.
  rewrite Hy, Hm, Hd.
  destruct ((0 <? _) && (_ <=? Datetime.MAXORDINAL)); [|discriminate].
  destruct (Datetime.ord2ymd _) as [[y m] d].
  intros H1 H2. invert H1. invert H2. reflexivity.
Qed.

Lemma set_header_info_invoice_document
      (ci : CompanyInfo) (info text : string) (cust items tot : Docx.table) :
  set_header_info text
    (invoice_document ci (header_layout ci info) cust items tot)
  = invoice_document ci (header_layout ci text) cust items tot.
Proof. reflexivity. Qed.

(** C9. Two renderings of the same order for the same company profile, at
    any two times and under any two file names, give documents that agree
    in every field except the due date at the end of the header's right
    column; when both are made on the same calendar day the documents are
    equal. *)
Theorem rendering_repeatable
        (order : pyval) (fn1 fn2 : string) (st1 st2 st1' st2' : State)
        (p1 p2 : string) :
  company_info (self st1) = company_info (self st2) ->
  create_word_document E order fn1 st1 = (Return p1, st1') ->
  create_word_document E order fn2 st2 = (Return p2, st2') ->
  exists (d1 d2 : Docx.document) (due1 due2 : Datetime.datetime)
         (number fecha : string),
    files (world st1') !! p1 = Some d1
    /\ files (world st2') !! p2 = Some d2
    /\ Datetime.add_days (now (clock E (ticks (world st1)))) 30 = Return due1
    /\ Datetime.add_days (now (clock E (ticks (world st2)))) 30 = Return due2
    /\ header_info_text d1
       = Some (info_prefix number fecha
                 +:+ Datetime.strftime_dmy (pads_year E) due1)
    /\ header_info_text d2
       = Some (info_prefix number fecha
                 +:+ Datetime.strftime_dmy (pads_year E) due2)
    /\ (forall text : string, set_header_info text d1 = set_header_info text d2)
    /\ (same_day (now (clock E (ticks (world st1))))
                 (now (clock E (ticks (world st2)))) ->
        d1 = d2).
Proof.
  intros Hci H1 H2.
  destruct (create_word_document_Return _ _ _ _ _ H1)
    as (hdr1 & cust1 & items1 & tot1 & Hh1 & Hc1 & Hi1 & Ht1 & _ & _ & _ & Hf1 & _).
  destruct (create_word_document_Return _ _ _ _ _ H2)
    as (hdr2 & cust2 & items2 & tot2 & Hh2 & Hc2 & Hi2 & Ht2 & _ & _ & _ & Hf2 & _).
  destruct (header_table_Return _ _ _ _ Hh1)
    as (n1 & c1 & f1 & due1 & Hn1 & Hcr1 & Hfe1 & Hdue1 & -> & _).
  destruct (header_table_Return _ _ _ _ Hh2)
    as (n2 & c2 & f2 & due2 & Hn2 & Hcr2 & Hfe2 & Hdue2 & -> & _).
  assert (cust2 = cust1) by congruence.
  assert (items2 = items1) by congruence.
  assert (tot2 = tot1) by congruence.
  assert (n2 = n1) by congruence.
  assert (c2 = c1) by congruence. subst.
  assert (f2 = f1) by congruence. subst.
  rewrite <- Hci in *.
  eexists _, _, due1, due2, (pstr E n1), (pstr E f1).
  split; [rewrite Hf1; apply lookup_insert_eq|].
  split; [rewrite Hf2; apply lookup_insert_eq|].
  do 2 (split; [assumption|]).
  rewrite !header_info_text_invoice_document, !invoice_info_text_prefix.
  do 2 (split; [reflexivity|]).
  split.
  - intros text. now rewrite !set_header_info_invoice_document.
  - intros Hs.
    now rewrite (add_days_same_day (pads_year E) _ _ _ _ _ Hs Hdue1 Hdue2).
Qed.

End Rendering.

(* ===================================================================== *)
(** * The orchestrator *)
(* ===================================================================== *)

(** Bring the state after a [print] back to its fields. *)
Ltac settle :=
  unfold say in *; run;
  cbn [fst snd self world ticks locale stdout files events] in *.

Section Orchestrator.

Variable E : Env.

(** [generate_invoice] as a decision tree over the outcomes of its stages. *)
Lemma generate_invoice_eq (order_id : string) (save_local upload_to_cloud : bool)
      (st : State) :
  generate_invoice E order_id save_local upload_to_cloud st =
  match fetch_stage E order_id st with
  | (Raise e, st1) => failed e st1
  | (Return order, st1) =>
      match py_getitem order "order_number" with
      | Raise e => failed e (say "Creando documento de Word..." st1)
      | Return number =>
          match render_stage E order number st1 with
          | (Raise e, st3) => failed e st3
          | (Return path, st3) =>
              if upload_to_cloud
                 && py_all (office_config_values (office_config (self st3)))
              then
                match upload_stage E path number st1 st3 with
                | (Raise e, st4) => failed e st4
                | (Return cloud_info, st4) =>
                    if save_local then
                      succeeded
                        (dict_set "cloud_info" cloud_info
                           (base_result number save_local path)) st4
                    else
                      match os_remove path st4 with
                      | (Raise e, st5) => failed e st5
                      | (Return _, st5) =>
                          succeeded
                            (dict_set "local_file_path" VNone
                               (dict_set "cloud_info" cloud_info
                                  (base_result number save_local path))) st5
                      end
                end
              else succeeded (base_result number save_local path) st3
          end
      end
  end.
Proof.
  unfold generate_invoice, fetch_stage, render_stage, upload_stage, failed,
    succeeded, say.
  run. cbn [snd].
  destruct (get_shopify_order E order_id _) as [[order|e] st1]; [|reflexivity].
  destruct (py_getitem order "order_number") as [number|e]; [|reflexivity].
  unfold invoice_filename, ticked. cbn [world ticks self locale stdout files events].
  destruct (create_word_document E order _ _) as [[path|e] st3]; [|reflexivity].
  destruct (upload_to_cloud && _); [|reflexivity].
  destruct (upload_to_onedrive E path _ _) as [[cloud_info|e] st4]; [|reflexivity].
  destruct save_local; cbn [negb]; [reflexivity|].
  destruct (os_remove path st4) as [[[]|e] st5]; reflexivity.
Qed.

(** ** What the stages leave behind *)

Lemma get_shopify_order_frame (order_id : string) (st st1 : State)
      (r : PyResult pyval) :
  get_shopify_order E order_id st = (r, st1) ->
  self st1 = self st
  /\ ticks (world st1) = ticks (world st)
  /\ files (world st1) = files (world st)
  /\ events (world st1)
     = events (world st) ++ [HttpGet (order_url (self st) order_id)].
Proof.
  unfold get_shopify_order, requests_get. run.
  repeat branch; try destruct (is_RequestException _);
    run; intros H; invert H; repeat split.
Qed.

Lemma fetch_stage_frame (order_id : string) (st st1 : State) (r : PyResult pyval) :
  fetch_stage E order_id st = (r, st1) ->
  self st1 = self st
  /\ ticks (world st1) = ticks (world st)
  /\ files (world st1) = files (world st)
  /\ events (world st1)
     = events (world st) ++ [HttpGet (order_url (self st) order_id)].
Proof. intros H. exact (get_shopify_order_frame _ _ _ _ H). Qed.

(** A 404 from the shop makes the fetch raise, with the status in the
    message. *)
Lemma fetch_stage_not_found (order_id : string) (st : State) (resp : response) :
  http_get E (order_url (self st) order_id)
    [("X-Shopify-Access-Token", access_token (shopify_config (self st)))]
  = Return resp ->
  status_code resp = 404 ->
  exists st1 : State,
    fetch_stage E order_id st
    = (Raise (Exn HTTPError
                ("404 Client Error: " +:+ reason resp +:+ " for url: "
                   +:+ order_url (self st) order_id)),
       st1).
Proof.
  intros Hg Hs. unfold fetch_stage, get_shopify_order, requests_get, say. run.
  cbn [snd self world]. fold (order_url (self st) order_id).
  rewrite Hg. unfold raise_for_status. rewrite Hs.
  cbn. eexists. reflexivity.
Qed.

(** C3. [generate_invoice] never raises.  Whatever the fetch, the render
    or the upload stage raises (or the look-up of the order number, or
    the removal of the local file) comes back as the tagged result with
    [success = False] and the exception's message; otherwise the result
    has [success = True], the order number and the local file path, plus
    [cloud_info] after an upload. *)
Theorem generate_invoice_never_raises
        (order_id : string) (save_local upload_to_cloud : bool) (st : State) :
  exists (result : pyval) (st' : State),
    generate_invoice E order_id save_local upload_to_cloud st = (Return result, st')
    /\ match fetch_stage E order_id st with
       | (Raise e, _) => result = failure e
       | (Return order, st1) =>
           match py_getitem order "order_number" with
           | Raise e => result = failure e
           | Return number =>
               match render_stage E order number st1 with
               | (Raise e, _) => result = failure e
               | (Return path, st3) =>
                   if upload_to_cloud
                      && py_all (office_config_values (office_config (self st3)))
                   then
                     match upload_stage E path number st1 st3 with
                     | (Raise e, _) => result = failure e
                     | (Return cloud_info, st4) =>
                         if save_local then
                           result
                           = VDict [("success", VBool true);
                                    ("order_number", number);
                                    ("local_file_path", VStr path);
                                    ("cloud_info", cloud_info)]
                         else
                           match os_remove path st4 with
                           | (Raise e, _) => result = failure e
                           | (Return _, _) =>
                               result
                               = VDict [("success", VBool true);
                                        ("order_number", number);
                                        ("local_file_path", VNone);
                                        ("cloud_info", cloud_info)]
                           end
                     end
                   else
                     result
                     = VDict [("success", VBool true);
                              ("order_number", number);
                              ("local_file_path",
                               if save_local then VStr path else VNone)]
               end
           end
       end.
Proof.
  rewrite generate_invoice_eq. unfold failed, succeeded.
  destruct (fetch_stage E order_id st) as [[order|e] st1]; [|eauto].
  destruct (py_getitem order "order_number") as [number|e]; [|eauto].
  destruct (render_stage E order number st1) as [[path|e] st3]; [|eauto].
  destruct (upload_to_cloud && _); [|eauto].
  destruct (upload_stage E path number st1 st3) as [[cloud_info|e] st4]; [|eauto].
  destruct save_local; [eauto|].
  destruct (os_remove path st4) as [[[]|e] st5]; eauto.
Qed.

(** C4. When the fetch of the order fails, [generate_invoice] returns the
    tagged failure carrying the message of the exception of the fetch, and
    the render stage is never reached: the clock is not read, no file is
    written, and the only effect is the request to the shop. *)
Theorem fetch_failure_creates_no_file
        (order_id : string) (save_local upload_to_cloud : bool)
        (st st1 : State) (e : pyexn) :
  fetch_stage E order_id st = (Raise e, st1) ->
  exists st' : State,
    generate_invoice E order_id save_local upload_to_cloud st
    = (Return (VDict [("success", VBool false); ("error", VStr (exn_str e))]), st')
    /\ files (world st') = files (world st)
    /\ ticks (world st') = ticks (world st)
    /\ events (world st')
       = events (world st) ++ [HttpGet (order_url (self st) order_id)].
Proof.
  intros H. rewrite generate_invoice_eq, H. unfold failed, failure.
  destruct (fetch_stage_frame _ _ _ _ H) as (_ & Ht & Hf & He).
  eexists. split; [reflexivity|]. repeat split; assumption.
Qed.

(** ** Runs without upload *)

Lemma render_stage_Return (order number : pyval) (st1 st3 : State) (path : string) :
  render_stage E order number st1 = (Return path, st3) ->
  exists doc : Docx.document,
    self st3 = self st1
    /\ files (world st3) = <[path := doc]> (files (world st1))
    /\ events (world st3) = events (world st1) ++ [FileSaved path].
Proof.
  intros H. unfold render_stage in H.
  destruct (create_word_document_Return _ _ _ _ _ _ H)
    as (hdr & cust & items & tot & _ & _ & _ & _ & _ & Hs & _ & Hf & He).
  eexists. split; [exact Hs|]. split; [exact Hf|exact He].
Qed.

Lemma render_stage_Raise (order number : pyval) (st1 st3 : State) (e : pyexn) :
  render_stage E order number st1 = (Raise e, st3) ->
  self st3 = self st1
  /\ files (world st3) = files (world st1)
  /\ events (world st3) = events (world st1).
Proof.
  intros H. unfold render_stage in H.
  exact (create_word_document_Raise _ _ _ _ _ _ H).
Qed.

(** Without upload the run fetches, renders and stops: the only effects
    are the request to the shop and at most one saved file, nothing is
    removed and the result carries no [cloud_info]. *)
Lemma generate_invoice_without_upload
      (order_id : string) (save_local upload_to_cloud : bool)
      (st st' : State) (r : PyResult pyval) :
  upload_to_cloud = false
  \/ py_all (office_config_values (office_config (self st))) = false ->
  generate_invoice E order_id save_local upload_to_cloud st = (r, st') ->
  exists new_events : list event,
    events (world st') = events (world st) ++ new_events
    /\ Forall local_only new_events
    /\ (forall p : string, is_Some (files (world st) !! p) ->
                           is_Some (files (world st') !! p))
    /\ (forall d : list (string * pyval),
          r = Return (VDict d) -> dict_lookup "cloud_info" d = None)
    /\ (forall d : list (string * pyval),
          r = Return (VDict d) ->
          dict_lookup "success" d = Some (VBool true) ->
          exists (number : pyval) (path : string) (doc : Docx.document),
            d = base_result number save_local path
            /\ files (world st') !! path = Some doc
            /\ In (FileSaved path) new_events).
Proof.
  intros Hno. rewrite generate_invoice_eq. unfold failed, succeeded, failure.
  destruct (fetch_stage E order_id st) as [[order|e] st1] eqn:Hfetch;
    destruct (fetch_stage_frame _ _ _ _ Hfetch) as (Hs1 & _ & Hf1 & He1).
  2:{ intros H. invert H. settle. eexists. split; [exact He1|].
      split; [repeat constructor|]. split; [now rewrite Hf1|].
      split; intros d Hd; invert Hd; [reflexivity|discriminate]. }
  destruct (py_getitem order "order_number") as [number|e].
  2:{ intros H. invert H. settle. eexists. split; [exact He1|].
      split; [repeat constructor|]. split; [now rewrite Hf1|].
      split; intros d Hd; invert Hd; [reflexivity|discriminate]. }
  destruct (render_stage E order number st1) as [[path|e] st3] eqn:Hrender.
  2:{ destruct (render_stage_Raise _ _ _ _ _ Hrender) as (_ & Hf3 & He3).
      intros H. invert H. settle. eexists. split; [rewrite He3; exact He1|].
      split; [repeat constructor|]. split; [now rewrite Hf3, Hf1|].
      split; intros d Hd; invert Hd; [reflexivity|discriminate]. }
  destruct (render_stage_Return _ _ _ _ _ Hrender) as (doc & Hs3 & Hf3 & He3).
  assert (Hoff : upload_to_cloud
                 && py_all (office_config_values (office_config (self st3)))
                 = false).
  { destruct Hno as [->|Hno]; [reflexivity|].
    rewrite Hs3, Hs1, Hno. apply andb_false_r. }
  rewrite Hoff. intros H. invert H. settle.
  exists [HttpGet (order_url (self st) order_id); FileSaved path].
  split; [rewrite He3, He1, <- app_assoc; reflexivity|].
  split; [repeat constructor|].
  split.
  { intros p Hp. rewrite Hf3, Hf1.
    destruct (decide (path = p)) as [->|Hne];
      [rewrite lookup_insert_eq; eauto|now rewrite lookup_insert_ne]. }
  split.
  { intros d Hd. invert Hd. reflexivity. }
  intros d Hd _. invert Hd. exists number, path, doc.
  split; [reflexivity|]. split; [rewrite Hf3; apply lookup_insert_eq|].
  right. left. reflexivity.
Qed.

(** C10. A successful run with [save_local = False] and no upload returns
    the result with [local_file_path = None] and nothing else that names
    the file, although the rendered document was saved and nothing
    removed it: the file is still on disk when the call returns. *)
Theorem unreferenced_local_file
        (order_id : string) (upload_to_cloud : bool) (st st' : State)
        (d : list (string * pyval)) :
  upload_to_cloud = false
  \/ py_all (office_config_values (office_config (self st))) = false ->
  generate_invoice E order_id false upload_to_cloud st = (Return (VDict d), st') ->
  dict_lookup "success" d = Some (VBool true) ->
  exists (number : pyval) (path : string) (doc : Docx.document)
         (new_events : list event),
    d = [("success", VBool true);
         ("order_number", number);
         ("local_file_path", VNone)]
    /\ events (world st') = events (world st) ++ new_events
    /\ In (FileSaved path) new_events
    /\ (forall p : string, ~ In (FileRemoved p) new_events)
    /\ files (world st') !! path = Some doc.
Proof.
  intros Hno H Hs.
  destruct (generate_invoice_without_upload _ _ _ _ _ _ Hno H)
    as (new_events & He & Hl & _ & _ & Hd).
  destruct (Hd d eq_refl Hs) as (number & path & doc & -> & Hf & Hi).
  exists number, path, doc, new_events.
  split; [reflexivity|]. split; [exact He|]. split; [exact Hi|].
  split; [|exact Hf].
  intros p Hp. rewrite List.Forall_forall in Hl. exact (Hl _ Hp).
Qed.

(** ** A generator fresh from [__init__] *)

Lemma init_office_access_token
      (config : gmap string string) (w w0 : World) (g : Generator) :
  init E config w = (Return g, w0) ->
  office_access_token (office_config g) = VNone
  /\ client_id (office_config g) = config_get config "office_client_id"
  /\ client_secret (office_config g) = config_get config "office_client_secret"
  /\ tenant_id (office_config g) = config_get config "office_tenant_id"
  /\ events w0 = events w
  /\ files w0 = files w.
Proof.
  unfold init, setlocale.
  destruct (config !! "shop_domain"); [|discriminate].
  destruct (config !! "shopify_access_token"); [|discriminate].
  destruct (locale_available E "es_CO.UTF-8");
    [|destruct (locale_available E "es_ES.UTF-8")];
    intros H; invert H; repeat split.
Qed.

Lemma py_all_without_token (oc : OfficeConfig) :
  office_access_token oc = VNone -> py_all (office_config_values oc) = false.
Proof.
  intros H. unfold py_all, office_config_values. cbn [forallb].
  rewrite H. cbn [py_truthy andb]. now rewrite !andb_false_r.
Qed.

(** C2, on the code.  A generator fresh from [__init__] never uploads,
    whatever credentials its configuration holds: the test
    [all(self.office_config.values())] also reads the access token, which
    is still [None].  The run only fetches and renders, nothing is sent
    to the cloud or removed, and the result has no [cloud_info]. *)
Theorem fresh_generator_skips_upload
        (config : gmap string string) (w w0 : World) (g : Generator)
        (order_id : string) (save_local : bool)
        (r : PyResult pyval) (st' : State) :
  init E config w = (Return g, w0) ->
  generate_invoice E order_id save_local true (mkState g w0) = (r, st') ->
  exists new_events : list event,
    events (world st') = events w0 ++ new_events
    /\ Forall local_only new_events
    /\ (forall p : string, is_Some (files w0 !! p) ->
                           is_Some (files (world st') !! p))
    /\ (forall d : list (string * pyval),
          r = Return (VDict d) -> dict_lookup "cloud_info" d = None).
Proof.
  intros Hi H.
  destruct (init_office_access_token _ _ _ _ Hi) as (Ht & _).
  destruct (generate_invoice_without_upload order_id save_local true
              (mkState g w0) st' r
              (or_intror (py_all_without_token _ Ht)) H)
    as (new_events & He & Hl & Hf & Hc & _).
  exists new_events. repeat split; assumption.
Qed.

End Orchestrator.

(* ===================================================================== *)
(** * The claims on the sample order *)
(* ===================================================================== *)

Lemma sample_rendering_eq :
  create_word_document sample_env sample_order sample_filename sample_state
  = (Return sample_path, snd sample_rendering).
Proof. vm_compute. reflexivity. Qed.

(** C1 as the specification words it fails: the sample order was created on
    5 March 2024 and is rendered on 1 June 2024; its header shows 01/07/2024
    where the creation date plus 30 days is 04/04/2024. *)
Lemma due_date_from_creation_date_fails : ~ due_date_from_creation_date.
Proof.
  intros C.
  assert (K : match sample_document with
              | Some doc => printed_due_date doc
              | None => None
              end = Some "01/07/2024") by (vm_compute; reflexivity).
  destruct sample_document as [doc|] eqn:Hd; [|discriminate K].
  assert (Hc : creation_date_plus_30 sample_env sample_order = Some "04/04/2024")
    by (vm_compute; reflexivity).
  pose proof (C _ _ _ _ _ _ doc _ sample_rendering_eq Hd Hc) as H.
  rewrite H in K. discriminate K.
Qed.

Lemma due_date_is_render_date_plus_30_witness :
  create_word_document sample_env sample_order sample_filename sample_state
  = (Return sample_path, snd sample_rendering)
  /\ exists doc : Docx.document,
       sample_document = Some doc
       /\ printed_due_date doc = Some "01/07/2024".
Proof.
  assert (H : create_word_document sample_env sample_order sample_filename sample_state
              = (Return sample_path, snd sample_rendering))
    by (vm_compute; reflexivity).
  split; [exact H|].
  destruct (due_date_is_render_date_plus_30 sample_env _ _ _ _ _ H)
    as (doc & due & Hf & Hdue & Hp).
  exists doc. split; [exact Hf|].
  rewrite Hp. vm_compute in Hdue. injection Hdue as <-. vm_compute. reflexivity.
Defined.

Lemma totals_block_lines_witness :
  (exists (st' : State) (doc : Docx.document) (block : Docx.cell),
      create_word_document sample_env taxed_order sample_filename sample_state
      = (Return sample_path, st')
      /\ files (world st') !! sample_path = Some doc
      /\ totals_block doc = Some block
      /\ map Docx.paragraph_text block
         = [EmptyString; "Subtotal: $20,000 COP"; "Envío: $8,000 COP";
            "Impuestos: $3,800 COP"; "TOTAL: $31,800 COP"])
  /\ (exists (doc : Docx.document) (block : Docx.cell),
        create_word_document sample_env sample_order sample_filename sample_state
        = (Return sample_path, snd sample_rendering)
        /\ sample_document = Some doc
        /\ totals_block doc = Some block
        /\ map Docx.paragraph_text block
           = [EmptyString; "Subtotal: $20,000 COP"; "TOTAL: $20,000 COP"]).
Proof.
  split.
  - set (r := create_word_document sample_env taxed_order sample_filename
                sample_state).
    assert (H : r = (Return sample_path, snd r)) by (vm_compute; reflexivity).
    destruct (totals_block_lines sample_env taxed_order sample_filename
                sample_state (snd r) sample_path H)
      as (doc & block & v_sub & v_tax & price_set & shop_money & v_ship & v_tot
          & subtotal & taxes & shipping & total
          & Hf & Hb & H1 & H2 & H3 & H4 & H5 & H6 & H7 & H8 & H9 & H10 & Hl & _).
    exists (snd r), doc, block.
    split; [exact H|]. split; [exact Hf|]. split; [exact Hb|].
    rewrite Hl.
    vm_compute in H1. injection H1 as <-.
    vm_compute in H2. injection H2 as <-.
    vm_compute in H3. injection H3 as <-.
    vm_compute in H4. injection H4 as <-.
    vm_compute in H5. injection H5 as <-.
    vm_compute in H6. injection H6 as <-.
    vm_compute in H7. injection H7 as <-.
    vm_compute in H8. injection H8 as <-.
    vm_compute in H9. injection H9 as <-.
    vm_compute in H10. injection H10 as <-.
    vm_compute. reflexivity.
  - assert (H : create_word_document sample_env sample_order sample_filename
                  sample_state
                = (Return sample_path, snd sample_rendering))
      by (vm_compute; reflexivity).
    destruct (totals_block_lines sample_env sample_order sample_filename
                sample_state (snd sample_rendering) sample_path H)
      as (doc & block & v_sub & v_tax & price_set & shop_money & v_ship & v_tot
          & subtotal & taxes & shipping & total
          & Hf & Hb & H1 & H2 & H3 & H4 & H5 & H6 & H7 & H8 & H9 & H10 & Hl & _).
    exists doc, block.
    split; [exact H|]. split; [exact Hf|]. split; [exact Hb|].
    rewrite Hl.
    vm_compute in H1. injection H1 as <-.
    vm_compute in H2. injection H2 as <-.
    vm_compute in H3. injection H3 as <-.
    vm_compute in H4. injection H4 as <-.
    vm_compute in H5. injection H5 as <-.
    vm_compute in H6. injection H6 as <-.
    vm_compute in H7. injection H7 as <-.
    vm_compute in H8. injection H8 as <-.
    vm_compute in H9. injection H9 as <-.
    vm_compute in H10. injection H10 as <-.
    vm_compute. reflexivity.
Defined.

Lemma sku_cell_by_key_witness :
  (exists st' : State,
      create_word_document sample_env null_sku_order sample_filename sample_state
      = (Raise (Exn TypeError "'NoneType' object is not iterable"), st')
      /\ files (world st') = ∅)
  /\ (exists (st' : State) (doc : Docx.document) (rows : list (list Docx.cell)),
        create_word_document sample_env empty_sku_order sample_filename sample_state
        = (Return sample_path, st')
        /\ files (world st') !! sample_path = Some doc
        /\ item_rows_of doc = Some rows
        /\ map (fun row : list Docx.cell => row !! 1%nat) rows
           = [Some (Docx.text_cell EmptyString); Some (Docx.text_cell EmptyString)]).
Proof.
  split.
  - set (r := create_word_document sample_env null_sku_order sample_filename
                sample_state).
    assert (H : r = (Raise (Exn TypeError "'NoneType' object is not iterable"),
                     snd r))
      by (vm_compute; reflexivity).
    destruct (sku_cell_by_key sample_env null_sku_order items_without_sku
                [VDict [("title", VStr "Camiseta"); ("sku", VStr EmptyString);
                        ("quantity", VInt 2); ("price", VStr "5000.00")];
                 VDict [("title", VStr "Gorra"); ("sku", VNone);
                        ("quantity", VInt 1); ("price", VStr "10000.00")]]
                1%nat
                [("title", VStr "Gorra"); ("sku", VNone);
                 ("quantity", VInt 1); ("price", VStr "10000.00")]
                sample_filename sample_state eq_refl eq_refl eq_refl)
      as (e & st' & He & Hf).
    fold r in He. rewrite H in He. invert He.
    exists (snd r). split; [exact H|exact Hf].
  - set (r := create_word_document sample_env empty_sku_order sample_filename
                sample_state).
    assert (H : r = (Return sample_path, snd r)) by (vm_compute; reflexivity).
    destruct (sku_cell_by_key sample_env empty_sku_order _ _ 1%nat
                [("title", VStr "Gorra"); ("sku", VStr EmptyString);
                 ("quantity", VInt 1); ("price", VStr "10000.00")]
                sample_filename sample_state eq_refl eq_refl eq_refl
                sample_path (snd r) H)
      as (doc & rows & row & Hf & Hr & _).
    exists (snd r), doc, rows.
    split; [exact H|]. split; [exact Hf|]. split; [exact Hr|].
    assert (Hd : files (world (snd r)) !! sample_path = Some doc) by exact Hf.
    vm_compute in Hd. injection Hd as <-.
    vm_compute in Hr. injection Hr as <-.
    vm_compute. reflexivity.
Defined.

Lemma rendering_repeatable_witness :
  company_info (self sample_state) = company_info (self later_state)
  /\ exists (st1' st2' : State) (d1 d2 : Docx.document),
       create_word_document drifting_env sample_order "uno" sample_state
       = (Return "uno.docx", st1')
       /\ create_word_document drifting_env sample_order "dos" later_state
          = (Return "dos.docx", st2')
       /\ files (world st1') !! "uno.docx" = Some d1
       /\ files (world st2') !! "dos.docx" = Some d2
       /\ printed_due_date d1 = Some "01/07/2024"
       /\ printed_due_date d2 = Some "04/07/2024"
       /\ set_header_info EmptyString d1 = set_header_info EmptyString d2.
Proof.
  split; [reflexivity|].
  set (r1 := create_word_document drifting_env sample_order "uno" sample_state).
  set (r2 := create_word_document drifting_env sample_order "dos" later_state).
  assert (H1 : r1 = (Return "uno.docx", snd r1)) by (vm_compute; reflexivity).
  assert (H2 : r2 = (Return "dos.docx", snd r2)) by (vm_compute; reflexivity).
  destruct (rendering_repeatable drifting_env sample_order "uno" "dos"
              sample_state later_state (snd r1) (snd r2) "uno.docx" "dos.docx"
              eq_refl H1 H2)
    as (d1 & d2 & due1 & due2 & number & fecha & Hf1 & Hf2 & _ & _ & _ & _ & Hs & _).
  exists (snd r1), (snd r2), d1, d2.
  split; [exact H1|]. split; [exact H2|].
  split; [exact Hf1|]. split; [exact Hf2|].
  split; [|split; [|apply Hs]].
  - vm_compute in Hf1. injection Hf1 as <-. vm_compute. reflexivity.
  - vm_compute in Hf2. injection Hf2 as <-. vm_compute. reflexivity.
Defined.

Lemma fetch_failure_creates_no_file_witness :
  exists st1 st' : State,
    fetch_stage not_found_env "1001" sample_state = (Raise not_found, st1)
    /\ generate_invoice not_found_env "1001" true false sample_state
       = (Return (VDict [("success", VBool false);
                         ("error", VStr (exn_str not_found))]), st')
    /\ files (world st') = ∅.
Proof.
  set (f := fetch_stage not_found_env "1001" sample_state).
  assert (H : f = (Raise not_found, snd f)) by (vm_compute; reflexivity).
  destruct (fetch_failure_creates_no_file not_found_env "1001" true false
              sample_state (snd f) not_found H)
    as (st' & Hg & Hfiles & _).
  exists (snd f), st'. split; [exact H|]. split; [exact Hg|exact Hfiles].
Defined.

Lemma unreferenced_local_file_witness :
  exists st' : State,
    generate_invoice sample_env "1001" false false sample_state
    = (Return (VDict [("success", VBool true);
                      ("order_number", VStr "#1001");
                      ("local_file_path", VNone)]), st')
    /\ exists doc : Docx.document, files (world st') !! sample_path = Some doc.
Proof.
  set (r := generate_invoice sample_env "1001" false false sample_state).
  assert (H : r = (Return (VDict [("success", VBool true);
                                  ("order_number", VStr "#1001");
                                  ("local_file_path", VNone)]), snd r))
    by (vm_compute; reflexivity).
  destruct (unreferenced_local_file sample_env "1001" false sample_state (snd r) _
              (or_introl eq_refl) H eq_refl)
    as (number & path & doc & new_events & _ & _ & _ & _ & _).
  exists (snd r). split; [exact H|].
  vm_compute. eexists. reflexivity.
Defined.

Lemma fresh_generator_skips_upload_witness :
  init sample_env cloud_config empty_world = (Return cloud_generator, empty_world)
  /\ py_all [client_id (office_config cloud_generator);
             client_secret (office_config cloud_generator);
             tenant_id (office_config cloud_generator)] = true
  /\ exists st' : State,
       generate_invoice sample_env "1001" true true cloud_state
       = (Return (VDict [("success", VBool true);
                         ("order_number", VStr "#1001");
                         ("local_file_path", VStr sample_path)]), st')
       /\ events (world st')
          = [HttpGet "https://cshop.co/admin/api/2023-10/orders/1001.json";
             FileSaved sample_path].
Proof.
  assert (Hi : init sample_env cloud_config empty_world
               = (Return cloud_generator, empty_world))
    by (vm_compute; reflexivity).
  split; [exact Hi|]. split; [reflexivity|].
  set (r := generate_invoice sample_env "1001" true true cloud_state).
  assert (H : r = (fst r, snd r)) by (destruct r; reflexivity).
  destruct (fresh_generator_skips_upload sample_env cloud_config empty_world
              empty_world cloud_generator "1001" true (fst r) (snd r) Hi H)
    as (new_events & _).
  exists (snd r). split; vm_compute; reflexivity.
Defined.

(* ===================================================================== *)
(** * Further properties of the code *)
(* ===================================================================== *)

Section Construction.

Variable E : Env.

(** X1. The constructor fails exactly when [shop_domain] or
    [shopify_access_token] is missing from the configuration: it then
    raises the [KeyError] of the first missing key and leaves the process
    untouched.  No other key is required, and the locale never makes it
    fail. *)
Theorem init_requires_shop_keys (config : gmap string string) (w : World) :
  match config !! "shop_domain", config !! "shopify_access_token" with
  | None, _ => init E config w = (Raise (Exn KeyError "'shop_domain'"), w)
  | Some _, None =>
      init E config w = (Raise (Exn KeyError "'shopify_access_token'"), w)
  | Some domain, Some token =>
      exists (g : Generator) (w' : World),
        init E config w = (Return g, w')
        /\ shopify_config g = mkShopifyConfig domain token "2023-10"
        /\ office_access_token (office_config g) = VNone
  end.
Proof.
  unfold init, setlocale.
  destruct (config !! "shop_domain") as [domain|]; [|reflexivity].
  destruct (config !! "shopify_access_token") as [token|]; [|reflexivity].
  destruct (locale_available E "es_CO.UTF-8");
    [|destruct (locale_available E "es_ES.UTF-8")];
    eexists _, _; repeat split.
Qed.

(** X2. A successful construction changes nothing in the process but the
    locale, which becomes [es_CO.UTF-8] when that locale is available,
    else [es_ES.UTF-8] when that one is, and otherwise stays as it was. *)
Theorem init_locale_fallback
        (config : gmap string string) (w w' : World) (g : Generator) :
  init E config w = (Return g, w') ->
  locale w'
  = (if locale_available E "es_CO.UTF-8" then Some "es_CO.UTF-8"
     else if locale_available E "es_ES.UTF-8" then Some "es_ES.UTF-8"
          else locale w)
  /\ ticks w' = ticks w /\ stdout w' = stdout w
  /\ files w' = files w /\ events w' = events w.
Proof.
  unfold init, setlocale.
  destruct (config !! "shop_domain"); [|discriminate].
  destruct (config !! "shopify_access_token"); [|discriminate].
  destruct (locale_available E "es_CO.UTF-8");
    [|destruct (locale_available E "es_ES.UTF-8")];
    intros H; invert H; repeat split.
Qed.

End Construction.

Section Requests.

Variable E : Env.

(** X3. [get_shopify_order] adds nothing to the outcome of its request: it
    returns the order or raises the very exception of the first step that
    failed (the request, the status check, the decoding, the look-up of
    [order]).  It prints its error line exactly when that exception is a
    [RequestException], so a body without the key [order] raises [KeyError]
    without a trace on standard output.  It returns an order only for an
    answer outside 400..599 whose JSON body has the key. *)
Theorem get_shopify_order_outcomes
        (order_id : string) (st st' : State) (r : PyResult pyval) :
  get_shopify_order E order_id st = (r, st') ->
  r = order_request E (self st) order_id
  /\ match r with
     | Return order =>
         stdout (world st') = stdout (world st)
         /\ exists (resp : response) (body : pyval),
              http_get E (order_url (self st) order_id) (shopify_headers (self st))
              = Return resp
              /\ ~ (400 <= status_code resp < 600)
              /\ json resp = Return body
              /\ py_getitem body "order" = Return order
     | Raise e =>
         stdout (world st')
         = stdout (world st)
             ++ (if is_RequestException e
                 then ["Error obteniendo orden de Shopify: " +:+ exn_str e]
                 else [])
     end.
Proof.
  unfold get_shopify_order, requests_get, order_request. run.
  fold (order_url (self st) order_id). fold (shopify_headers (self st)).
  destruct (http_get E _ _) as [resp|e] eqn:Hg; cbn [rbind].
  2:{ destruct (is_RequestException e) eqn:He; run; intros H; invert H;
        (split; [reflexivity|]);
        cbn [world stdout]; rewrite He; [reflexivity|now rewrite app_nil_r]. }
  destruct (raise_for_status (order_url (self st) order_id) resp) as [[]|e] eqn:Hr;
    cbn [rbind].
  2:{ destruct (is_RequestException e) eqn:He; run; intros H; invert H;
        (split; [reflexivity|]);
        cbn [world stdout]; rewrite He; [reflexivity|now rewrite app_nil_r]. }
  destruct (json resp) as [body|e] eqn:Hj; cbn [rbind].
  2:{ destruct (is_RequestException e) eqn:He; run; intros H; invert H;
        (split; [reflexivity|]);
        cbn [world stdout]; rewrite He; [reflexivity|now rewrite app_nil_r]. }
  destruct (py_getitem body "order") as [order|e] eqn:Ho.
  2:{ destruct (is_RequestException e) eqn:He; run; intros H; invert H;
        (split; [reflexivity|]);
        cbn [world stdout]; rewrite He; [reflexivity|now rewrite app_nil_r]. }
  intros H. invert H. split; [reflexivity|]. split; [reflexivity|].
  exists resp, body. repeat split; try assumption.
  unfold raise_for_status in Hr. intros [Hlo Hhi].
  destruct (400 <=? status_code resp) eqn:H4; [|lia].
  destruct (status_code resp <? 500) eqn:H5; [discriminate Hr|].
  cbn [andb] in Hr.
  destruct (500 <=? status_code resp) eqn:H6; [|lia].
  destruct (status_code resp <? 600) eqn:H7; [discriminate Hr|lia].
Qed.

Lemma raise_for_status_error (url : string) (r : response) :
  400 <= status_code r < 600 -> raise_for_status url r = Raise (http_error url r).
Proof.
  intros [Hlo Hhi]. unfold raise_for_status, http_error.
  assert (H4 : (400 <=? status_code r) = true) by lia. rewrite H4.
  destruct (status_code r <? 500) eqn:H5; cbn [andb]; [reflexivity|].
  assert (H6 : (500 <=? status_code r) = true) by lia.
  assert (H7 : (status_code r <? 600) = true) by lia.
  now rewrite H6, H7.
Qed.

(** X4. Whatever its body, an answer of the shop with a status between 400
    and 599 makes [get_shopify_order] raise the [HTTPError] that names the
    status, the reason and the address, and log it. *)
Theorem get_shopify_order_http_error
        (order_id : string) (st : State) (resp : response) :
  http_get E (order_url (self st) order_id) (shopify_headers (self st)) = Return resp ->
  400 <= status_code resp < 600 ->
  exists st' : State,
    get_shopify_order E order_id st
    = (Raise (http_error (order_url (self st) order_id) resp), st')
    /\ stdout (world st')
       = stdout (world st)
           ++ ["Error obteniendo orden de Shopify: "
                 +:+ exn_str (http_error (order_url (self st) order_id) resp)]
    /\ files (world st') = files (world st).
Proof.
  intros Hg Hs. unfold get_shopify_order, requests_get. run.
  fold (order_url (self st) order_id). fold (shopify_headers (self st)).
  rewrite Hg, (raise_for_status_error _ _ Hs).
  eexists. repeat split.
Qed.

Lemma get_office_access_token_frame (st st1 : State) (r : PyResult pyval) :
  get_office_access_token E st = (r, st1) ->
  files (world st1) = files (world st)
  /\ events (world st1) = events (world st) ++ [HttpPost (token_url E (self st))]
  /\ match r with
     | Return token => office_access_token (office_config (self st1)) = token
     | Raise _ => self st1 = self st
     end.
Proof.
  unfold get_office_access_token, requests_post, set_office_access_token. run.
  fold (token_url E (self st)).
  repeat branch; try destruct (is_RequestException _); run;
    intros H; invert H; repeat split; cbn; congruence.
Qed.

(** X5. [get_office_access_token] sends one request to the tenant's token
    endpoint and touches neither the disk nor the clock.  When it returns,
    the token it returns is the one now cached on the object, whose other
    settings are as before; when it raises, the object is unchanged. *)
Theorem get_office_access_token_caches
        (st st' : State) (r : PyResult pyval) :
  get_office_access_token E st = (r, st') ->
  files (world st') = files (world st)
  /\ ticks (world st') = ticks (world st)
  /\ events (world st') = events (world st) ++ [HttpPost (token_url E (self st))]
  /\ match r with
     | Return token =>
         office_access_token (office_config (self st')) = token
         /\ client_id (office_config (self st')) = client_id (office_config (self st))
         /\ client_secret (office_config (self st'))
            = client_secret (office_config (self st))
         /\ tenant_id (office_config (self st')) = tenant_id (office_config (self st))
         /\ shopify_config (self st') = shopify_config (self st)
         /\ company_info (self st') = company_info (self st)
     | Raise _ => self st' = self st
     end.
Proof.
  unfold get_office_access_token, requests_post, set_office_access_token. run.
  fold (token_url E (self st)).
  repeat branch; try destruct (is_RequestException _); run;
    intros H; invert H; repeat split; cbn; congruence.
Qed.

End Requests.

Section Upload.

Variable E : Env.

(** X6. With a token cached on the object, [upload_to_onedrive] asks for no
    new one: it reads the file and sends one PUT to the address derived
    from the file name, or does nothing at all when the file is missing.
    Neither the object nor the disk changes. *)
Theorem upload_reuses_cached_token
        (file_path filename : string) (st st' : State) (r : PyResult pyval) :
  py_truthy (office_access_token (office_config (self st))) = true ->
  upload_to_onedrive E file_path filename st = (r, st') ->
  self st' = self st
  /\ files (world st') = files (world st)
  /\ events (world st')
     = events (world st)
         ++ match files (world st) !! file_path with
            | Some _ => [FileRead file_path; HttpPut (upload_url filename)]
            | None => []
            end
  /\ (files (world st) !! file_path = None -> r = Raise (no_such_file file_path)).
Proof.
  intros Ht. unfold upload_to_onedrive, read_file, requests_put. run.
  rewrite Ht. cbn [negb]. run. fold (upload_url filename).
  destruct (files (world st) !! file_path) as [doc|] eqn:Hf; run.
  - repeat branch; try destruct (is_RequestException _); run;
      intros H; invert H; cbn [self world files events];
      rewrite <- ?app_assoc; repeat split; discriminate.
  - intros H. invert H. cbn [self world files events].
    rewrite app_nil_r. repeat split.
Qed.

(** X7. Without a cached token [upload_to_onedrive] first requests one.
    When that request fails the upload fails with the same exception and
    nothing is read or sent; when it succeeds the token stays cached on
    the object for later uploads. *)
Theorem upload_acquires_token_first
        (file_path filename : string) (st st' : State) (r : PyResult pyval) :
  py_truthy (office_access_token (office_config (self st))) = false ->
  upload_to_onedrive E file_path filename st = (r, st') ->
  match get_office_access_token E st with
  | (Raise e, st1) =>
      r = Raise e
      /\ self st' = self st
      /\ events (world st') = events (world st) ++ [HttpPost (token_url E (self st))]
  | (Return token, st1) =>
      self st' = self st1
      /\ office_access_token (office_config (self st')) = token
      /\ events (world st')
         = events (world st)
             ++ HttpPost (token_url E (self st))
             :: match files (world st) !! file_path with
                | Some _ => [FileRead file_path; HttpPut (upload_url filename)]
                | None => []
                end
  end.
Proof.
  intros Ht Hu.
  destruct (get_office_access_token E st) as [[token|e] st1] eqn:Hg;
    destruct (get_office_access_token_frame E _ _ _ Hg) as (Hf1 & He1 & Hs1);
    revert Hu; unfold upload_to_onedrive, read_file, requests_put; run;
    rewrite Ht; cbn [negb]; rewrite Hg; run; fold (upload_url filename).
  - rename Hs1 into Htok. rewrite Hf1.
    destruct (files (world st) !! file_path) as [doc|] eqn:Hf; run.
    + repeat branch; try destruct (is_RequestException _); run;
        intros H; invert H; cbn [self world files events];
        rewrite He1, <- ?app_assoc; repeat split; assumption.
    + destruct (is_RequestException _); run; intros H; invert H;
        cbn [self world files events]; repeat split; assumption.
  - destruct (is_RequestException e); run; intros H; invert H;
      cbn [self world files events]; repeat split; assumption.
Qed.

Lemma raise_for_status_Return (url : string) (r : response) :
  raise_for_status url r = Return tt -> ~ (400 <= status_code r < 600).
Proof.
  unfold raise_for_status. intros Hr [Hlo Hhi].
  destruct (400 <=? status_code r) eqn:H4; [|lia].
  destruct (status_code r <? 500) eqn:H5; [discriminate Hr|].
  cbn [andb] in Hr.
  destruct (500 <=? status_code r) eqn:H6; [|lia].
  destruct (status_code r <? 600) eqn:H7; [discriminate Hr|lia].
Qed.

(** X23. An upload that returns has sent the content of the local file in
    a PUT that carries the cached token as bearer, got an answer outside
    400..599 and built its result from the answer's [id], [webUrl] and
    [@microsoft.graph.downloadUrl], all three of which must be there. *)
Theorem upload_result
        (file_path filename : string) (st st' : State) (v : pyval) :
  py_truthy (office_access_token (office_config (self st))) = true ->
  upload_to_onedrive E file_path filename st = (Return v, st') ->
  exists (doc : Docx.document) (resp : response)
         (file_info document_id web_url download_url : pyval),
    files (world st) !! file_path = Some doc
    /\ http_put E (upload_url filename) (upload_headers E (self st)) doc = Return resp
    /\ ~ (400 <= status_code resp < 600)
    /\ json resp = Return file_info
    /\ py_getitem file_info "id" = Return document_id
    /\ py_getitem file_info "webUrl" = Return web_url
    /\ py_getitem file_info "@microsoft.graph.downloadUrl" = Return download_url
    /\ v = VDict [("document_id", document_id);
                  ("web_url", web_url);
                  ("download_url", download_url)].
Proof.
  intros Ht. unfold upload_to_onedrive, read_file, requests_put. run.
  rewrite Ht. cbn [negb]. run.
  destruct (files (world st) !! file_path) as [doc|] eqn:Hf; run.
  2:{ destruct (is_RequestException _); run; discriminate. }
  cbn [self world ticks locale stdout files events].
  fold (upload_url filename). fold (upload_headers E (self st)).
  destruct (http_put E (upload_url filename) (upload_headers E (self st)) doc)
    as [resp|e] eqn:Hp.
  2:{ run. destruct (is_RequestException _); run; discriminate. }
  destruct (raise_for_status (upload_url filename) resp) as [[]|e] eqn:Hr.
  2:{ run. destruct (is_RequestException _); run; discriminate. }
  destruct (json resp) as [file_info|e] eqn:Hj.
  2:{ run. destruct (is_RequestException _); run; discriminate. }
  destruct (py_getitem file_info "id") as [document_id|e] eqn:H1.
  2:{ run. destruct (is_RequestException _); run; discriminate. }
  destruct (py_getitem file_info "webUrl") as [web_url|e] eqn:H2.
  2:{ run. destruct (is_RequestException _); run; discriminate. }
  destruct (py_getitem file_info "@microsoft.graph.downloadUrl")
    as [download_url|e] eqn:H3.
  2:{ run. destruct (is_RequestException _); run; discriminate. }
  run. intros H. invert H.
  exists doc, resp, file_info, document_id, web_url, download_url.
  split; [reflexivity|]. split; [exact Hp|].
  split; [exact (raise_for_status_Return _ _ Hr)|].
  repeat split; assumption.
Qed.

End Upload.

Section Layout.

Variable E : Env.

Lemma py_getitem_Return (v x : pyval) (k : string) :
  py_getitem v k = Return x ->
  exists d : list (string * pyval), v = VDict d /\ dict_lookup k d = Some x.
Proof.
  destruct v; try discriminate. cbn [py_getitem].
  destruct (dict_lookup k d) eqn:H; [|discriminate].
  intros H'. invert H'. eauto.
Qed.

(** X8. A successful rendering saves exactly one file, named after the
    given base with the extension [.docx], and leaves every other file as
    it was.  It reads the clock once and prints nothing. *)
Theorem render_writes_one_file
        (order : pyval) (fn : string) (st st' : State) (path : string) :
  create_word_document E order fn st = (Return path, st') ->
  path = fn +:+ ".docx"
  /\ save_fault E path = None
  /\ is_Some (files (world st') !! path)
  /\ (forall p : string, p <> path -> files (world st') !! p = files (world st) !! p)
  /\ events (world st') = events (world st) ++ [FileSaved path]
  /\ stdout (world st') = stdout (world st)
  /\ ticks (world st') = S (ticks (world st)).
Proof.
  intros H.
  destruct (create_word_document_Return E _ _ _ _ _ H)
    as (hdr & cust & items & tot & Hh & Hc & Hi & Ht & Hp & _ & Hk & Hf & He).
  revert H. unfold create_word_document, save. run.
  rewrite Hh, Hc, Hi, Ht. subst path.
  destruct (save_fault E (fn +:+ ".docx")) eqn:Hs; run; [discriminate|].
  intros H. invert H. cbn [world files events stdout ticks].
  repeat split.
  - rewrite lookup_insert_eq. eauto.
  - intros p Hp. now rewrite lookup_insert_ne.
Qed.

(** X9. A failed rendering saves nothing: the disk, the events and the
    object are as before, the exception that comes out is logged in one
    line on standard output, and the clock was read at most once. *)
Theorem render_failure_is_logged
        (order : pyval) (fn : string) (st st' : State) (e : pyexn) :
  create_word_document E order fn st = (Raise e, st') ->
  files (world st') = files (world st)
  /\ events (world st') = events (world st)
  /\ self st' = self st
  /\ stdout (world st')
     = stdout (world st) ++ ["Error creando documento de Word: " +:+ exn_str e]
  /\ (ticks (world st') <= S (ticks (world st)))%nat.
Proof.
  unfold create_word_document, save, header_table. run.
  repeat branch; run; intros H; invert H; cbn [self world files events stdout ticks];
    repeat split; lia.
Qed.

(** X10. Rendering succeeds only for an order that is a dict with the keys
    [order_number], [created_at], [line_items], [subtotal_price] and
    [total_price], each of whose line items is a dict with the keys
    [title], [quantity] and [price]. *)
Theorem render_requires_fields
        (order : pyval) (fn : string) (st st' : State) (path : string) :
  create_word_document E order fn st = (Return path, st') ->
  has_keys order_keys order
  /\ exists (line_items : pyval) (items : list pyval),
       py_getitem order "line_items" = Return line_items
       /\ py_iter line_items = Return items
       /\ Forall (has_keys item_keys) items.
Proof.
  intros H.
  destruct (create_word_document_Return E _ _ _ _ _ H)
    as (hdr & cust & tbl & tot & Hh & _ & Hi & Ht & _).
  destruct (header_table_Return E _ _ _ _ Hh)
    as (number & created & fecha & due & Hn & Hc & _).
  unfold totals_table in Ht.
  destruct (totals_cell E order) as [block|] eqn:Hb; [|discriminate Ht].
  destruct (totals_cell_Return E _ _ Hb)
    as (v_sub & v_tot & ? & ? & ? & ? & Hs & _ & _ & _ & Hto & _).
  unfold items_table in Hi.
  destruct (py_getitem order "line_items") as [line_items|] eqn:Hl;
    [|discriminate Hi].
  cbn [rbind] in Hi.
  destruct (py_iter line_items) as [items|] eqn:Hit; [|discriminate Hi].
  cbn [rbind] in Hi.
  destruct (item_rows E items) as [rows|] eqn:Hr; [|discriminate Hi].
  split.
  - destruct (py_getitem_Return _ _ _ Hn) as (d & -> & Hdn).
    exists d. split; [reflexivity|].
    cbn [py_getitem] in Hc, Hl, Hs, Hto.
    unfold order_keys.
    repeat (apply List.Forall_cons;
            [match goal with
             | |- is_Some (dict_lookup ?k d) =>
                 destruct (dict_lookup k d); [eexists; reflexivity|discriminate]
             end|]).
    apply List.Forall_nil.
  - exists line_items, items. split; [reflexivity|]. split; [assumption|].
    clear - Hr. revert rows Hr.
    induction items as [|item items IH]; intros rows Hr; [constructor|].
    cbn [item_rows] in Hr.
    destruct (item_row E item) as [row|] eqn:Hrow; [|discriminate Hr].
    cbn [rbind] in Hr.
    destruct (item_rows E items) as [rows'|]; [|discriminate Hr].
    constructor; [|eapply IH; reflexivity].
    unfold item_row in Hrow.
    destruct item as [| | | | |l|d]; try discriminate Hrow.
    exists d. split; [reflexivity|].
    cbn [py_getitem] in Hrow.
    destruct (dict_lookup "title" d) eqn:Kt; [|discriminate Hrow].
    cbn [rbind] in Hrow.
    destruct (py_get (VDict d) "variant_title" VNone); [|discriminate Hrow].
    cbn [rbind] in Hrow.
    match type of Hrow with
    | rbind ?c _ = _ => destruct c; [|discriminate Hrow]
    end.
    cbn [rbind] in Hrow.
    destruct (text_arg _); [|discriminate Hrow]. cbn [rbind] in Hrow.
    destruct (py_get (VDict d) "sku" (VStr "N/A")); [|discriminate Hrow].
    cbn [rbind] in Hrow.
    destruct (text_arg _); [|discriminate Hrow]. cbn [rbind] in Hrow.
    destruct (dict_lookup "quantity" d) eqn:Kq; [|discriminate Hrow].
    cbn [rbind] in Hrow.
    destruct (dict_lookup "price" d) eqn:Kp; [|discriminate Hrow].
    unfold item_keys.
    repeat (apply List.Forall_cons; [rewrite ?Kt, ?Kq, ?Kp; eexists; reflexivity|]).
    apply List.Forall_nil.
Qed.

Lemma paragraph_text_add_paragraph (text : string) :
  Docx.paragraph_text (Docx.add_paragraph text) = text.
Proof.
  unfold Docx.add_paragraph, Docx.paragraph_text. cbn [Docx.para_runs].
  destruct (String.eqb text EmptyString) eqn:Ht; [|reflexivity].
  apply String.eqb_eq in Ht. now subst.
Qed.

Lemma add_paragraph_val_text (v : pyval) (p : Docx.paragraph) :
  add_paragraph_val v = Return p -> Docx.paragraph_text p = shown_text v.
Proof.
  unfold add_paragraph_val. destruct (py_truthy v) eqn:Ht.
  - destruct v; try discriminate. cbn [text_arg rbind]. intros H. now invert H.
  - intros H. invert H. destruct v; try reflexivity.
    cbn [py_truthy] in Ht. apply negb_false_iff, String.eqb_eq in Ht. now subst.
Qed.

Lemma py_get_dict (d : list (string * pyval)) (k : string) (default : pyval) :
  py_get (VDict d) k default = Return (dict_get k default d).
Proof. unfold py_get, dict_get. now destruct (dict_lookup k d). Qed.

Lemma ship_to_cell_Return (order : pyval) (cell : Docx.cell) :
  ship_to_cell E order = Return cell ->
  exists address : pyval,
    py_get order "shipping_address" VNone = Return address
    /\ if py_truthy address then
         exists d : list (string * pyval),
           address = VDict d
           /\ map Docx.paragraph_text cell
              = [ "ENVIAR A:";
                  pstr E (dict_get "first_name" (VStr EmptyString) d) +:+ " "
                    +:+ pstr E (dict_get "last_name" (VStr EmptyString) d);
                  shown_text (dict_get "address1" (VStr EmptyString) d) ]
                  ++ (if py_truthy (dict_get "address2" VNone d)
                      then [shown_text (dict_get "address2" VNone d)] else [])
                  ++ [ pstr E (dict_get "city" (VStr EmptyString) d) +:+ ", "
                         +:+ pstr E (dict_get "province" (VStr EmptyString) d);
                       pstr E (dict_get "zip" (VStr EmptyString) d) +:+ " - "
                         +:+ pstr E (dict_get "country" (VStr EmptyString) d) ]
       else
         map Docx.paragraph_text cell
         = ["ENVIAR A:"; "Información de envío no disponible"].
Proof.
  intros H. unfold ship_to_cell in H.
  destruct (py_get order "shipping_address" VNone) as [address|] eqn:Ha;
    [|discriminate H].
  cbn [rbind] in H. exists address. split; [reflexivity|].
  destruct (py_truthy address) eqn:Ht; [|now invert H].
  destruct address as [| | | | |l|d]; try discriminate H.
  exists d. split; [reflexivity|].
  rewrite !py_get_dict in H. cbn [rbind] in H.
  destruct (add_paragraph_val (dict_get "address1" (VStr EmptyString) d))
    as [p2|] eqn:H2; [|discriminate H].
  cbn [rbind] in H.
  destruct (py_truthy (dict_get "address2" VNone d)) eqn:Ht2.
  - cbn [py_getitem] in H. unfold dict_get in Ht2, H |- *.
    destruct (dict_lookup "address2" d) as [a2|] eqn:K2; [|discriminate Ht2].
    cbn [rbind] in H.
    destruct (add_paragraph_val a2) as [p3|] eqn:H3; [|discriminate H].
    cbn [rbind] in H. invert H. cbn [map app].
    rewrite !paragraph_text_add_paragraph.
    rewrite (add_paragraph_val_text _ _ H2), (add_paragraph_val_text _ _ H3).
    reflexivity.
  - cbn [rbind] in H. invert H. cbn [map app].
    rewrite !paragraph_text_add_paragraph, (add_paragraph_val_text _ _ H2).
    reflexivity.
Qed.

Lemma bill_to_cell_Return (order : pyval) (cell : Docx.cell) :
  bill_to_cell E order = Return cell ->
  exists customer : pyval,
    py_get order "customer" (VDict []) = Return customer
    /\ if py_truthy customer then
         exists d : list (string * pyval),
           customer = VDict d
           /\ map Docx.paragraph_text cell
              = [ "FACTURAR A:";
                  pstr E (dict_get "first_name" (VStr EmptyString) d) +:+ " "
                    +:+ pstr E (dict_get "last_name" (VStr EmptyString) d);
                  shown_text (dict_get "email" (VStr EmptyString) d) ]
                  ++ (if py_truthy (dict_get "phone" VNone d)
                      then [shown_text (dict_get "phone" VNone d)] else [])
       else map Docx.paragraph_text cell = ["FACTURAR A:"].
Proof.
  intros H. unfold bill_to_cell in H.
  destruct (py_get order "customer" (VDict [])) as [customer|] eqn:Ha;
    [|discriminate H].
  cbn [rbind] in H. exists customer. split; [reflexivity|].
  destruct (py_truthy customer) eqn:Ht; [|now invert H].
  destruct customer as [| | | | |l|d]; try discriminate H.
  exists d. split; [reflexivity|].
  rewrite !py_get_dict in H. cbn [rbind] in H.
  destruct (add_paragraph_val (dict_get "email" (VStr EmptyString) d))
    as [p2|] eqn:H2; [|discriminate H].
  cbn [rbind] in H.
  destruct (py_truthy (dict_get "phone" VNone d)) eqn:Ht2.
  - cbn [py_getitem] in H. unfold dict_get in Ht2, H |- *.
    destruct (dict_lookup "phone" d) as [ph|] eqn:K2; [|discriminate Ht2].
    cbn [rbind] in H.
    destruct (add_paragraph_val ph) as [p3|] eqn:H3; [|discriminate H].
    cbn [rbind] in H. invert H. cbn [map app].
    rewrite !paragraph_text_add_paragraph.
    rewrite (add_paragraph_val_text _ _ H2), (add_paragraph_val_text _ _ H3).
    reflexivity.
  - invert H. cbn [map app].
    rewrite !paragraph_text_add_paragraph, (add_paragraph_val_text _ _ H2).
    reflexivity.
Qed.

Lemma customer_table_Return (order : pyval) (cust : Docx.table) :
  customer_table E order = Return cust ->
  exists bill_to ship_to : Docx.cell,
    bill_to_cell E order = Return bill_to
    /\ ship_to_cell E order = Return ship_to
    /\ Docx.tbl_rows cust = [[bill_to; ship_to]].
Proof.
  unfold customer_table.
  destruct (bill_to_cell E order) as [b|]; [|discriminate]. cbn [rbind].
  destruct (ship_to_cell E order) as [s|]; [|discriminate]. cbn [rbind].
  intros H. invert H. eauto.
Qed.

(** X11. The right cell of the customer band: an order without shipping
    address, or with an empty or null one, shows the placeholder
    "Información de envío no disponible" under the heading; an order with
    one shows the name, the first address line, the second address line
    only when it is not empty, then "city, province" and "zip - country",
    with an empty string for every missing part. *)
Theorem ship_to_block
        (order : pyval) (fn : string) (st st' : State) (path : string) :
  create_word_document E order fn st = (Return path, st') ->
  exists (doc : Docx.document) (cell : Docx.cell) (address : pyval),
    files (world st') !! path = Some doc
    /\ customer_cell doc 1 = Some cell
    /\ py_get order "shipping_address" VNone = Return address
    /\ if py_truthy address then
         exists d : list (string * pyval),
           address = VDict d
           /\ map Docx.paragraph_text cell
              = [ "ENVIAR A:";
                  pstr E (dict_get "first_name" (VStr EmptyString) d) +:+ " "
                    +:+ pstr E (dict_get "last_name" (VStr EmptyString) d);
                  shown_text (dict_get "address1" (VStr EmptyString) d) ]
                  ++ (if py_truthy (dict_get "address2" VNone d)
                      then [shown_text (dict_get "address2" VNone d)] else [])
                  ++ [ pstr E (dict_get "city" (VStr EmptyString) d) +:+ ", "
                         +:+ pstr E (dict_get "province" (VStr EmptyString) d);
                       pstr E (dict_get "zip" (VStr EmptyString) d) +:+ " - "
                         +:+ pstr E (dict_get "country" (VStr EmptyString) d) ]
       else
         map Docx.paragraph_text cell
         = ["ENVIAR A:"; "Información de envío no disponible"].
Proof.
  intros H.
  destruct (create_word_document_Return E _ _ _ _ _ H)
    as (hdr & cust & items & tot & _ & Hc & _ & _ & _ & _ & _ & Hf & _).
  destruct (customer_table_Return _ _ Hc) as (b & s & _ & Hs & Hrows).
  destruct (ship_to_cell_Return _ _ Hs) as (address & Ha & Hcell).
  eexists _, s, address.
  split; [rewrite Hf; apply lookup_insert_eq|].
  split; [|split; [exact Ha|exact Hcell]].
  unfold customer_cell, body_table, table_cell, invoice_document.
  cbn [Docx.body app lookup list_lookup]. now rewrite Hrows.
Qed.

(** X12. The left cell of the customer band: an order without customer, or
    with an empty or null one, shows the heading alone; otherwise the
    name and the e-mail address follow, and the phone number only when
    the customer has one. *)
Theorem bill_to_block
        (order : pyval) (fn : string) (st st' : State) (path : string) :
  create_word_document E order fn st = (Return path, st') ->
  exists (doc : Docx.document) (cell : Docx.cell) (customer : pyval),
    files (world st') !! path = Some doc
    /\ customer_cell doc 0 = Some cell
    /\ py_get order "customer" (VDict []) = Return customer
    /\ if py_truthy customer then
         exists d : list (string * pyval),
           customer = VDict d
           /\ map Docx.paragraph_text cell
              = [ "FACTURAR A:";
                  pstr E (dict_get "first_name" (VStr EmptyString) d) +:+ " "
                    +:+ pstr E (dict_get "last_name" (VStr EmptyString) d);
                  shown_text (dict_get "email" (VStr EmptyString) d) ]
                  ++ (if py_truthy (dict_get "phone" VNone d)
                      then [shown_text (dict_get "phone" VNone d)] else [])
       else map Docx.paragraph_text cell = ["FACTURAR A:"].
Proof.
  intros H.
  destruct (create_word_document_Return E _ _ _ _ _ H)
    as (hdr & cust & items & tot & _ & Hc & _ & _ & _ & _ & _ & Hf & _).
  destruct (customer_table_Return _ _ Hc) as (b & s & Hb & _ & Hrows).
  destruct (bill_to_cell_Return _ _ Hb) as (customer & Ha & Hcell).
  eexists _, b, customer.
  split; [rewrite Hf; apply lookup_insert_eq|].
  split; [|split; [exact Ha|exact Hcell]].
  unfold customer_cell, body_table, table_cell, invoice_document.
  cbn [Docx.body app lookup list_lookup]. now rewrite Hrows.
Qed.

Lemma item_row_cells (item : pyval) (row : list Docx.cell) :
  item_row E item = Return row -> row_of_item E item row.
Proof.
  intros H. unfold item_row in H.
  destruct item as [| | | | |l|d]; try discriminate H.
  rewrite !py_get_dict in H. cbn [py_getitem] in H.
  destruct (dict_lookup "title" d) as [vtitle|] eqn:Kt; [|discriminate H].
  cbn [rbind] in H.
  assert (Hp : exists title : string,
             vtitle = VStr title
             /\ (if py_truthy (dict_get "variant_title" VNone d)
                 then
                   let? vt' := match dict_lookup "variant_title" d with
                               | Some x => Return x
                               | None => Raise (Exn KeyError (quoted "variant_title"))
                               end in
                   py_iadd_str vtitle (nl +:+ pstr E vt')
                 else Return vtitle)
                = Return (VStr (product_text E title d))).
  { unfold product_text, dict_get in *.
    destruct (dict_lookup "variant_title" d) as [vt|] eqn:Kv.
    - destruct (py_truthy vt) eqn:Hv.
      + cbn [rbind] in H |- *.
        destruct vtitle; try discriminate H. eauto.
      + cbn [rbind] in H. destruct vtitle; try discriminate H. eauto.
    - cbn [py_truthy] in H |- *. cbn [rbind] in H.
      destruct vtitle; try discriminate H. eauto. }
  destruct Hp as (title & -> & Hp). rewrite Hp in H. clear Hp.
  cbn [rbind text_arg] in H.
  destruct (dict_get "sku" (VStr "N/A") d) as [| | | |sku| |] eqn:Ks;
    try discriminate H.
  cbn [rbind text_arg] in H.
  destruct (dict_lookup "quantity" d) as [quantity|] eqn:Kq; [|discriminate H].
  cbn [rbind] in H.
  destruct (dict_lookup "price" d) as [price|] eqn:Kp; [|discriminate H].
  cbn [rbind] in H.
  destruct (py_float (repr E) price) as [unit_price|] eqn:Hu; [|discriminate H].
  cbn [rbind] in H. rewrite !format_currency_pesos in H. cbn [rbind] in H.
  destruct (py_float_mul unit_price quantity) as [line_total|] eqn:Hm;
    [|discriminate H].
  cbn [rbind] in H. invert H.
  exists d, title, sku, quantity, price, unit_price, line_total.
  repeat (split; [first [assumption|reflexivity]|]). reflexivity.
Qed.

Lemma item_rows_cells (items : list pyval) :
  forall rows : list (list Docx.cell),
    item_rows E items = Return rows -> Forall2 (row_of_item E) items rows.
Proof.
  induction items as [|item items IH]; intros rows H.
  - invert H. constructor.
  - cbn [item_rows] in H.
    destruct (item_row E item) as [row|] eqn:Hr; [|discriminate H].
    cbn [rbind] in H.
    destruct (item_rows E items) as [rows'|]; [|discriminate H].
    cbn [rbind] in H. invert H.
    constructor; [now apply item_row_cells|now apply IH].
Qed.

(** X13. The table of line items has one row of bold column headings and
    then one row per line item, in order.  A row shows the title (with the
    variant on a second line when the item has one), the SKU, the quantity
    as text, the unit price [float(price)] and the line total
    [float(price) * quantity], both as pesos. *)
Theorem line_item_rows
        (order : pyval) (fn : string) (st st' : State) (path : string) :
  create_word_document E order fn st = (Return path, st') ->
  exists (doc : Docx.document) (line_items : pyval) (items : list pyval)
         (rows : list (list Docx.cell)),
    files (world st') !! path = Some doc
    /\ py_getitem order "line_items" = Return line_items
    /\ py_iter line_items = Return items
    /\ option_map Docx.tbl_rows (body_table doc 4)
       = Some (map header_cell headers :: rows)
    /\ Forall2 (row_of_item E) items rows.
Proof.
  intros H.
  destruct (create_word_document_Return E _ _ _ _ _ H)
    as (hdr & cust & tbl & tot & _ & _ & Hi & _ & _ & _ & _ & Hf & _).
  unfold items_table in Hi.
  destruct (py_getitem order "line_items") as [line_items|] eqn:Hl;
    [|discriminate Hi].
  cbn [rbind] in Hi.
  destruct (py_iter line_items) as [items|] eqn:Hit; [|discriminate Hi].
  cbn [rbind] in Hi.
  destruct (item_rows E items) as [rows|] eqn:Hr; [|discriminate Hi].
  cbn [rbind] in Hi. invert Hi.
  eexists _, line_items, items, rows.
  split; [rewrite Hf; apply lookup_insert_eq|].
  do 2 (split; [first [assumption|reflexivity]|]). split; [reflexivity|].
  now apply item_rows_cells.
Qed.

Lemma format_date_shown (created fecha : pyval) :
  format_date E created = Return fecha -> pstr E fecha = shown_date E created.
Proof.
  unfold format_date, rtry, shown_date, py_fromisoformat.
  destruct created as [| | | |s| |]; cbn [py_replace_Z rbind];
    try (intros H; invert H; reflexivity).
  destruct (Datetime.fromisoformat (replace_Z s)); cbn [rbind];
    intros H; invert H; reflexivity.
Qed.

(** X17. The header of a rendered invoice: on the left the company's name,
    address, phone after [Tel: ], e-mail after [Email: ] and tax id; on
    the right, under the word FACTURA, the order number, then the creation
    date in the form [dd/mm/yyyy] when it is an ISO date and as it came
    otherwise ([None] for a null), then the due date. *)
Theorem header_block
        (order : pyval) (fn : string) (st st' : State) (path : string) :
  create_word_document E order fn st = (Return path, st') ->
  exists (doc : Docx.document) (number created : pyval) (due : Datetime.datetime),
    files (world st') !! path = Some doc
    /\ py_getitem order "order_number" = Return number
    /\ py_getitem order "created_at" = Return created
    /\ Datetime.add_days (now (clock E (ticks (world st)))) 30 = Return due
    /\ option_map (map Docx.paragraph_text) (company_block doc)
       = Some [ name (company_info (self st));
                address (company_info (self st));
                "Tel: " +:+ phone (company_info (self st));
                "Email: " +:+ email (company_info (self st));
                tax_id (company_info (self st)) ]
    /\ header_info_text doc
       = Some (("No. Orden: " +:+ pstr E number +:+ nl)
                 +:+ ("Fecha: " +:+ shown_date E created +:+ nl)
                 +:+ ("Vencimiento: " +:+ Datetime.strftime_dmy (pads_year E) due)).
Proof.
  intros H.
  destruct (create_word_document_Return E _ _ _ _ _ H)
    as (hdr & cust & items & tot & Hh & _ & _ & _ & _ & _ & _ & Hf & _).
  destruct (header_table_Return E _ _ _ _ Hh)
    as (number & created & fecha & due & Hn & Hc & Hd & Hdue & -> & _).
  eexists _, number, created, due.
  split; [rewrite Hf; apply lookup_insert_eq|].
  do 3 (split; [assumption|]).
  split.
  - unfold company_block, body_table, table_cell, invoice_document, header_layout.
    cbn [Docx.body app lookup list_lookup Docx.tbl_rows option_map].
    unfold company_cell. cbn [map]. rewrite !paragraph_text_add_paragraph.
    reflexivity.
  - rewrite header_info_text_invoice_document.
    unfold invoice_info_text. now rewrite (format_date_shown _ _ Hd).
Qed.

Lemma row_of_null_sku (item : list (string * pyval)) (row : list Docx.cell) :
  dict_lookup "sku" item = Some VNone -> ~ row_of_item E (VDict item) row.
Proof.
  intros Hn (d & title & sku & q & p & u & t & Hd & _ & Hs & _).
  invert Hd. unfold dict_get in Hs. rewrite Hn in Hs. discriminate Hs.
Qed.

(** X24. An order that carries a null for the subtotal, the tax, the total
    or the shipping price set, or for the SKU of one of its line items, is
    never rendered: [create_word_document] raises and no file is written.
    (A key that is missing altogether is a different matter for the tax,
    the shipping price set and the SKU, which then have defaults.) *)
Theorem null_field_is_not_rendered
        (d : list (string * pyval)) (fn : string) (st : State) :
  has_null_field d ->
  exists (e : pyexn) (st' : State),
    create_word_document E (VDict d) fn st = (Raise e, st')
    /\ files (world st') = files (world st).
Proof.
  intros Hnull.
  destruct (create_word_document E (VDict d) fn st) as [[path|e] st'] eqn:H.
  2:{ exists e, st'. split; [reflexivity|].
      now destruct (create_word_document_Raise E _ _ _ _ _ H) as (_ & Hf & _). }
  exfalso.
  destruct (create_word_document_Return E _ _ _ _ _ H)
    as (hdr & cust & tbl & tot & _ & _ & Hi & Ht & _).
  unfold totals_table in Ht.
  destruct (totals_cell E (VDict d)) as [block|] eqn:Hb; [|discriminate Ht].
  destruct (totals_cell_Return E _ _ Hb)
    as (v_sub & v_tot & subtotal & taxes & shipping & total
        & H1 & H2 & H3 & H4 & H5 & H6 & _).
  cbn [py_getitem] in H1, H5.
  unfold tax_amount in H3. unfold shipping_amount in H4.
  cbn [py_get] in H3, H4.
  destruct Hnull as [K|[K|[K|[K|(items & item & K & Hin & Hsku)]]]].
  - rewrite K in H1. invert H1. discriminate H2.
  - rewrite K in H3. discriminate H3.
  - rewrite K in H5. invert H5. discriminate H6.
  - rewrite K in H4. discriminate H4.
  - unfold items_table in Hi. cbn [py_getitem] in Hi. rewrite K in Hi.
    cbn [rbind py_iter] in Hi.
    destruct (item_rows E items) as [rows|] eqn:Hr; [|discriminate Hi].
    pose proof (item_rows_cells _ _ Hr) as HF.
    clear - HF Hin Hsku. induction HF as [|x row xs rows Hx _ IH]; [destruct Hin|].
    destruct Hin as [->|Hin]; [|exact (IH Hin)].
    exact (row_of_null_sku _ _ Hsku Hx).
Qed.

End Layout.

Section Orchestration.

Variable E : Env.

Lemma py_all_token (oc : OfficeConfig) :
  py_all (office_config_values oc) = true ->
  py_truthy (office_access_token oc) = true.
Proof.
  unfold py_all, office_config_values. cbn [forallb].
  rewrite !andb_true_iff. tauto.
Qed.

(** The upload stage of a generator that holds a token. *)
Lemma upload_stage_cached
      (path : string) (number : pyval) (st1 st3 st4 : State) (r : PyResult pyval) :
  py_truthy (office_access_token (office_config (self st3))) = true ->
  upload_stage E path number st1 st3 = (r, st4) ->
  self st4 = self st3
  /\ files (world st4) = files (world st3)
  /\ events (world st4)
     = events (world st3)
         ++ match files (world st3) !! path with
            | Some _ =>
                [FileRead path; HttpPut (upload_url (invoice_filename E number st1))]
            | None => []
            end.
Proof.
  intros Ht. unfold upload_stage, upload_to_onedrive, read_file, requests_put, say.
  run. cbn [snd self world files events]. rewrite Ht. cbn [negb]. run.
  fold (upload_url (invoice_filename E number st1)).
  cbn [self world files events].
  destruct (files (world st3) !! path) as [doc|] eqn:Hf; run.
  - repeat branch; try destruct (is_RequestException _); run;
      intros H; invert H; cbn [self world files events];
      rewrite <- ?app_assoc; repeat split.
  - intros H. invert H. cbn [self world files events].
    rewrite app_nil_r. repeat split.
Qed.

Lemma os_remove_present (path : string) (st : State) (doc : Docx.document) :
  files (world st) !! path = Some doc ->
  os_remove path st
  = (Return tt,
     mkState (self st)
       (mkWorld (ticks (world st)) (locale (world st)) (stdout (world st))
          (delete path (files (world st)))
          (events (world st) ++ [FileRemoved path]))).
Proof. intros H. unfold os_remove. run. rewrite H. run. reflexivity. Qed.

(** X14. A result with [cloud_info] comes only from a run that was asked to
    upload on a generator whose four cloud settings, the access token
    included, were all set.  Such a run fetched the order, saved the
    document, read it back and sent it in one PUT; with [save_local]
    false it then removed the local file, which is gone from the disk,
    and otherwise the file is on disk under the path of the result. *)
Theorem cloud_info_means_uploaded
        (order_id : string) (save_local upload_to_cloud : bool) (st st' : State)
        (res : list (string * pyval)) (cloud_info : pyval) :
  generate_invoice E order_id save_local upload_to_cloud st = (Return (VDict res), st') ->
  dict_lookup "cloud_info" res = Some cloud_info ->
  upload_to_cloud = true
  /\ py_all (office_config_values (office_config (self st))) = true
  /\ exists (number : pyval) (filename : string),
       res = [("success", VBool true);
              ("order_number", number);
              ("local_file_path",
               if save_local then VStr (filename +:+ ".docx") else VNone);
              ("cloud_info", cloud_info)]
       /\ events (world st')
          = events (world st)
              ++ [HttpGet (order_url (self st) order_id);
                  FileSaved (filename +:+ ".docx");
                  FileRead (filename +:+ ".docx");
                  HttpPut (upload_url filename)]
              ++ (if save_local then [] else [FileRemoved (filename +:+ ".docx")])
       /\ (if save_local
           then is_Some (files (world st') !! (filename +:+ ".docx"))
           else files (world st') !! (filename +:+ ".docx") = None).
Proof.
  rewrite generate_invoice_eq. unfold failed, succeeded, failure.
  destruct (fetch_stage E order_id st) as [[order|e] st1] eqn:Hfetch;
    [|intros H; invert H; discriminate].
  destruct (fetch_stage_frame E _ _ _ _ Hfetch) as (Hs1 & _ & Hf1 & He1).
  destruct (py_getitem order "order_number") as [number|e];
    [|intros H; invert H; discriminate].
  destruct (render_stage E order number st1) as [[path|e] st3] eqn:Hrender;
    [|intros H; invert H; discriminate].
  destruct (render_stage_Return E _ _ _ _ _ Hrender) as (doc & Hs3 & Hf3 & He3).
  assert (Hpath : path = invoice_filename E number st1 +:+ ".docx").
  { unfold render_stage in Hrender.
    now destruct (create_word_document_Return E _ _ _ _ _ Hrender)
      as (? & ? & ? & ? & _ & _ & _ & _ & Hp & _). }
  destruct upload_to_cloud; cbn [andb];
    [|intros H; invert H; destruct save_local; discriminate].
  destruct (py_all (office_config_values (office_config (self st3)))) eqn:Hall;
    [|intros H; invert H; destruct save_local; discriminate].
  pose proof (py_all_token _ Hall) as Htok.
  destruct (upload_stage E path number st1 st3) as [[ci|e] st4] eqn:Hup;
    [|intros H; invert H; discriminate].
  destruct (upload_stage_cached _ _ _ _ _ _ Htok Hup) as (Hs4 & Hf4 & He4).
  assert (Hdoc : files (world st3) !! path = Some doc)
    by (rewrite Hf3; apply lookup_insert_eq).
  rewrite Hdoc in He4.
  destruct save_local.
  - intros H Hci. invert H. cbn in Hci. invert Hci.
    split; [reflexivity|]. split; [now rewrite <- Hs1, <- Hs3|].
    exists number, (invoice_filename E number st1).
    split; [reflexivity|]. settle.
    split; [rewrite He4, He3, He1, <- !app_assoc; reflexivity|].
    rewrite Hf4, Hdoc. eauto.
  - assert (Hdoc4 : files (world st4) !! path = Some doc) by now rewrite Hf4.
    rewrite (os_remove_present _ _ _ Hdoc4).
    intros H Hci. invert H. cbn in Hci. invert Hci.
    split; [reflexivity|]. split; [now rewrite <- Hs1, <- Hs3|].
    exists number, (invoice_filename E number st1).
    split; [reflexivity|]. settle.
    split; [rewrite He4, He3, He1, <- !app_assoc; reflexivity|].
    apply lookup_delete_eq.
Qed.

(** X15. [generate_invoice] removes a file only in a run with [save_local]
    false that was asked to upload, and only after the upload of that very
    file has returned.  A run in which the fetch, the rendering or the
    upload fails therefore removes nothing; and whatever a run does not
    remove is still on disk when it ends, the files from before as well as
    the document it saved. *)
Theorem removal_only_after_upload
        (order_id : string) (save_local upload_to_cloud : bool) (st st' : State)
        (r : PyResult pyval) :
  generate_invoice E order_id save_local upload_to_cloud st = (r, st') ->
  exists new_events : list event,
    events (world st') = events (world st) ++ new_events
    /\ (forall p : string,
          In (FileRemoved p) new_events ->
          save_local = false
          /\ upload_to_cloud = true
          /\ exists (order number cloud_info : pyval) (st1 st3 st4 : State),
               fetch_stage E order_id st = (Return order, st1)
               /\ py_getitem order "order_number" = Return number
               /\ render_stage E order number st1 = (Return p, st3)
               /\ upload_stage E p number st1 st3 = (Return cloud_info, st4))
    /\ (forall p : string,
          ~ In (FileRemoved p) new_events ->
          is_Some (files (world st) !! p) \/ In (FileSaved p) new_events ->
          is_Some (files (world st') !! p)).
Proof.
  rewrite generate_invoice_eq. unfold failed, succeeded, failure.
  destruct (fetch_stage E order_id st) as [[order|e] st1] eqn:Hfetch;
    destruct (fetch_stage_frame E _ _ _ _ Hfetch) as (Hs1 & _ & Hf1 & He1).
  2:{ intros H. invert H. settle. eexists. split; [exact He1|].
      split; [intros p [Hp|[]]; discriminate|].
      intros p _ [Hp|[Hp|[]]]; [now rewrite Hf1|discriminate]. }
  destruct (py_getitem order "order_number") as [number|e] eqn:Hnum.
  2:{ intros H. invert H. settle. eexists. split; [exact He1|].
      split; [intros p [Hp|[]]; discriminate|].
      intros p _ [Hp|[Hp|[]]]; [now rewrite Hf1|discriminate]. }
  destruct (render_stage E order number st1) as [[path|e] st3] eqn:Hrender.
  2:{ destruct (render_stage_Raise E _ _ _ _ _ Hrender) as (_ & Hf3 & He3).
      intros H. invert H. settle. eexists. split; [rewrite He3; exact He1|].
      split; [intros p [Hp|[]]; discriminate|].
      intros p _ [Hp|[Hp|[]]]; [now rewrite Hf3, Hf1|discriminate]. }
  destruct (render_stage_Return E _ _ _ _ _ Hrender) as (doc & Hs3 & Hf3 & He3).
  assert (Hdoc : files (world st3) !! path = Some doc)
    by (rewrite Hf3; apply lookup_insert_eq).
  assert (Hkeep : forall p : string,
             is_Some (files (world st) !! p) \/ p = path ->
             is_Some (files (world st3) !! p)).
  { intros p [Hp| ->]; [|rewrite Hdoc; eauto]. rewrite Hf3, Hf1.
    destruct (decide (path = p)) as [->|Hne];
      [rewrite lookup_insert_eq; eauto|now rewrite lookup_insert_ne]. }
  destruct (upload_to_cloud
            && py_all (office_config_values (office_config (self st3)))) eqn:Hon.
  2:{ intros H. invert H. settle.
      exists [HttpGet (order_url (self st) order_id); FileSaved path].
      split; [rewrite He3, He1, <- app_assoc; reflexivity|].
      split; [intros p Hp; cbn in Hp; intuition discriminate|].
      intros p _ [Hp|Hp]; apply Hkeep; [now left|right].
      cbn in Hp. destruct Hp as [Hp|[Hp|[]]]; [discriminate|now invert Hp]. }
  apply andb_true_iff in Hon. destruct Hon as (Hup_on & Hall).
  pose proof (py_all_token _ Hall) as Htok.
  destruct (upload_stage E path number st1 st3) as [[ci|e] st4] eqn:Hup;
    destruct (upload_stage_cached _ _ _ _ _ _ Htok Hup) as (Hs4 & Hf4 & He4);
    rewrite Hdoc in He4.
  2:{ intros H. invert H. settle.
      exists [HttpGet (order_url (self st) order_id); FileSaved path;
              FileRead path; HttpPut (upload_url (invoice_filename E number st1))].
      split; [rewrite He4, He3, He1, <- !app_assoc; reflexivity|].
      split; [intros p Hp; cbn in Hp; intuition discriminate|].
      intros p _ [Hp|Hp]; rewrite Hf4; apply Hkeep; [now left|right].
      cbn in Hp. destruct Hp as [Hp|[Hp|[Hp|[Hp|[]]]]]; try discriminate.
      now invert Hp. }
  destruct save_local.
  - intros H. invert H. settle.
    exists [HttpGet (order_url (self st) order_id); FileSaved path;
            FileRead path; HttpPut (upload_url (invoice_filename E number st1))].
    split; [rewrite He4, He3, He1, <- !app_assoc; reflexivity|].
    split; [intros p Hp; cbn in Hp; intuition discriminate|].
    intros p _ [Hp|Hp]; rewrite Hf4; apply Hkeep; [now left|right].
    cbn in Hp. destruct Hp as [Hp|[Hp|[Hp|[Hp|[]]]]]; try discriminate.
    now invert Hp.
  - assert (Hdoc4 : files (world st4) !! path = Some doc) by now rewrite Hf4.
    rewrite (os_remove_present _ _ _ Hdoc4).
    intros H. invert H. settle.
    exists [HttpGet (order_url (self st) order_id); FileSaved path;
            FileRead path; HttpPut (upload_url (invoice_filename E number st1));
            FileRemoved path].
    split; [rewrite He4, He3, He1, <- !app_assoc; reflexivity|].
    split.
    + intros p Hp. cbn in Hp.
      destruct Hp as [Hp|[Hp|[Hp|[Hp|[Hp|[]]]]]]; try discriminate.
      invert Hp. split; [reflexivity|]. split; [reflexivity|].
      exists order, number, ci, st1, st3, st4. repeat split; assumption.
    + intros p Hno Hp.
      assert (Hne : p <> path).
      { intros ->. apply Hno. cbn. tauto. }
      rewrite lookup_delete_ne by congruence. rewrite Hf4. apply Hkeep.
      destruct Hp as [Hp|Hp]; [now left|right].
      cbn in Hp. destruct Hp as [Hp|[Hp|[Hp|[Hp|[Hp|[]]]]]]; try discriminate.
      now invert Hp.
Qed.

(** X18. The file of a successful run is named after the order number and
    the whole seconds of the clock at the start of the run:
    [Factura_<order number>_<seconds>.docx].  With [save_local] the result
    gives that path, and the file is on disk when the run returns. *)
Theorem invoice_path_name
        (order_id : string) (upload_to_cloud : bool) (st st' : State)
        (res : list (string * pyval)) :
  generate_invoice E order_id true upload_to_cloud st = (Return (VDict res), st') ->
  dict_lookup "success" res = Some (VBool true) ->
  exists number : pyval,
    dict_lookup "order_number" res = Some number
    /\ dict_lookup "local_file_path" res
       = Some (VStr (invoice_path E number (timestamp (clock E (ticks (world st))))))
    /\ is_Some (files (world st')
                  !! invoice_path E number (timestamp (clock E (ticks (world st))))).
Proof.
  rewrite generate_invoice_eq. unfold failed, succeeded, failure.
  destruct (fetch_stage E order_id st) as [[order|e] st1] eqn:Hfetch;
    [|intros H Hs; invert H; discriminate Hs].
  destruct (fetch_stage_frame E _ _ _ _ Hfetch) as (_ & Ht1 & _ & _).
  destruct (py_getitem order "order_number") as [number|e];
    [|intros H Hs; invert H; discriminate Hs].
  destruct (render_stage E order number st1) as [[path|e] st3] eqn:Hrender;
    [|intros H Hs; invert H; discriminate Hs].
  destruct (render_stage_Return E _ _ _ _ _ Hrender) as (doc & Hs3 & Hf3 & _).
  assert (Hpath : path = invoice_path E number (timestamp (clock E (ticks (world st))))).
  { unfold render_stage in Hrender.
    destruct (create_word_document_Return E _ _ _ _ _ Hrender)
      as (? & ? & ? & ? & _ & _ & _ & _ & Hp & _).
    rewrite Hp. unfold invoice_filename, invoice_path. rewrite Ht1.
    now rewrite !append_assoc. }
  assert (Hdoc : files (world st3) !! path = Some doc)
    by (rewrite Hf3; apply lookup_insert_eq).
  destruct (upload_to_cloud
            && py_all (office_config_values (office_config (self st3)))) eqn:Hon.
  2:{ intros H _. invert H. exists number. settle.
      split; [reflexivity|]. split; [reflexivity|]. rewrite Hdoc. eauto. }
  apply andb_true_iff in Hon. destruct Hon as (_ & Hall).
  pose proof (py_all_token _ Hall) as Htok.
  destruct (upload_stage E path number st1 st3) as [[ci|e] st4] eqn:Hup;
    [|intros H Hs; invert H; discriminate Hs].
  destruct (upload_stage_cached _ _ _ _ _ _ Htok Hup) as (_ & Hf4 & _).
  intros H _. invert H. exists number. settle.
  split; [reflexivity|]. split; [reflexivity|]. rewrite Hf4, Hdoc. eauto.
Qed.

End Orchestration.

Section FileNames.

Variable E : Env.

Lemma string_of_uint_no_minus (d : Decimal.uint) (s : string) :
  NilEmpty.string_of_uint d <> String "-" s.
Proof. destruct d; discriminate. Qed.

Lemma digits_of_N_inj (a b : N) : digits_of_N a = digits_of_N b -> a = b.
Proof.
  unfold digits_of_N. intros H.
  apply DecimalN.Unsigned.to_uint_inj.
  assert (K : Some (N.to_uint a) = Some (N.to_uint b))
    by (rewrite <- !NilEmpty.usu; now rewrite H).
  now injection K.
Qed.

Lemma string_of_Z_inj (a b : Z) : string_of_Z a = string_of_Z b -> a = b.
Proof.
  unfold string_of_Z.
  destruct (a <? 0) eqn:Ha, (b <? 0) eqn:Hb; intros H.
  - change ("-" +:+ ?x) with (String "-" x) in H.
    injection H as H. apply digits_of_N_inj in H. lia.
  - change ("-" +:+ ?x) with (String "-" x) in H.
    symmetry in H. now apply string_of_uint_no_minus in H.
  - change ("-" +:+ ?x) with (String "-" x) in H.
    now apply string_of_uint_no_minus in H.
  - apply digits_of_N_inj in H. lia.
Qed.

Lemma append_inv_head (a x y : string) : a +:+ x = a +:+ y -> x = y.
Proof.
  induction a as [|c a IH]; intros H; [exact H|].
  rewrite !append_cons in H. injection H as H. now apply IH.
Qed.

Lemma append_inv_tail (a x y : string) : x +:+ a = y +:+ a -> x = y.
Proof.
  intros H. apply (f_equal list_ascii_of_string) in H.
  rewrite !list_ascii_of_string_app in H. apply app_inv_tail in H.
  rewrite <- (string_of_list_ascii_of_string x),
    <- (string_of_list_ascii_of_string y). now rewrite H.
Qed.

(** A successful run with [save_local] wrote its document under the path
    its result gives, and touched no other file. *)
Lemma successful_run_files
      (order_id : string) (upload_to_cloud : bool) (st st' : State)
      (res : list (string * pyval)) :
  generate_invoice E order_id true upload_to_cloud st = (Return (VDict res), st') ->
  dict_lookup "success" res = Some (VBool true) ->
  exists (number : pyval) (doc : Docx.document),
    dict_lookup "order_number" res = Some number
    /\ dict_lookup "local_file_path" res
       = Some (VStr (invoice_path E number (timestamp (clock E (ticks (world st))))))
    /\ files (world st')
       = <[invoice_path E number (timestamp (clock E (ticks (world st)))) := doc]>
           (files (world st)).
Proof.
  rewrite generate_invoice_eq. unfold failed, succeeded, failure.
  destruct (fetch_stage E order_id st) as [[order|e] st1] eqn:Hfetch;
    [|intros H Hs; invert H; discriminate Hs].
  destruct (fetch_stage_frame E _ _ _ _ Hfetch) as (_ & Ht1 & Hf1 & _).
  destruct (py_getitem order "order_number") as [number|e];
    [|intros H Hs; invert H; discriminate Hs].
  destruct (render_stage E order number st1) as [[path|e] st3] eqn:Hrender;
    [|intros H Hs; invert H; discriminate Hs].
  destruct (render_stage_Return E _ _ _ _ _ Hrender) as (doc & Hs3 & Hf3 & _).
  assert (Hpath : path = invoice_path E number (timestamp (clock E (ticks (world st))))).
  { unfold render_stage in Hrender.
    destruct (create_word_document_Return E _ _ _ _ _ Hrender)
      as (? & ? & ? & ? & _ & _ & _ & _ & Hp & _).
    rewrite Hp. unfold invoice_filename, invoice_path. rewrite Ht1.
    now rewrite !append_assoc. }
  rewrite Hf1 in Hf3.
  destruct (upload_to_cloud
            && py_all (office_config_values (office_config (self st3)))) eqn:Hon.
  2:{ intros H _. invert H. exists number, doc. settle.
      split; [reflexivity|]. split; [reflexivity|exact Hf3]. }
  apply andb_true_iff in Hon. destruct Hon as (_ & Hall).
  pose proof (py_all_token _ Hall) as Htok.
  destruct (upload_stage E path number st1 st3) as [[ci|e] st4] eqn:Hup;
    [|intros H Hs; invert H; discriminate Hs].
  destruct (upload_stage_cached E _ _ _ _ _ _ Htok Hup) as (_ & Hf4 & _).
  intros H _. invert H. exists number, doc. settle.
  split; [reflexivity|]. split; [reflexivity|]. now rewrite Hf4.
Qed.

(** X22. Two successful runs of [generate_invoice] with [save_local], the
    second starting where the first ended, for orders with the same order
    number: the second run changes the disk by writing its document under
    its path, and the two results give the same path exactly when the clock
    showed the same whole second at the start of both.  In that case the
    second run has written over the document of the first and the disk
    holds the same file names as after the first run; otherwise the
    document of the first run is still there, unchanged. *)
Theorem same_second_same_file
        (id1 id2 : string) (up1 up2 : bool) (st0 st1 st2 : State)
        (res1 res2 : list (string * pyval)) :
  generate_invoice E id1 true up1 st0 = (Return (VDict res1), st1) ->
  dict_lookup "success" res1 = Some (VBool true) ->
  generate_invoice E id2 true up2 st1 = (Return (VDict res2), st2) ->
  dict_lookup "success" res2 = Some (VBool true) ->
  dict_lookup "order_number" res1 = dict_lookup "order_number" res2 ->
  exists path1 path2 : string,
    dict_lookup "local_file_path" res1 = Some (VStr path1)
    /\ dict_lookup "local_file_path" res2 = Some (VStr path2)
    /\ (exists doc2 : Docx.document,
          files (world st2) = <[path2 := doc2]> (files (world st1)))
    /\ (path1 = path2
        <-> timestamp (clock E (ticks (world st0)))
            = timestamp (clock E (ticks (world st1))))
    /\ (path1 = path2 ->
        forall p : string,
          is_Some (files (world st2) !! p) <-> is_Some (files (world st1) !! p))
    /\ (path1 <> path2 ->
        files (world st2) !! path1 = files (world st1) !! path1
        /\ is_Some (files (world st2) !! path1)
        /\ is_Some (files (world st2) !! path2)).
Proof.
  intros H1 S1 H2 S2 Hn.
  destruct (successful_run_files _ _ _ _ _ H1 S1) as (n1 & d1 & N1 & P1 & F1).
  destruct (successful_run_files _ _ _ _ _ H2 S2) as (n2 & d2 & N2 & P2 & F2).
  rewrite N1, N2 in Hn. invert Hn.
  eexists _, _. split; [exact P1|]. split; [exact P2|].
  split; [exists d2; exact F2|].
  split; [|split].
  - split; [|now intros ->].
    unfold invoice_path. intros H.
    do 3 apply append_inv_head in H.
    apply append_inv_tail in H. now apply string_of_Z_inj.
  - intros Hp p. rewrite F2, <- Hp, F1.
    destruct (decide (invoice_path E n2 (timestamp (clock E (ticks (world st0)))) = p))
      as [->|Hne].
    + rewrite !lookup_insert_eq. split; eauto.
    + rewrite !lookup_insert_ne by assumption. reflexivity.
  - intros Hp. rewrite F2.
    split; [now rewrite lookup_insert_ne by congruence|].
    split.
    + rewrite lookup_insert_ne by congruence. rewrite F1, lookup_insert_eq. eauto.
    + rewrite lookup_insert_eq. eauto.
Qed.

End FileNames.

Section DateFormat.

Variable E : Env.

Lemma replace_Z_other (c : ascii) (r : string) :
  Ascii.eqb c "Z" = false -> replace_Z (String c r) = String c (replace_Z r).
Proof. intros H. cbn [replace_Z]. now rewrite H. Qed.

Lemma append_empty (s : string) : EmptyString +:+ s = s.
Proof. reflexivity. Qed.

(** A date in the form [dd/mm/yyyy] is no ISO date. *)
Lemma fromisoformat_dmy (pad : bool) (dt : Datetime.datetime) :
  Datetime.fromisoformat (replace_Z (Datetime.strftime_dmy pad dt)) = None.
Proof.
  unfold Datetime.strftime_dmy.
  unfold Datetime.two_digits at 1.
  rewrite !append_cons.
  rewrite !replace_Z_digit by apply is_digit_digit_char.
  rewrite !append_empty, (replace_Z_other "/") by reflexivity.
  unfold Datetime.fromisoformat, Datetime.parse_isoformat_date.
  cbn [list_ascii_of_string Datetime.parse_digits].
  rewrite !is_digit_digit_char.
  change (Float64.is_digit "/") with false.
  reflexivity.
Qed.

(** X16. [format_date] applied to its own result changes nothing: a date it
    has put in the form [dd/mm/yyyy] is not read as an ISO date again, and
    a value it returned unchanged is returned unchanged again. *)
Theorem format_date_idempotent (v r : pyval) :
  format_date E v = Return r -> format_date E r = Return r.
Proof.
  intros H. pose proof H as H0. unfold format_date, rtry in H.
  destruct v as [| | | |s| |]; try (invert H; exact H0).
  cbn [py_replace_Z rbind] in H. unfold py_fromisoformat in H.
  destruct (Datetime.fromisoformat (replace_Z s)) as [dt|];
    cbn [rbind] in H; invert H; [|exact H0].
  unfold format_date, rtry, py_fromisoformat. cbn [py_replace_Z rbind].
  now rewrite fromisoformat_dmy.
Qed.

End DateFormat.

Section Webhook.

Variable E : Env.

Lemma generate_invoice_returns
      (order_id : string) (save_local upload_to_cloud : bool) (st : State) :
  exists (result : pyval) (st' : State),
    generate_invoice E order_id save_local upload_to_cloud st = (Return result, st').
Proof.
  rewrite generate_invoice_eq. unfold failed, succeeded.
  destruct (fetch_stage E order_id st) as [[order|e] st1]; [|eauto].
  destruct (py_getitem order "order_number") as [number|e]; [|eauto].
  destruct (render_stage E order number st1) as [[path|e] st3]; [|eauto].
  destruct (upload_to_cloud && _); [|eauto].
  destruct (upload_stage E path number st1 st3) as [[cloud_info|e] st4]; [|eauto].
  destruct save_local; [eauto|].
  destruct (os_remove path st4) as [[[]|e] st5]; eauto.
Qed.

(** The module's configuration always builds the same generator. *)
Lemma init_app_config (w : World) :
  exists w1 : World,
    init E app_config w = (Return sample_generator, w1)
    /\ ticks w1 = ticks w /\ stdout w1 = stdout w
    /\ files w1 = files w /\ events w1 = events w.
Proof.
  assert (H1 : app_config !! "shop_domain" = Some "cshop.co")
    by (vm_compute; reflexivity).
  assert (H2 : app_config !! "shopify_access_token" = Some "shpat_tu_token")
    by (vm_compute; reflexivity).
  unfold init, setlocale. rewrite H1, H2.
  destruct (locale_available E "es_CO.UTF-8");
    [|destruct (locale_available E "es_ES.UTF-8")];
    eexists; (split; [f_equal; f_equal; vm_compute; reflexivity|repeat split]).
Qed.

(** X19. A delivery whose body cannot be read or has no [id] is answered
    500 with the message of the exception under [error]; nothing is
    requested and nothing is written for it.  An answer of 200 always
    belongs to a delivery with an [id]: it carries the status
    [Factura generada] and, under [path], the result of [generate_invoice]
    for [str(id)], saved locally and not uploaded, on a generator built from
    the module's configuration. *)
Theorem webhook_status
        (request_json : PyResult pyval) (w w' : World) (body : pyval) (code : Z) :
  handle_webhook E request_json w = ((body, code), w') ->
  (forall e : pyexn,
      delivered_id request_json = Raise e ->
      code = 500
      /\ body = VDict [("error", VStr (exn_str e))]
      /\ files w' = files w
      /\ events w' = events w
      /\ stdout w' = stdout w ++ ["Error al procesar la orden: " +:+ exn_str e])
  /\ (code = 200 ->
      exists (order_id : pyval) (st0 st1 : State) (result : pyval),
        delivered_id request_json = Return order_id
        /\ self st0 = sample_generator
        /\ files (world st0) = files w
        /\ events (world st0) = events w
        /\ generate_invoice E (pstr E order_id) true false st0 = (Return result, st1)
        /\ body = VDict [("status", VStr "Factura generada"); ("path", result)]
        /\ files w' = files (world st1)
        /\ events w' = events (world st1)).
Proof.
  unfold handle_webhook, delivered_id, webhook_error, world_print.
  destruct request_json as [data|e]; cbn [rbind].
  2:{ intros H. invert H. split; [|discriminate].
      intros e0 He. invert He. repeat split. }
  destruct (py_getitem data "id") as [order_id|e].
  2:{ intros H. invert H. split; [|discriminate].
      intros e0 He. invert He. repeat split. }
  match goal with
  | |- context [init E app_config ?w0] =>
      destruct (init_app_config w0) as (w1 & -> & _ & _ & Hf & He)
  end.
  cbn [files events] in Hf, He.
  destruct (generate_invoice_returns (pstr E order_id) true false
              (mkState sample_generator w1)) as (result & st1 & Hg).
  rewrite Hg. intros H. invert H.
  split; [discriminate|]. intros _.
  exists order_id, (mkState sample_generator w1), st1, result.
  repeat split; assumption.
Qed.

(** X20. When the shop answers the request for the order with a status
    between 400 and 599, the hook still answers 200 with the status
    [Factura generada]; the failure only shows under [path], as the result
    with [success = False] and the message of the HTTP error.  No file is
    written. *)
Theorem webhook_reports_failed_fetch
        (data order_id : pyval) (w : World) (resp : response) :
  py_getitem data "id" = Return order_id ->
  http_get E (order_url sample_generator (pstr E order_id))
    (shopify_headers sample_generator) = Return resp ->
  400 <= status_code resp < 600 ->
  exists w' : World,
    handle_webhook E (Return data) w
    = ((VDict [("status", VStr "Factura generada");
               ("path",
                VDict [("success", VBool false);
                       ("error",
                        VStr (exn_str
                                (http_error
                                   (order_url sample_generator (pstr E order_id))
                                   resp)))])],
        200), w')
    /\ files w' = files w.
Proof.
  intros Hid Hget Hst. unfold handle_webhook. rewrite Hid.
  match goal with
  | |- context [init E app_config ?w0] =>
      destruct (init_app_config w0) as (w1 & -> & _ & _ & Hf & _)
  end.
  cbn [files world_print] in Hf.
  rewrite generate_invoice_eq.
  unfold fetch_stage, get_shopify_order, requests_get, say. run.
  cbn [snd self world].
  fold (order_url sample_generator (pstr E order_id)).
  fold (shopify_headers sample_generator).
  rewrite Hget, (raise_for_status_error _ _ Hst).
  unfold failed, failure, world_print, say. run.
  eexists. split; [reflexivity|].
  cbn [files world snd]. exact Hf.
Qed.

(** X21. The hook never uploads and never removes: whatever it is sent, its
    only effects are at most one request to the shop and one saved file,
    and every file that was on disk is still there. *)
Theorem webhook_local_only
        (request_json : PyResult pyval) (w w' : World) (body : pyval) (code : Z) :
  handle_webhook E request_json w = ((body, code), w') ->
  exists new_events : list event,
    events w' = events w ++ new_events
    /\ Forall local_only new_events
    /\ (length new_events <= 2)%nat
    /\ (forall p : string, is_Some (files w !! p) -> is_Some (files w' !! p)).
Proof.
  unfold handle_webhook, webhook_error, world_print.
  destruct request_json as [data|e].
  2:{ intros H. invert H. exists []. cbn [events files length].
      rewrite app_nil_r. repeat split; [constructor|lia|auto]. }
  destruct (py_getitem data "id") as [order_id|e].
  2:{ intros H. invert H. exists []. cbn [events files length].
      rewrite app_nil_r. repeat split; [constructor|lia|auto]. }
  match goal with
  | |- context [init E app_config ?w0] =>
      destruct (init_app_config w0) as (w1 & -> & _ & _ & Hf & He)
  end.
  cbn [files events] in Hf, He.
  destruct (generate_invoice E (pstr E order_id) true false
              (mkState sample_generator w1)) as [[result|e] st1] eqn:Hg.
  2:{ destruct (generate_invoice_returns (pstr E order_id) true false
                  (mkState sample_generator w1)) as (? & ? & Hr).
      rewrite Hr in Hg. discriminate Hg. }
  revert Hg. rewrite generate_invoice_eq. unfold failed, succeeded.
  intros Hg H. invert H. cbn [events files].
  destruct (fetch_stage E (pstr E order_id) (mkState sample_generator w1))
    as [[order|e] st2] eqn:Hfetch;
    destruct (fetch_stage_frame E _ _ _ _ Hfetch) as (_ & _ & Hf2 & He2);
    cbn [self world] in Hf2, He2.
  2:{ invert Hg. settle. eexists. split; [rewrite He2, He; reflexivity|].
      split; [repeat constructor|]. split; [cbn; lia|].
      now rewrite Hf2, Hf. }
  destruct (py_getitem order "order_number") as [number|e].
  2:{ invert Hg. settle. eexists. split; [rewrite He2, He; reflexivity|].
      split; [repeat constructor|]. split; [cbn; lia|].
      now rewrite Hf2, Hf. }
  destruct (render_stage E order number st2) as [[path|e] st3] eqn:Hrender.
  2:{ destruct (render_stage_Raise E _ _ _ _ _ Hrender) as (_ & Hf3 & He3).
      invert Hg. settle. eexists.
      split; [rewrite He3, He2, He; reflexivity|].
      split; [repeat constructor|]. split; [cbn; lia|].
      now rewrite Hf3, Hf2, Hf. }
  destruct (render_stage_Return E _ _ _ _ _ Hrender) as (doc & _ & Hf3 & He3).
  cbn [andb] in Hg. invert Hg. settle.
  exists [HttpGet (order_url sample_generator (pstr E order_id)); FileSaved path].
  split; [rewrite He3, He2, He, <- app_assoc; reflexivity|].
  split; [repeat constructor|]. split; [cbn; lia|].
  intros p Hp. rewrite Hf3, Hf2, Hf.
  destruct (decide (path = p)) as [->|Hne];
    [rewrite lookup_insert_eq; eauto|now rewrite lookup_insert_ne].
Qed.

End Webhook.

(* ===================================================================== *)
(** * The further properties on the sample data *)
(* ===================================================================== *)

Lemma init_locale_fallback_witness :
  exists w' : World,
    init spanish_env app_config empty_world = (Return sample_generator, w')
    /\ locale w' = Some "es_ES.UTF-8"
    /\ files w' = ∅.
Proof.
  set (r := init spanish_env app_config empty_world).
  assert (H : r = (Return sample_generator, snd r)) by (vm_compute; reflexivity).
  destruct (init_locale_fallback spanish_env _ _ _ _ H) as (Hl & _ & _ & Hf & _).
  exists (snd r). split; [exact H|]. split; [exact Hl|exact Hf].
Defined.

Lemma get_shopify_order_outcomes_witness :
  (exists st' : State,
      get_shopify_order sample_env "1001" sample_state = (Return sample_order, st')
      /\ stdout (world st') = [])
  /\ (exists st' : State,
        get_shopify_order empty_body_env "1001" sample_state
        = (Raise (Exn KeyError "'order'"), st')
        /\ order_request empty_body_env sample_generator "1001"
           = Raise (Exn KeyError "'order'")
        /\ stdout (world st') = []).
Proof.
  split.
  - set (r := get_shopify_order sample_env "1001" sample_state).
    assert (H : r = (Return sample_order, snd r)) by (vm_compute; reflexivity).
    destruct (get_shopify_order_outcomes sample_env "1001" sample_state (snd r) _ H)
      as (_ & Hs & _).
    exists (snd r). split; [exact H|exact Hs].
  - set (r := get_shopify_order empty_body_env "1001" sample_state).
    assert (H : r = (Raise (Exn KeyError "'order'"), snd r))
      by (vm_compute; reflexivity).
    destruct (get_shopify_order_outcomes empty_body_env "1001" sample_state
                (snd r) _ H)
      as (Hr & Hs).
    exists (snd r). split; [exact H|]. split; [symmetry; exact Hr|].
    rewrite Hs. reflexivity.
Defined.

Lemma get_shopify_order_http_error_witness :
  exists st' : State,
    get_shopify_order not_found_env "1001" sample_state = (Raise not_found, st')
    /\ stdout (world st')
       = ["Error obteniendo orden de Shopify: " +:+ exn_str not_found].
Proof.
  destruct (get_shopify_order_http_error not_found_env "1001" sample_state
              (mkResponse 404 "Not Found" (Return VNone)) eq_refl)
    as (st' & Hg & Hs & _); [cbn; lia|].
  exists st'. split; [exact Hg|exact Hs].
Defined.

Lemma get_office_access_token_caches_witness :
  exists st' : State,
    get_office_access_token sample_env cloud_state = (Return (VStr "tok"), st')
    /\ office_access_token (office_config (self st')) = VStr "tok"
    /\ events (world st')
       = [HttpPost "https://login.microsoftonline.com/tenant/oauth2/v2.0/token"].
Proof.
  set (r := get_office_access_token sample_env cloud_state).
  assert (H : r = (Return (VStr "tok"), snd r)) by (vm_compute; reflexivity).
  destruct (get_office_access_token_caches sample_env _ _ _ H)
    as (_ & _ & He & Ht & _).
  exists (snd r). split; [exact H|]. split; [exact Ht|exact He].
Defined.

Lemma upload_reuses_cached_token_witness :
  exists (r : PyResult pyval) (st' : State),
    upload_to_onedrive sample_env sample_path sample_filename
      (mkState token_generator rendered_world) = (r, st')
    /\ self st' = token_generator
    /\ events (world st')
       = [FileSaved sample_path; FileRead sample_path;
          HttpPut (upload_url sample_filename)].
Proof.
  set (r := upload_to_onedrive sample_env sample_path sample_filename
              (mkState token_generator rendered_world)).
  assert (H : r = (fst r, snd r)) by (destruct r; reflexivity).
  destruct (upload_reuses_cached_token sample_env sample_path sample_filename
              (mkState token_generator rendered_world) (snd r) (fst r) eq_refl H)
    as (Hs & _ & He & _).
  exists (fst r), (snd r). split; [exact H|]. split; [exact Hs|].
  rewrite He. vm_compute. reflexivity.
Defined.

Lemma upload_acquires_token_first_witness :
  exists (r : PyResult pyval) (st' : State),
    upload_to_onedrive sample_env sample_path sample_filename
      (mkState cloud_generator rendered_world) = (r, st')
    /\ office_access_token (office_config (self st')) = VStr "tok".
Proof.
  set (r := upload_to_onedrive sample_env sample_path sample_filename
              (mkState cloud_generator rendered_world)).
  assert (H : r = (fst r, snd r)) by (destruct r; reflexivity).
  pose proof (upload_acquires_token_first sample_env sample_path sample_filename
                (mkState cloud_generator rendered_world) (snd r) (fst r) eq_refl H) as K.
  exists (fst r), (snd r). split; [exact H|].
  vm_compute. reflexivity.
Defined.

Lemma upload_result_witness :
  exists st' : State,
    upload_to_onedrive sample_env sample_path sample_filename
      (mkState token_generator rendered_world)
    = (Return (VDict [("document_id", VStr "doc-1");
                      ("web_url", VStr "https://example.com/view");
                      ("download_url", VStr "https://example.com/download")]), st')
    /\ exists doc : Docx.document, files rendered_world !! sample_path = Some doc.
Proof.
  set (r := upload_to_onedrive sample_env sample_path sample_filename
              (mkState token_generator rendered_world)).
  assert (H : r = (Return (VDict [("document_id", VStr "doc-1");
                                  ("web_url", VStr "https://example.com/view");
                                  ("download_url",
                                   VStr "https://example.com/download")]), snd r))
    by (vm_compute; reflexivity).
  destruct (upload_result sample_env sample_path sample_filename
              (mkState token_generator rendered_world) (snd r) _ eq_refl H)
    as (doc & ? & ? & ? & ? & ? & Hf & _).
  exists (snd r). split; [exact H|]. exists doc. exact Hf.
Defined.

Lemma render_writes_one_file_witness :
  create_word_document sample_env sample_order sample_filename sample_state
  = (Return sample_path, snd sample_rendering)
  /\ events (world (snd sample_rendering)) = [FileSaved sample_path].
Proof.
  assert (H : create_word_document sample_env sample_order sample_filename sample_state
              = (Return sample_path, snd sample_rendering))
    by (vm_compute; reflexivity).
  split; [exact H|].
  destruct (render_writes_one_file sample_env _ _ _ _ _ H) as (_ & _ & _ & _ & He & _).
  exact He.
Defined.

Lemma render_failure_is_logged_witness :
  exists st' : State,
    create_word_document sample_env (VDict []) "vacia" sample_state
    = (Raise (Exn KeyError "'order_number'"), st')
    /\ files (world st') = ∅
    /\ stdout (world st') = ["Error creando documento de Word: 'order_number'"].
Proof.
  set (r := create_word_document sample_env (VDict []) "vacia" sample_state).
  assert (H : r = (Raise (Exn KeyError "'order_number'"), snd r))
    by (vm_compute; reflexivity).
  destruct (render_failure_is_logged sample_env _ _ _ _ _ H) as (Hf & _ & _ & Hs & _).
  exists (snd r). split; [exact H|]. split; [exact Hf|exact Hs].
Defined.

Lemma render_requires_fields_witness :
  create_word_document sample_env sample_order sample_filename sample_state
  = (Return sample_path, snd sample_rendering)
  /\ has_keys order_keys sample_order.
Proof.
  assert (H : create_word_document sample_env sample_order sample_filename sample_state
              = (Return sample_path, snd sample_rendering))
    by (vm_compute; reflexivity).
  split; [exact H|].
  exact (proj1 (render_requires_fields sample_env _ _ _ _ _ H)).
Defined.

Lemma ship_to_block_witness :
  exists (st' : State) (doc : Docx.document) (cell : Docx.cell),
    create_word_document sample_env shipped_order sample_filename sample_state
    = (Return sample_path, st')
    /\ files (world st') !! sample_path = Some doc
    /\ customer_cell doc 1 = Some cell
    /\ map Docx.paragraph_text cell
       = ["ENVIAR A:"; "Ana Rojas"; "Calle 5 # 10-20";
          "Cali, Valle del Cauca"; "760001 - Colombia"].
Proof.
  set (r := create_word_document sample_env shipped_order sample_filename sample_state).
  assert (H : r = (Return sample_path, snd r)) by (vm_compute; reflexivity).
  destruct (ship_to_block sample_env _ _ _ _ _ H)
    as (doc & cell & address & Hf & Hc & Ha & Hcell).
  exists (snd r), doc, cell.
  split; [exact H|]. split; [exact Hf|]. split; [exact Hc|].
  vm_compute in Ha. injection Ha as <-.
  destruct Hcell as (d & Hd & Ht). injection Hd as <-. exact Ht.
Defined.

Lemma bill_to_block_witness :
  create_word_document sample_env sample_order sample_filename sample_state
  = (Return sample_path, snd sample_rendering)
  /\ exists (doc : Docx.document) (cell : Docx.cell),
       sample_document = Some doc
       /\ customer_cell doc 0 = Some cell
       /\ map Docx.paragraph_text cell
          = ["FACTURAR A:"; "Ana Rojas"; "ana@example.com"].
Proof.
  assert (H : create_word_document sample_env sample_order sample_filename sample_state
              = (Return sample_path, snd sample_rendering))
    by (vm_compute; reflexivity).
  split; [exact H|].
  destruct (bill_to_block sample_env _ _ _ _ _ H)
    as (doc & cell & customer & Hf & Hc & Ha & Hcell).
  exists doc, cell. split; [exact Hf|]. split; [exact Hc|].
  vm_compute in Ha. injection Ha as <-.
  destruct Hcell as (d & Hd & Ht). injection Hd as <-. exact Ht.
Defined.

Lemma line_item_rows_witness :
  create_word_document sample_env sample_order sample_filename sample_state
  = (Return sample_path, snd sample_rendering)
  /\ exists (doc : Docx.document) (rows : list (list Docx.cell)),
       sample_document = Some doc
       /\ option_map Docx.tbl_rows (body_table doc 4)
          = Some (map header_cell headers :: rows)
       /\ map (map (map Docx.paragraph_text)) rows
          = [[["Camiseta" +:+ nl +:+ "M"]; ["CAM-M"]; ["2"];
              ["$5,000 COP"]; ["$10,000 COP"]];
             [["Gorra"]; ["N/A"]; ["1"]; ["$10,000 COP"]; ["$10,000 COP"]]].
Proof.
  assert (H : create_word_document sample_env sample_order sample_filename sample_state
              = (Return sample_path, snd sample_rendering))
    by (vm_compute; reflexivity).
  split; [exact H|].
  destruct (line_item_rows sample_env _ _ _ _ _ H)
    as (doc & line_items & items & rows & Hf & _ & _ & Hr & _).
  exists doc, rows. split; [exact Hf|]. split; [exact Hr|].
  assert (Hd : sample_document = Some doc) by exact Hf.
  vm_compute in Hd. injection Hd as <-.
  vm_compute in Hr. injection Hr as <-.
  vm_compute. reflexivity.
Defined.

Lemma header_block_witness :
  create_word_document sample_env sample_order sample_filename sample_state
  = (Return sample_path, snd sample_rendering)
  /\ exists doc : Docx.document,
       sample_document = Some doc
       /\ header_info_text doc
          = Some ("No. Orden: #1001" +:+ nl +:+ "Fecha: 05/03/2024" +:+ nl
                    +:+ "Vencimiento: 01/07/2024")
       /\ option_map (map Docx.paragraph_text) (company_block doc)
          = Some ["CSHOP SAS"; "CRA 34 3-65"; "Tel: +57 3158103812";
                  "Email: info@cshop.co"; "NIT: 901410087-8"].
Proof.
  assert (H : create_word_document sample_env sample_order sample_filename sample_state
              = (Return sample_path, snd sample_rendering))
    by (vm_compute; reflexivity).
  split; [exact H|].
  destruct (header_block sample_env _ _ _ _ _ H)
    as (doc & number & created & due & Hf & Hn & Hc & Hdue & Hco & Hi).
  exists doc. split; [exact Hf|].
  vm_compute in Hn. injection Hn as <-.
  vm_compute in Hc. injection Hc as <-.
  vm_compute in Hdue. injection Hdue as <-.
  split; [rewrite Hi; vm_compute; reflexivity|exact Hco].
Defined.

Lemma null_field_is_not_rendered_witness :
  has_null_field null_tax_fields
  /\ exists (e : pyexn) (st' : State),
       create_word_document sample_env (VDict null_tax_fields) sample_filename
         sample_state = (Raise e, st')
       /\ files (world st') = ∅.
Proof.
  assert (Hn : has_null_field null_tax_fields) by (right; left; reflexivity).
  split; [exact Hn|].
  exact (null_field_is_not_rendered sample_env _ sample_filename sample_state Hn).
Defined.

Lemma cloud_info_means_uploaded_witness :
  exists (st' : State) (cloud_info : pyval),
    generate_invoice sample_env "1001" false true token_state
    = (Return (VDict [("success", VBool true);
                      ("order_number", VStr "#1001");
                      ("local_file_path", VNone);
                      ("cloud_info", cloud_info)]), st')
    /\ files (world st') !! sample_path = None
    /\ events (world st')
       = [HttpGet "https://cshop.co/admin/api/2023-10/orders/1001.json";
          FileSaved sample_path; FileRead sample_path;
          HttpPut (upload_url sample_filename); FileRemoved sample_path].
Proof.
  set (r := generate_invoice sample_env "1001" false true token_state).
  set (ci := VDict [("document_id", VStr "doc-1");
                    ("web_url", VStr "https://example.com/view");
                    ("download_url", VStr "https://example.com/download")]).
  assert (H : r = (Return (VDict [("success", VBool true);
                                  ("order_number", VStr "#1001");
                                  ("local_file_path", VNone);
                                  ("cloud_info", ci)]), snd r))
    by (vm_compute; reflexivity).
  destruct (cloud_info_means_uploaded sample_env "1001" false true token_state (snd r) _ ci
              H eq_refl)
    as (_ & _ & number & filename & _ & _ & _).
  exists (snd r), ci. split; [exact H|]. split; vm_compute; reflexivity.
Defined.

Lemma removal_only_after_upload_witness :
  exists (st' : State) (message : string),
    generate_invoice cloud_down_env "1001" false true token_state
    = (Return (VDict [("success", VBool false); ("error", VStr message)]), st')
    /\ events (world st')
       = [HttpGet "https://cshop.co/admin/api/2023-10/orders/1001.json";
          FileSaved sample_path; FileRead sample_path;
          HttpPut (upload_url sample_filename)]
    /\ is_Some (files (world st') !! sample_path).
Proof.
  set (r := generate_invoice cloud_down_env "1001" false true token_state).
  set (message :=
         "503 Server Error: Service Unavailable for url: "
           +:+ upload_url sample_filename).
  assert (H : r = (Return (VDict [("success", VBool false);
                                  ("error", VStr message)]), snd r))
    by (vm_compute; reflexivity).
  assert (K : events (world (snd r))
              = [HttpGet "https://cshop.co/admin/api/2023-10/orders/1001.json";
                 FileSaved sample_path; FileRead sample_path;
                 HttpPut (upload_url sample_filename)])
    by (vm_compute; reflexivity).
  destruct (removal_only_after_upload cloud_down_env "1001" false true token_state
              (snd r) _ H)
    as (new_events & He & _ & Hkeep).
  exists (snd r), message. split; [exact H|]. split; [exact K|].
  rewrite K in He. cbn in He. subst new_events.
  apply Hkeep.
  - cbn. intuition discriminate.
  - right. cbn. tauto.
Defined.

Lemma invoice_path_name_witness :
  exists st' : State,
    generate_invoice sample_env "1001" true false sample_state
    = (Return (VDict [("success", VBool true);
                      ("order_number", VStr "#1001");
                      ("local_file_path", VStr sample_path)]), st')
    /\ invoice_path sample_env (VStr "#1001") 1717261200 = sample_path
    /\ is_Some (files (world st') !! sample_path).
Proof.
  set (r := generate_invoice sample_env "1001" true false sample_state).
  assert (H : r = (Return (VDict [("success", VBool true);
                                  ("order_number", VStr "#1001");
                                  ("local_file_path", VStr sample_path)]), snd r))
    by (vm_compute; reflexivity).
  destruct (invoice_path_name sample_env "1001" false sample_state (snd r) _ H eq_refl)
    as (number & Hn & _ & Hf).
  exists (snd r). split; [exact H|]. split; [reflexivity|].
  cbn in Hn. injection Hn as <-. exact Hf.
Defined.

Lemma format_date_idempotent_witness :
  format_date sample_env (VStr "2024-03-05T10:00:00Z") = Return (VStr "05/03/2024")
  /\ format_date sample_env (VStr "05/03/2024") = Return (VStr "05/03/2024").
Proof.
  assert (H : format_date sample_env (VStr "2024-03-05T10:00:00Z")
              = Return (VStr "05/03/2024")) by (vm_compute; reflexivity).
  split; [exact H|exact (format_date_idempotent sample_env _ _ H)].
Defined.

Lemma webhook_status_witness :
  (exists w' : World,
      handle_webhook sample_env (Return sample_order) empty_world
      = ((VDict [("status", VStr "Factura generada");
                 ("path",
                  VDict [("success", VBool true);
                         ("order_number", VStr "#1001");
                         ("local_file_path", VStr sample_path)])], 200), w')
      /\ delivered_id (Return sample_order) = Return (VInt 1001))
  /\ (exists w' : World,
        handle_webhook sample_env (Return (VDict [])) empty_world
        = ((VDict [("error", VStr "'id'")], 500), w')
        /\ events w' = []
        /\ files w' = ∅).
Proof.
  split.
  - set (r := handle_webhook sample_env (Return sample_order) empty_world).
    assert (H : r = ((VDict [("status", VStr "Factura generada");
                             ("path",
                              VDict [("success", VBool true);
                                     ("order_number", VStr "#1001");
                                     ("local_file_path", VStr sample_path)])],
                      200), snd r))
      by (vm_compute; reflexivity).
    destruct (webhook_status sample_env (Return sample_order) empty_world (snd r)
                _ _ H)
      as (_ & K).
    destruct (K eq_refl) as (order_id & _ & _ & _ & Hid & _).
    exists (snd r). split; [exact H|reflexivity].
  - set (r := handle_webhook sample_env (Return (VDict [])) empty_world).
    assert (H : r = ((VDict [("error", VStr "'id'")], 500), snd r))
      by (vm_compute; reflexivity).
    destruct (webhook_status sample_env (Return (VDict [])) empty_world (snd r)
                _ _ H)
      as (K & _).
    destruct (K (Exn KeyError "'id'") eq_refl) as (_ & _ & Hf & He & _).
    exists (snd r). split; [exact H|]. split; [exact He|exact Hf].
Defined.

Lemma webhook_reports_failed_fetch_witness :
  exists w' : World,
    handle_webhook not_found_env (Return sample_order) empty_world
    = ((VDict [("status", VStr "Factura generada");
               ("path",
                VDict [("success", VBool false);
                       ("error", VStr (exn_str not_found))])], 200), w')
    /\ files w' = ∅.
Proof.
  destruct (webhook_reports_failed_fetch not_found_env sample_order (VInt 1001)
              empty_world (mkResponse 404 "Not Found" (Return VNone))
              eq_refl eq_refl)
    as (w' & Hw & Hf); [cbn; lia|].
  exists w'. split; [exact Hw|exact Hf].
Defined.

Lemma webhook_local_only_witness :
  exists (w' : World) (body : pyval),
    handle_webhook sample_env (Return sample_order) empty_world = ((body, 200), w')
    /\ events w'
       = [HttpGet "https://cshop.co/admin/api/2023-10/orders/1001.json";
          FileSaved sample_path].
Proof.
  set (r := handle_webhook sample_env (Return sample_order) empty_world).
  assert (H : r = ((fst (fst r), 200), snd r)) by (vm_compute; reflexivity).
  destruct (webhook_local_only sample_env (Return sample_order) empty_world (snd r) _ _ H)
    as (new_events & _).
  exists (snd r), (fst (fst r)). split; [exact H|]. vm_compute. reflexivity.
Defined.

Lemma same_second_same_file_witness :
  exists (st1 st2 : State),
    generate_invoice sample_env "1001" true false sample_state
    = (Return (VDict [("success", VBool true);
                      ("order_number", VStr "#1001");
                      ("local_file_path", VStr sample_path)]), st1)
    /\ generate_invoice sample_env "1001" true false st1
       = (Return (VDict [("success", VBool true);
                         ("order_number", VStr "#1001");
                         ("local_file_path", VStr sample_path)]), st2)
    /\ forall p : string,
         is_Some (files (world st2) !! p) <-> is_Some (files (world st1) !! p).
Proof.
  set (r1 := generate_invoice sample_env "1001" true false sample_state).
  set (r2 := generate_invoice sample_env "1001" true false (snd r1)).
  set (res := [("success", VBool true);
               ("order_number", VStr "#1001");
               ("local_file_path", VStr sample_path)]).
  assert (H1 : r1 = (Return (VDict res), snd r1)) by (vm_compute; reflexivity).
  assert (H2 : r2 = (Return (VDict res), snd r2)) by (vm_compute; reflexivity).
  destruct (same_second_same_file sample_env "1001" "1001" false false
              sample_state (snd r1) (snd r2) res res
              H1 eq_refl H2 eq_refl eq_refl)
    as (path1 & path2 & P1 & P2 & _ & _ & Hsame & _).
  exists (snd r1), (snd r2). split; [exact H1|]. split; [exact H2|].
  apply Hsame. cbn in P1, P2. congruence.
Defined.

Lemma format_currency_fallback_fails_witness :
  format_currency (VInt (10 ^ 400))
  = Raise (Exn OverflowError "int too large to convert to float")
  /\ format_currency (VStr "20000.00")
     = Raise (Exn ValueError "Unknown format code 'f' for object of type 'str'")
  /\ format_currency VNone
     = Raise (Exn TypeError "unsupported format string passed to NoneType.__format__").
Proof.
  destruct format_currency_fallback_fails as (_ & _ & K).
  split; [|split].
  - pose proof (K (VInt (10 ^ 400))) as H.
    assert (U : unformattable (VInt (10 ^ 400)) = true) by (vm_compute; reflexivity).
    rewrite U in H. destruct H as (e & He & ->).
    vm_compute in He. now injection He as <-.
  - pose proof (K (VStr "20000.00")) as H.
    cbn [unformattable] in H. destruct H as (e & He & ->).
    cbn [format_float] in He. now injection He as <-.
  - pose proof (K VNone) as H.
    cbn [unformattable] in H. destruct H as (e & He & ->).
    vm_compute in He. now injection He as <-.
Defined.
